(** * Facility & event booking hub: the server's workflow layer

    A shallow embedding of [shared/schema.ts], [server/storage.ts],
    [server/routes.ts] and [script/seed-admin.ts].  Tables are lists of
    typed rows in insertion order, request and response bodies are JSON
    values, a handler is a function from the request, the clock and the
    store to a response and a store.

    What the libraries and the runtime contribute (bcrypt, jsonwebtoken,
    zod's e-mail pattern, [parseInt], the driver's text encoding, the
    collation, PostgreSQL's date and time input) is the class [Runtime].

    The store runs the statements that [storage.ts] issues with the checks
    that the tables of [schema.ts] make PostgreSQL apply to them.  The
    parameters of a statement are checked before it runs: the range of an
    [integer], the encoding of a text, the syntax of a [date] and a
    [time], the length of a [varchar(n)].  The unique e-mail and the
    foreign keys are checked when it runs, after an INSERT has taken the
    next value of its sequence, which the sequence does not give back.  A
    statement that is refused throws, and the handler's [catch] answers
    500.  A character of a text is one UTF-16 unit of the program's
    string, so that the length of a text is the one zod measures.

    Three things are taken as given: a sequence does not run out and is
    ahead of the keys of its table; the hash that bcrypt returns is a
    text PostgreSQL stores; and the id of a verified token is one that
    this server signed, the key of a row of [users] at the time, so that
    a statement finds the caller's id in the range of [integer]. *)

From Stdlib Require Import ZArith Ascii String List Lia Bool.
From stdpp Require Import base option list gmap strings relations.

Set Warnings "-register-all".
Local Open Scope Z_scope.
Local Open Scope string_scope.

(** ** JSON values *)

(** Numbers are the integers; a [Date] is kept as its epoch value. *)
Inductive jsval :=
| JNull
| JBool (b : bool)
| JNum (n : Z)
| JStr (s : string)
| JDate (t : Z)
| JArr (l : list jsval)
| JObj (o : gmap string jsval).

Definition json_opt {A} (f : A -> jsval) (o : option A) : jsval :=
  match o with Some a => f a | None => JNull end.

(** [o.k] of an object nested in a JSON value. *)
Definition jget (k : string) (v : jsval) : option jsval :=
  match v with JObj o => o !! k | _ => None end.

(** ** shared/schema.ts *)

Inductive UserRole := student | faculty | admin.
Inductive BookingStatus := pending | approved | rejected.
Inductive FacilityStatus := available | maintenance | closed.
Inductive NotificationStatus := unread | read.

#[global] Instance UserRole_eq_dec : EqDecision UserRole.
Proof. solve_decision. Defined.
#[global] Instance BookingStatus_eq_dec : EqDecision BookingStatus.
Proof. solve_decision. Defined.
#[global] Instance FacilityStatus_eq_dec : EqDecision FacilityStatus.
Proof. solve_decision. Defined.
#[global] Instance NotificationStatus_eq_dec : EqDecision NotificationStatus.
Proof. solve_decision. Defined.

Definition userRoleEnum (r : UserRole) : string :=
  match r with student => "student" | faculty => "faculty" | admin => "admin" end.

Definition bookingStatusEnum (s : BookingStatus) : string :=
  match s with pending => "pending" | approved => "approved" | rejected => "rejected" end.

Definition facilityStatusEnum (s : FacilityStatus) : string :=
  match s with available => "available" | maintenance => "maintenance" | closed => "closed" end.

Definition notificationStatusEnum (s : NotificationStatus) : string :=
  match s with unread => "unread" | read => "read" end.

Definition parse_userRole (s : string) : option UserRole :=
  if decide (s = "student") then Some student
  else if decide (s = "faculty") then Some faculty
  else if decide (s = "admin") then Some admin
  else None.

Definition parse_facilityStatus (s : string) : option FacilityStatus :=
  if decide (s = "available") then Some available
  else if decide (s = "maintenance") then Some maintenance
  else if decide (s = "closed") then Some closed
  else None.

(** Rows, as [$inferSelect] types them. *)
Module User.
Record t := mk {
  id : Z;
  email : string;
  password : string;
  firstName : option string;
  lastName : option string;
  studentId : option string;
  role : UserRole;
  createdAt : option Z;
  updatedAt : option Z;
}.
End User.

Module Facility.
Record t := mk {
  id : Z;
  name : string;
  description : option string;
  capacity : option Z;
  location : option string;
  status : FacilityStatus;
  amenities : option string;
  imageUrl : option string;
  createdAt : option Z;
  updatedAt : option Z;
}.
End Facility.

Module Booking.
Record t := mk {
  id : Z;
  userId : Z;
  facilityId : Z;
  eventName : string;
  eventDescription : option string;
  purpose : option string;
  eventDate : string;
  startTime : string;
  endTime : string;
  attendees : option Z;
  equipmentNeeded : option string;
  status : BookingStatus;
  adminNotes : option string;
  reviewedBy : option Z;
  reviewedAt : option Z;
  createdAt : option Z;
  updatedAt : option Z;
}.
End Booking.

Module Notification.
Record t := mk {
  id : Z;
  userId : Z;
  title : string;
  message : string;
  type : string;
  relatedBookingId : option Z;
  status : NotificationStatus;
  createdAt : option Z;
}.
End Notification.

(** Insert types ([z.infer] of the insert schemas). *)
Module InsertUser.
Record t := mk {
  email : string;
  password : string;
  firstName : option string;
  lastName : option string;
  studentId : option string;
  role : option UserRole;
}.
End InsertUser.

Module InsertFacility.
Record t := mk {
  name : string;
  description : option string;
  capacity : option Z;
  location : option string;
  status : option FacilityStatus;
  amenities : option string;
  imageUrl : option string;
}.
End InsertFacility.

Module InsertBooking.
Record t := mk {
  userId : Z;
  facilityId : Z;
  eventName : string;
  eventDescription : option string;
  purpose : option string;
  eventDate : string;
  startTime : string;
  endTime : string;
  attendees : option Z;
  equipmentNeeded : option string;
}.
End InsertBooking.

Module InsertNotification.
Record t := mk {
  userId : Z;
  title : string;
  message : string;
  type : string;
  relatedBookingId : option Z;
}.
End InsertNotification.

(** [BookingWithRelations]: a booking with the rows its relations load;
    a relation that finds no row is [null]. *)
Module BookingWithRelations.
Record t := mk {
  booking : Booking.t;
  user : option User.t;
  facility : option Facility.t;
  reviewer : option User.t;
}.
End BookingWithRelations.

(** The result of [getBookingStats]. *)
Module BookingStats.
Record t := mk { pending : Z; approved : Z; rejected : Z; total : Z }.
End BookingStats.

(** The row objects the driver hands back: one key per column. *)
Definition json_of_user (u : User.t) : gmap string jsval :=
  list_to_map [
    ("id", JNum (User.id u));
    ("email", JStr (User.email u));
    ("password", JStr (User.password u));
    ("firstName", json_opt JStr (User.firstName u));
    ("lastName", json_opt JStr (User.lastName u));
    ("studentId", json_opt JStr (User.studentId u));
    ("role", JStr (userRoleEnum (User.role u)));
    ("createdAt", json_opt JDate (User.createdAt u));
    ("updatedAt", json_opt JDate (User.updatedAt u)) ].

Definition json_of_facility (f : Facility.t) : gmap string jsval :=
  list_to_map [
    ("id", JNum (Facility.id f));
    ("name", JStr (Facility.name f));
    ("description", json_opt JStr (Facility.description f));
    ("capacity", json_opt JNum (Facility.capacity f));
    ("location", json_opt JStr (Facility.location f));
    ("status", JStr (facilityStatusEnum (Facility.status f)));
    ("amenities", json_opt JStr (Facility.amenities f));
    ("imageUrl", json_opt JStr (Facility.imageUrl f));
    ("createdAt", json_opt JDate (Facility.createdAt f));
    ("updatedAt", json_opt JDate (Facility.updatedAt f)) ].

Definition json_of_booking (b : Booking.t) : gmap string jsval :=
  list_to_map [
    ("id", JNum (Booking.id b));
    ("userId", JNum (Booking.userId b));
    ("facilityId", JNum (Booking.facilityId b));
    ("eventName", JStr (Booking.eventName b));
    ("eventDescription", json_opt JStr (Booking.eventDescription b));
    ("purpose", json_opt JStr (Booking.purpose b));
    ("eventDate", JStr (Booking.eventDate b));
    ("startTime", JStr (Booking.startTime b));
    ("endTime", JStr (Booking.endTime b));
    ("attendees", json_opt JNum (Booking.attendees b));
    ("equipmentNeeded", json_opt JStr (Booking.equipmentNeeded b));
    ("status", JStr (bookingStatusEnum (Booking.status b)));
    ("adminNotes", json_opt JStr (Booking.adminNotes b));
    ("reviewedBy", json_opt JNum (Booking.reviewedBy b));
    ("reviewedAt", json_opt JDate (Booking.reviewedAt b));
    ("createdAt", json_opt JDate (Booking.createdAt b));
    ("updatedAt", json_opt JDate (Booking.updatedAt b)) ].

Definition json_of_notification (n : Notification.t) : gmap string jsval :=
  list_to_map [
    ("id", JNum (Notification.id n));
    ("userId", JNum (Notification.userId n));
    ("title", JStr (Notification.title n));
    ("message", JStr (Notification.message n));
    ("type", JStr (Notification.type n));
    ("relatedBookingId", json_opt JNum (Notification.relatedBookingId n));
    ("status", JStr (notificationStatusEnum (Notification.status n)));
    ("createdAt", json_opt JDate (Notification.createdAt n)) ].

(** The range of an [integer] column; drizzle-zod gives the number
    schema of such a column the same bounds. *)
Definition int4 (n : Z) : Prop := -2147483648 <= n <= 2147483647.

#[global] Instance int4_dec n : Decision (int4 n).
Proof. unfold int4. apply _. Defined.

(** *** zod

    [safeParse] of a [z.object] reads the keys of its shape and drops every
    other key of the input; [None] stands for [success: false]. *)

Definition z_string (v : option jsval) : option string :=
  match v with Some (JStr s) => Some s | _ => None end.

Definition z_number (v : option jsval) : option Z :=
  match v with Some (JNum n) => Some n | _ => None end.

(** The schema of an [integer] column. *)
Definition z_int4 (v : option jsval) : option Z :=
  n ← z_number v; if decide (int4 n) then Some n else None.

Definition z_max (n : nat) (s : string) : option string :=
  if decide (String.length s <= n)%nat then Some s else None.

Definition z_min (n : nat) (s : string) : option string :=
  if decide (n <= String.length s)%nat then Some s else None.

Definition z_varchar (n : nat) (v : option jsval) : option string :=
  z_string v ≫= z_max n.

(** [.optional()]: a missing key is accepted. *)
Definition z_optional {A} (p : option jsval -> option A) (v : option jsval)
  : option (option A) :=
  match v with
  | None => Some None
  | Some _ => Some <$> p v
  end.

(** [.optional().nullable()], the schema of a nullable column. *)
Definition z_nullish {A} (p : option jsval -> option A) (v : option jsval)
  : option (option A) :=
  match v with
  | None | Some JNull => Some None
  | Some _ => Some <$> p v
  end.

Definition z_userRole (v : option jsval) : option UserRole :=
  z_string v ≫= parse_userRole.

Definition z_facilityStatus (v : option jsval) : option FacilityStatus :=
  z_string v ≫= parse_facilityStatus.

(** [insertBookingSchema]: the columns of [bookings] without [id],
    [status], [adminNotes], [reviewedBy], [reviewedAt], [createdAt] and
    [updatedAt]. *)
Definition insertBookingSchema (data : gmap string jsval) : option InsertBooking.t :=
  userId ← z_int4 (data !! "userId");
  facilityId ← z_int4 (data !! "facilityId");
  eventName ← z_varchar 255 (data !! "eventName");
  eventDescription ← z_nullish z_string (data !! "eventDescription");
  purpose ← z_nullish z_string (data !! "purpose");
  eventDate ← z_string (data !! "eventDate");
  startTime ← z_string (data !! "startTime");
  endTime ← z_string (data !! "endTime");
  attendees ← z_nullish z_int4 (data !! "attendees");
  equipmentNeeded ← z_nullish z_string (data !! "equipmentNeeded");
  Some (InsertBooking.mk userId facilityId eventName eventDescription purpose
          eventDate startTime endTime attendees equipmentNeeded).

(** [insertFacilitySchema]. *)
Definition insertFacilitySchema (data : gmap string jsval) : option InsertFacility.t :=
  name ← z_varchar 255 (data !! "name");
  description ← z_nullish z_string (data !! "description");
  capacity ← z_nullish z_int4 (data !! "capacity");
  location ← z_nullish (z_varchar 255) (data !! "location");
  status ← z_optional z_facilityStatus (data !! "status");
  amenities ← z_nullish z_string (data !! "amenities");
  imageUrl ← z_nullish z_string (data !! "imageUrl");
  Some (InsertFacility.mk name description capacity location status amenities imageUrl).

(** ** The runtime and the libraries *)

(** The payload of a token, [AuthRequest.user]. *)
Module AuthUser.
Record t := mk { id : Z; email : string; role : string }.
End AuthUser.

Class Runtime := {
  (** [process.env.SESSION_SECRET] *)
  SESSION_SECRET : option string;
  (** [bcrypt.hash(s, 10)] and [bcrypt.compare(s, hash)] *)
  bcrypt_hash : string -> string;
  bcrypt_compare : string -> string -> bool;
  (** [jwt.sign(payload, secret, { expiresIn: "7d" })] at a given time, and
      [jwt.verify(token, secret)], [None] when it throws *)
  jwt_sign : AuthUser.t -> string -> Z -> string;
  jwt_verify : string -> string -> Z -> option AuthUser.t;
  (** the pattern of [z.string().email()] *)
  zod_email : string -> bool;
  (** [parseInt], [None] for [NaN] *)
  parseInt : string -> option Z;
  (** [String(v)] of a value that is not a string *)
  js_toString : jsval -> string;
  (** the text the driver sends for a parameter that is not a string *)
  pg_text : jsval -> string;
  (** the collation of [ORDER BY] on a text column *)
  collate_le : string -> string -> bool;
  (** the value of a [date] and of a [time] column that PostgreSQL reads
      from a text, as it returns it; [None] when it refuses the text *)
  pg_date : string -> option string;
  pg_time : string -> option string;
  (** the row that [UPDATE facilities SET {...data, updatedAt}] leaves for
      an unvalidated [data], [None] when the statement fails *)
  pg_updateFacility : gmap string jsval -> Z -> Facility.t -> option Facility.t;
}.

(** Truthiness of a value read from a body. *)
Definition js_truthy (v : option jsval) : bool :=
  match v with
  | None | Some JNull => false
  | Some (JBool b) => b
  | Some (JNum n) => negb (Z.eqb n 0)
  | Some (JStr s) => negb (String.eqb s "")
  | Some _ => true
  end.

(** [s.split(" ")] *)
Fixpoint split_space (s : string) : list string :=
  match s with
  | EmptyString => [EmptyString]
  | String c s' =>
      if Ascii.eqb c " "%char then EmptyString :: split_space s'
      else match split_space s' with
           | w :: ws => String c w :: ws
           | [] => [String c EmptyString]
           end
  end.

(** ** The values PostgreSQL takes *)

(** A text parameter is refused, when the statement is bound, if it holds
    the character NUL. *)
Fixpoint no_nul (s : string) : bool :=
  match s with
  | EmptyString => true
  | String c s' => negb (Ascii.eqb c "000"%char) && no_nul s'
  end.

Definition pg_bind (s : string) : option string :=
  if no_nul s then Some s else None.

Definition pg_bind_int4 (n : Z) : option Z :=
  if decide (int4 n) then Some n else None.

(** A nullable column: [null] and [undefined] of an insert are NULL. *)
Definition nullable {A B} (f : A -> option B) (o : option A) : option (option B) :=
  match o with
  | Some a => Some <$> f a
  | None => Some None
  end.

Fixpoint all_spaces (s : string) : bool :=
  match s with
  | EmptyString => true
  | String c s' => Ascii.eqb c " "%char && all_spaces s'
  end.

Fixpoint string_take (n : nat) (s : string) : string :=
  match n, s with
  | S n', String c s' => String c (string_take n' s')
  | _, _ => EmptyString
  end.

Fixpoint string_drop (n : nat) (s : string) : string :=
  match n, s with
  | S n', String _ s' => string_drop n' s'
  | _, _ => s
  end.

(** A text assigned to a [varchar(n)] column: a longer text is refused
    unless what exceeds [n] characters is spaces, which are cut off.  The
    value is a parameter of the statement, so the check is made when the
    statement is planned with its parameters, before it runs. *)
Definition varchar (n : nat) (s : string) : option string :=
  if decide (String.length s <= n)%nat then Some s
  else if all_spaces (string_drop n s) then Some (string_take n s)
  else None.

(** A foreign key that may be NULL. *)
Definition refers (keys : list Z) (o : option Z) : Prop :=
  match o with
  | Some k => k ∈ keys
  | None => True
  end.

#[global] Instance refers_dec keys o : Decision (refers keys o).
Proof. destruct o; unfold refers; apply _. Defined.

(** ** server/storage.ts *)

Record Db := mkDb {
  users : list User.t;
  facilities : list Facility.t;
  bookings : list Booking.t;
  notifications : list Notification.t;
  (** the sequences behind the [serial] keys *)
  users_id_seq : Z;
  facilities_id_seq : Z;
  bookings_id_seq : Z;
  notifications_id_seq : Z;
}.

Definition empty_db : Db := mkDb [] [] [] [] 1 1 1 1.

Definition with_users (us : list User.t) (db : Db) : Db :=
  mkDb us (facilities db) (bookings db) (notifications db)
       (users_id_seq db) (facilities_id_seq db) (bookings_id_seq db)
       (notifications_id_seq db).

Definition with_facilities (fs : list Facility.t) (db : Db) : Db :=
  mkDb (users db) fs (bookings db) (notifications db)
       (users_id_seq db) (facilities_id_seq db) (bookings_id_seq db)
       (notifications_id_seq db).

Definition with_bookings (bs : list Booking.t) (db : Db) : Db :=
  mkDb (users db) (facilities db) bs (notifications db)
       (users_id_seq db) (facilities_id_seq db) (bookings_id_seq db)
       (notifications_id_seq db).

Definition with_notifications (ns : list Notification.t) (db : Db) : Db :=
  mkDb (users db) (facilities db) (bookings db) ns
       (users_id_seq db) (facilities_id_seq db) (bookings_id_seq db)
       (notifications_id_seq db).

(** [nextval] of the sequence of a table, which the INSERT calls when it
    runs: the value is taken for good, whether the row then passes the
    unique index and the foreign keys or not. *)
Definition nextval_users (db : Db) : Db :=
  mkDb (users db) (facilities db) (bookings db) (notifications db)
       (users_id_seq db + 1) (facilities_id_seq db) (bookings_id_seq db)
       (notifications_id_seq db).

Definition nextval_facilities (db : Db) : Db :=
  mkDb (users db) (facilities db) (bookings db) (notifications db)
       (users_id_seq db) (facilities_id_seq db + 1) (bookings_id_seq db)
       (notifications_id_seq db).

Definition nextval_bookings (db : Db) : Db :=
  mkDb (users db) (facilities db) (bookings db) (notifications db)
       (users_id_seq db) (facilities_id_seq db) (bookings_id_seq db + 1)
       (notifications_id_seq db).

Definition nextval_notifications (db : Db) : Db :=
  mkDb (users db) (facilities db) (bookings db) (notifications db)
       (users_id_seq db) (facilities_id_seq db) (bookings_id_seq db)
       (notifications_id_seq db + 1).

(** The keys that a foreign key can point to. *)
Definition user_ids (db : Db) : list Z := map User.id (users db).
Definition facility_ids (db : Db) : list Z := map Facility.id (facilities db).
Definition booking_ids (db : Db) : list Z := map Booking.id (bookings db).

(** [ORDER BY]: a stable insertion sort. *)
Fixpoint insert_by {A} (le : A -> A -> bool) (x : A) (l : list A) : list A :=
  match l with
  | [] => [x]
  | y :: l' => if le x y then x :: l else y :: insert_by le x l'
  end.

Definition order_by {A} (le : A -> A -> bool) (l : list A) : list A :=
  foldr (insert_by le) [] l.

(** [desc(createdAt)]; a descending order puts the nulls first. *)
Definition desc_le (x y : option Z) : bool :=
  match x, y with
  | None, _ => true
  | Some _, None => false
  | Some a, Some b => Z.leb b a
  end.

(** A key of [.set({...})] whose value is [undefined] leaves its column as
    it is. *)
Definition set_col {A} (new : option A) (old : A) : A :=
  match new with Some a => a | None => old end.

(** A value of a body bound to a text column without validation: [null]
    is NULL, a string is itself, anything else goes through the driver;
    the outer [None] is the refusal of a text with NUL. *)
Definition pg_string `{Runtime} (v : jsval) : string :=
  match v with JStr s => s | _ => pg_text v end.

Definition pg_text_col `{Runtime} (v : jsval) : option (option string) :=
  match v with
  | JNull => Some None
  | _ => Some <$> pg_bind (pg_string v)
  end.

(** The same for a [varchar(n)] column. *)
Definition pg_varchar `{Runtime} (n : nat) (v : jsval) : option (option string) :=
  match v with
  | JNull => Some None
  | _ => Some <$> (pg_bind (pg_string v) ≫= varchar n)
  end.

(** [Partial<InsertUser>] as the profile route fills it. *)
Record ProfileData := mkProfileData {
  pd_firstName : option jsval;
  pd_lastName : option jsval;
  pd_studentId : option jsval;
}.

Section DatabaseStorage.
Context `{Runtime}.

(** *** Users *)

Definition getUser (id : Z) (db : Db) : option User.t :=
  head (filter (fun u => User.id u = id) (users db)).

Definition getUserByEmail (email : string) (db : Db) : option User.t :=
  head (filter (fun u => User.email u = email) (users db)).

(** The parameters of [INSERT INTO users] are texts PostgreSQL takes and
    that go into their columns. *)
Definition users_bind (user : InsertUser.t) : option unit :=
  _ ← pg_bind (InsertUser.email user) ≫= varchar 255;
  _ ← nullable (fun s => pg_bind s ≫= varchar 100) (InsertUser.firstName user);
  _ ← nullable (fun s => pg_bind s ≫= varchar 100) (InsertUser.lastName user);
  _ ← nullable (fun s => pg_bind s ≫= varchar 50) (InsertUser.studentId user);
  Some ().

(** The row of the INSERT with the value [id] of the sequence and the
    texts as their columns hold them, when the e-mail is not taken. *)
Definition users_row (user : InsertUser.t) (hashedPassword : string) (id now : Z) (db : Db)
  : option User.t :=
  email ← varchar 255 (InsertUser.email user);
  firstName ← nullable (varchar 100) (InsertUser.firstName user);
  lastName ← nullable (varchar 100) (InsertUser.lastName user);
  studentId ← nullable (varchar 50) (InsertUser.studentId user);
  if decide (email ∈ map User.email (users db)) then None
  else Some (User.mk id email hashedPassword firstName lastName studentId
               (default student (InsertUser.role user)) (Some now) (Some now)).

(** The result of an INSERT: the new row and the store, or no row and
    the store that the refused statement leaves. *)
Definition createUser (user : InsertUser.t) (now : Z) (db : Db) : option User.t * Db :=
  let hashedPassword := bcrypt_hash (InsertUser.password user) in
  match users_bind user with
  | None => (None, db)
  | Some _ =>
      let db1 := nextval_users db in
      match users_row user hashedPassword (users_id_seq db) now db with
      | None => (None, db1)
      | Some newUser => (Some newUser, with_users (users db ++ [newUser])%list db1)
      end
  end.

(** The columns that [updateUser] writes for one row; [None] when the
    statement fails. *)
Definition updateUser_row (data : ProfileData) (now : Z) (u : User.t) : option User.t :=
  firstName ← match pd_firstName data with
               | Some v => pg_varchar 100 v
               | None => Some (User.firstName u)
               end;
  lastName ← match pd_lastName data with
              | Some v => pg_varchar 100 v
              | None => Some (User.lastName u)
              end;
  studentId ← match pd_studentId data with
               | Some v => pg_varchar 50 v
               | None => Some (User.studentId u)
               end;
  Some (User.mk (User.id u) (User.email u) (User.password u)
          firstName lastName studentId (User.role u) (User.createdAt u) (Some now)).

(** [UPDATE ... WHERE id = ... RETURNING *] over a table: the new table
    and the rows returned, or [None] when some row makes it fail. *)
Fixpoint update_where {A} (P : A -> Prop) `{forall x, Decision (P x)}
    (f : A -> option A) (l : list A) : option (list A * list A) :=
  match l with
  | [] => Some ([], [])
  | x :: l' =>
      '(l'', ret) ← update_where P f l';
      if decide (P x) then y ← f x; Some (y :: l'', y :: ret)
      else Some (x :: l'', ret)
  end.

Definition updateUser (id : Z) (data : ProfileData) (now : Z) (db : Db)
  : option (option User.t * Db) :=
  '(us, ret) ← update_where (fun u => User.id u = id)
                 (updateUser_row data now) (users db);
  Some (head ret, with_users us db).

Definition updateUserPassword (id : Z) (hashedPassword : string) (now : Z) (db : Db)
  : bool * Db :=
  (true,
   with_users
     (map (fun u =>
             if bool_decide (User.id u = id)
             then User.mk (User.id u) (User.email u) hashedPassword
                    (User.firstName u) (User.lastName u) (User.studentId u)
                    (User.role u) (User.createdAt u) (Some now)
             else u) (users db)) db).

Definition getAllUsers (db : Db) : list User.t :=
  order_by (fun x y => desc_le (User.createdAt x) (User.createdAt y)) (users db).

(** The same statement when no row can make it fail. *)
Definition update_returning {A} (P : A -> Prop) `{forall x, Decision (P x)}
    (f : A -> A) (l : list A) : list A * list A :=
  (map (fun x => if decide (P x) then f x else x) l, map f (filter P l)).

(** [None] when the statement throws: here, for an [id] that is no
    [integer]. *)
Definition updateUserRole (id : Z) (role : UserRole) (now : Z) (db : Db)
  : option (option User.t * Db) :=
  let upd u :=
    User.mk (User.id u) (User.email u) (User.password u)
      (User.firstName u) (User.lastName u) (User.studentId u)
      role (User.createdAt u) (Some now) in
  _ ← pg_bind_int4 id;
  let '(us, ret) := update_returning (fun u => User.id u = id) upd (users db) in
  Some (head ret, with_users us db).

(** A user that a booking or a notification refers to cannot be deleted. *)
Definition user_referenced (id : Z) (db : Db) : Prop :=
  id ∈ map Booking.userId (bookings db)
  \/ Some id ∈ map Booking.reviewedBy (bookings db)
  \/ id ∈ map Notification.userId (notifications db).

Definition deleteUser (id : Z) (db : Db) : option (bool * Db) :=
  _ ← pg_bind_int4 id;
  if decide (id ∈ user_ids db /\ user_referenced id db) then None
  else Some (true, with_users (filter (fun u => User.id u <> id) (users db)) db).

(** *** Facilities *)

(** The row of a key, as a relation loads it. *)
Definition facility_of (id : Z) (db : Db) : option Facility.t :=
  head (filter (fun f => Facility.id f = id) (facilities db)).

Definition getFacility (id : Z) (db : Db) : option (option Facility.t) :=
  _ ← pg_bind_int4 id;
  Some (facility_of id db).

Definition getAllFacilities (db : Db) : list Facility.t :=
  order_by (fun x y => collate_le (Facility.name x) (Facility.name y)) (facilities db).

Definition facilities_bind (facility : InsertFacility.t) : option unit :=
  _ ← pg_bind (InsertFacility.name facility) ≫= varchar 255;
  _ ← nullable pg_bind (InsertFacility.description facility);
  _ ← nullable pg_bind_int4 (InsertFacility.capacity facility);
  _ ← nullable (fun s => pg_bind s ≫= varchar 255) (InsertFacility.location facility);
  _ ← nullable pg_bind (InsertFacility.amenities facility);
  _ ← nullable pg_bind (InsertFacility.imageUrl facility);
  Some ().

Definition facilities_row (facility : InsertFacility.t) (id now : Z) : option Facility.t :=
  name ← varchar 255 (InsertFacility.name facility);
  location ← nullable (varchar 255) (InsertFacility.location facility);
  Some (Facility.mk id name
          (InsertFacility.description facility) (InsertFacility.capacity facility)
          location
          (default available (InsertFacility.status facility))
          (InsertFacility.amenities facility) (InsertFacility.imageUrl facility)
          (Some now) (Some now)).

Definition createFacility (facility : InsertFacility.t) (now : Z) (db : Db)
  : option Facility.t * Db :=
  match facilities_bind facility with
  | None => (None, db)
  | Some _ =>
      let db1 := nextval_facilities db in
      match facilities_row facility (facilities_id_seq db) now with
      | None => (None, db1)
      | Some newFacility =>
          (Some newFacility, with_facilities (facilities db ++ [newFacility])%list db1)
      end
  end.

Definition updateFacility (id : Z) (data : gmap string jsval) (now : Z) (db : Db)
  : option (option Facility.t * Db) :=
  _ ← pg_bind_int4 id;
  '(fs, ret) ← update_where (fun f => Facility.id f = id)
                 (pg_updateFacility data now) (facilities db);
  Some (head ret, with_facilities fs db).

(** A facility that a booking refers to cannot be deleted. *)
Definition deleteFacility (id : Z) (db : Db) : option (bool * Db) :=
  _ ← pg_bind_int4 id;
  if decide (id ∈ facility_ids db /\ id ∈ map Booking.facilityId (bookings db)) then None
  else Some (true, with_facilities (filter (fun f => Facility.id f <> id) (facilities db)) db).

(** *** Bookings *)

Definition with_relations (db : Db) (b : Booking.t) : BookingWithRelations.t :=
  BookingWithRelations.mk b
    (getUser (Booking.userId b) db)
    (facility_of (Booking.facilityId b) db)
    (Booking.reviewedBy b ≫= fun id => getUser id db).

Definition getBooking (id : Z) (db : Db) : option (option BookingWithRelations.t) :=
  _ ← pg_bind_int4 id;
  Some (with_relations db <$> head (filter (fun b => Booking.id b = id) (bookings db))).

Definition desc_createdAt (x y : BookingWithRelations.t) : bool :=
  desc_le (Booking.createdAt (BookingWithRelations.booking x))
          (Booking.createdAt (BookingWithRelations.booking y)).

Definition getAllBookings (db : Db) : list BookingWithRelations.t :=
  order_by desc_createdAt (map (with_relations db) (bookings db)).

Definition getUserBookings (userId : Z) (db : Db) : list BookingWithRelations.t :=
  order_by desc_createdAt
    (map (with_relations db) (filter (fun b => Booking.userId b = userId) (bookings db))).

(** The parameters of [INSERT INTO bookings], as PostgreSQL reads them:
    the date and the two times in its own notation. *)
Definition bookings_bind (booking : InsertBooking.t) : option (string * string * string) :=
  _ ← pg_bind_int4 (InsertBooking.userId booking);
  _ ← pg_bind_int4 (InsertBooking.facilityId booking);
  _ ← pg_bind (InsertBooking.eventName booking) ≫= varchar 255;
  _ ← nullable pg_bind (InsertBooking.eventDescription booking);
  _ ← nullable pg_bind (InsertBooking.purpose booking);
  eventDate ← pg_date (InsertBooking.eventDate booking);
  startTime ← pg_time (InsertBooking.startTime booking);
  endTime ← pg_time (InsertBooking.endTime booking);
  _ ← nullable pg_bind_int4 (InsertBooking.attendees booking);
  _ ← nullable pg_bind (InsertBooking.equipmentNeeded booking);
  Some (eventDate, startTime, endTime).

(** The row of the INSERT, with the name as its column holds it, when the
    user and the facility exist. *)
Definition bookings_row (booking : InsertBooking.t) (eventDate startTime endTime : string)
    (id now : Z) (db : Db) : option Booking.t :=
  eventName ← varchar 255 (InsertBooking.eventName booking);
  if decide (InsertBooking.userId booking ∈ user_ids db
             /\ InsertBooking.facilityId booking ∈ facility_ids db) then
    Some (Booking.mk id
            (InsertBooking.userId booking) (InsertBooking.facilityId booking)
            eventName (InsertBooking.eventDescription booking)
            (InsertBooking.purpose booking) eventDate startTime endTime
            (InsertBooking.attendees booking) (InsertBooking.equipmentNeeded booking)
            pending None None None (Some now) (Some now))
  else None.

Definition createBooking (booking : InsertBooking.t) (now : Z) (db : Db)
  : option Booking.t * Db :=
  match bookings_bind booking with
  | None => (None, db)
  | Some (eventDate, startTime, endTime) =>
      let db1 := nextval_bookings db in
      match bookings_row booking eventDate startTime endTime (bookings_id_seq db) now db with
      | None => (None, db1)
      | Some newBooking =>
          (Some newBooking, with_bookings (bookings db ++ [newBooking])%list db1)
      end
  end.

(** [adminNotes: notes] of [.set]: [None] for [undefined], which leaves
    the column; else the value of the column, when PostgreSQL takes it. *)
Definition bound_notes (notes : option jsval) : option (option (option string)) :=
  match notes with
  | Some v => Some <$> pg_text_col v
  | None => Some None
  end.

(** The row that [.set({ status, reviewedBy, reviewedAt, adminNotes,
    updatedAt })] leaves. *)
Definition updateBookingStatus_row (status : BookingStatus) (adminId : Z)
    (adminNotes : option (option string)) (now : Z) (b : Booking.t) : Booking.t :=
  Booking.mk (Booking.id b) (Booking.userId b) (Booking.facilityId b)
    (Booking.eventName b) (Booking.eventDescription b) (Booking.purpose b)
    (Booking.eventDate b) (Booking.startTime b) (Booking.endTime b)
    (Booking.attendees b) (Booking.equipmentNeeded b)
    status
    (set_col adminNotes (Booking.adminNotes b))
    (Some adminId)
    (Some now)
    (Booking.createdAt b)
    (Some now).

(** [None] when the statement throws: for an [id] that is no [integer],
    for notes PostgreSQL does not take, and when a row is updated while
    the reviewer has no row in [users]. *)
Definition updateBookingStatus (id : Z) (status : BookingStatus) (adminId : Z)
    (notes : option jsval) (now : Z) (db : Db) : option (option Booking.t * Db) :=
  _ ← pg_bind_int4 id;
  adminNotes ← bound_notes notes;
  if decide (id ∈ booking_ids db /\ adminId ∉ user_ids db) then None
  else
    let '(bs, ret) :=
      update_returning (fun b => Booking.id b = id)
        (updateBookingStatus_row status adminId adminNotes now) (bookings db) in
    Some (head ret, with_bookings bs db).

Definition count_status (s : BookingStatus) (l : list Booking.t) : Z :=
  Z.of_nat (length (filter (fun b => Booking.status b = s) l)).

Definition getBookingStats (db : Db) : BookingStats.t :=
  let allBookings := bookings db in
  BookingStats.mk
    (count_status pending allBookings)
    (count_status approved allBookings)
    (count_status rejected allBookings)
    (Z.of_nat (length allBookings)).

(** *** Notifications *)

Definition getUserNotifications (userId : Z) (db : Db) : list Notification.t :=
  order_by (fun x y => desc_le (Notification.createdAt x) (Notification.createdAt y))
    (filter (fun n => Notification.userId n = userId) (notifications db)).

(** The texts of [INSERT INTO notifications]; its two ids are checked as
    foreign keys, which only a key of the other table passes. *)
Definition notifications_bind (notification : InsertNotification.t) : option unit :=
  _ ← pg_bind (InsertNotification.title notification) ≫= varchar 255;
  _ ← pg_bind (InsertNotification.message notification);
  _ ← pg_bind (InsertNotification.type notification) ≫= varchar 50;
  Some ().

Definition notifications_row (notification : InsertNotification.t) (id now : Z) (db : Db)
  : option Notification.t :=
  title ← varchar 255 (InsertNotification.title notification);
  type ← varchar 50 (InsertNotification.type notification);
  if decide (InsertNotification.userId notification ∈ user_ids db
             /\ refers (booking_ids db) (InsertNotification.relatedBookingId notification))
  then
    Some (Notification.mk id
            (InsertNotification.userId notification)
            title
            (InsertNotification.message notification)
            type
            (InsertNotification.relatedBookingId notification)
            unread (Some now))
  else None.

Definition createNotification (notification : InsertNotification.t) (now : Z) (db : Db)
  : option Notification.t * Db :=
  match notifications_bind notification with
  | None => (None, db)
  | Some _ =>
      let db1 := nextval_notifications db in
      match notifications_row notification (notifications_id_seq db) now db with
      | None => (None, db1)
      | Some newNotification =>
          (Some newNotification,
           with_notifications (notifications db ++ [newNotification])%list db1)
      end
  end.

Definition mark_read (n : Notification.t) : Notification.t :=
  Notification.mk (Notification.id n) (Notification.userId n) (Notification.title n)
    (Notification.message n) (Notification.type n) (Notification.relatedBookingId n)
    read (Notification.createdAt n).

Definition markNotificationRead (id : Z) (db : Db) : option (bool * Db) :=
  _ ← pg_bind_int4 id;
  Some (true,
        with_notifications
          (map (fun n => if bool_decide (Notification.id n = id) then mark_read n else n)
             (notifications db)) db).

Definition markAllNotificationsRead (userId : Z) (db : Db) : bool * Db :=
  (true,
   with_notifications
     (map (fun n => if bool_decide (Notification.userId n = userId) then mark_read n else n)
        (notifications db)) db).

Definition getUnreadCount (userId : Z) (db : Db) : Z :=
  Z.of_nat (length (filter (fun n => Notification.userId n = userId /\ Notification.status n = unread)
                      (notifications db))).
End DatabaseStorage.
(** ** server/routes.ts *)

Inductive Method := GET | POST | PUT | PATCH | DELETE.

#[global] Instance Method_eq_dec : EqDecision Method.
Proof. solve_decision. Defined.

Module Request.
Record t := mk {
  method : Method;
  (** the segments of the URL path *)
  path : list string;
  (** [req.headers["authorization"]] *)
  authorization : option string;
  params : gmap string string;
  body : gmap string jsval;
  (** [AuthRequest.user] *)
  user : option AuthUser.t;
}.

Definition with_user (u : AuthUser.t) (req : t) : t :=
  mk (method req) (path req) (authorization req) (params req) (body req) (Some u).

Definition with_params (ps : gmap string string) (req : t) : t :=
  mk (method req) (path req) (authorization req) ps (body req) (user req).

Definition with_body (b : gmap string jsval) (req : t) : t :=
  mk (method req) (path req) (authorization req) (params req) b (user req).
End Request.

(** What [res.status(code).json(...)] sends.  The body of a failed
    validation, [{ message: "Validation failed", errors }], carries zod's
    issue list and is kept as one constructor. *)
Inductive Body :=
| Json (v : jsval)
| ValidationFailed.

Record Response := mkResponse { statusCode : Z; json : Body }.

(** A middleware or handler either answers, leaving a store, or calls
    [next()], handing the request on. *)
Inductive Outcome :=
| Respond (res : Response) (db : Db)
| Next (req : Request.t).

Definition Middleware := Request.t -> Z -> Db -> Outcome.

Definition message (m : string) : jsval := JObj {[ "message" := JStr m ]}.

Definition res_json (code : Z) (v : jsval) : Response := mkResponse code (Json v).

Definition json_rows {A} (f : A -> gmap string jsval) (l : list A) : jsval :=
  JArr (map (fun x => JObj (f x)) l).

Definition json_of_booking_with_relations (b : BookingWithRelations.t)
  : gmap string jsval :=
  <["user" := json_opt (fun u => JObj (json_of_user u)) (BookingWithRelations.user b)]>
  (<["facility" := json_opt (fun f => JObj (json_of_facility f)) (BookingWithRelations.facility b)]>
  (<["reviewer" := json_opt (fun u => JObj (json_of_user u)) (BookingWithRelations.reviewer b)]>
  (json_of_booking (BookingWithRelations.booking b)))).

Definition json_of_stats (s : BookingStats.t) : jsval :=
  JObj (list_to_map [
    ("pending", JNum (BookingStats.pending s));
    ("approved", JNum (BookingStats.approved s));
    ("rejected", JNum (BookingStats.rejected s));
    ("total", JNum (BookingStats.total s)) ]).

(** The double quote of the message templates. *)
Definition dquote : string := String "034"%char EmptyString.

(** [registerSchema] keeps [confirmPassword] next to the user data. *)
Record RegisterData := mkRegisterData {
  rd_user : InsertUser.t;
  rd_confirmPassword : string;
}.

Section Routes.
Context `{Runtime}.

Definition JWT_SECRET : string :=
  match SESSION_SECRET with
  | Some s => if String.eqb s "" then "facility-hub-secret-key" else s
  | None => "facility-hub-secret-key"
  end.

(** [loginSchema] *)
Definition loginSchema (data : gmap string jsval) : option (string * string) :=
  email ← z_string (data !! "email");
  _ ← guard (zod_email email = true);
  password ← z_string (data !! "password") ≫= z_min 6;
  Some (email, password).

(** [registerSchema]: [insertUserSchema] with [email], [password],
    [firstName], [lastName] replaced, [confirmPassword] added and the two
    passwords compared. *)
Definition registerSchema (data : gmap string jsval) : option RegisterData :=
  email ← z_string (data !! "email");
  _ ← guard (zod_email email = true);
  password ← z_string (data !! "password") ≫= z_min 6;
  firstName ← z_string (data !! "firstName") ≫= z_min 1;
  lastName ← z_string (data !! "lastName") ≫= z_min 1;
  studentId ← z_nullish (z_varchar 50) (data !! "studentId");
  role ← z_optional z_userRole (data !! "role");
  confirmPassword ← z_string (data !! "confirmPassword");
  _ ← guard (password = confirmPassword);
  Some (mkRegisterData
          (InsertUser.mk email password (Some firstName) (Some lastName) studentId role)
          confirmPassword).

(** The token of the [Authorization] header: [authHeader.split(" ")[1]]. *)
Definition bearer_token (req : Request.t) : option string :=
  h ← Request.authorization req;
  split_space h !! 1%nat.

Definition authenticateToken : Middleware := fun req now db =>
  match bearer_token req with
  | None => Respond (res_json 401 (message "Authentication required")) db
  | Some token =>
      if String.eqb token "" then
        Respond (res_json 401 (message "Authentication required")) db
      else
        match jwt_verify token JWT_SECRET now with
        | Some decoded => Next (Request.with_user decoded req)
        | None => Respond (res_json 403 (message "Invalid or expired token")) db
        end
  end.

Definition requireAdmin : Middleware := fun req now db =>
  match Request.user req with
  | Some u =>
      if decide (AuthUser.role u = "admin") then Next req
      else Respond (res_json 403 (message "Admin access required")) db
  | None => Respond (res_json 403 (message "Admin access required")) db
  end.

Definition sign_user (user : User.t) (now : Z) : string :=
  jwt_sign (AuthUser.mk (User.id user) (User.email user) (userRoleEnum (User.role user)))
    JWT_SECRET now.

(** [const { password, ...userWithoutPassword } = user] *)
Definition userWithoutPassword (user : User.t) : gmap string jsval :=
  delete "password" (json_of_user user).

(** [req.params.id] through [parseInt] *)
Definition param_id (req : Request.t) : option Z :=
  Request.params req !! "id" ≫= parseInt.

(** *** Auth routes *)

Definition auth_register : Middleware := fun req now db =>
  match registerSchema (Request.body req) with
  | None => Respond (mkResponse 400 ValidationFailed) db
  | Some parsed =>
      let userData := rd_user parsed in
      match getUserByEmail (InsertUser.email userData) db with
      | Some existingUser =>
          Respond (res_json 400 (message "Email already registered")) db
      | None =>
          match createUser userData now db with
          | (None, db') => Respond (res_json 500 (message "Registration failed")) db'
          | (Some user, db') =>
              let token := sign_user user now in
              Respond (res_json 201
                         (JObj {[ "user" := JObj (userWithoutPassword user);
                                  "token" := JStr token ]})) db'
          end
      end
  end.

Definition auth_login : Middleware := fun req now db =>
  match loginSchema (Request.body req) with
  | None => Respond (mkResponse 400 ValidationFailed) db
  | Some (email, password) =>
      match getUserByEmail email db with
      | None => Respond (res_json 401 (message "Invalid email or password")) db
      | Some user =>
          if bcrypt_compare password (User.password user) then
            let token := sign_user user now in
            Respond (res_json 200
                       (JObj {[ "user" := JObj (userWithoutPassword user);
                                "token" := JStr token ]})) db
          else Respond (res_json 401 (message "Invalid email or password")) db
      end
  end.

(** *** User profile routes *)

Definition users_profile : Middleware := fun req now db =>
  let failed := Respond (res_json 500 (message "Failed to update profile")) db in
  match Request.user req with
  | None => failed
  | Some caller =>
      let data := mkProfileData (Request.body req !! "firstName")
                    (Request.body req !! "lastName")
                    (Request.body req !! "studentId") in
      match updateUser (AuthUser.id caller) data now db with
      | None => failed
      | Some (None, db') => Respond (res_json 404 (message "User not found")) db'
      | Some (Some updated, db') =>
          Respond (res_json 200 (JObj {[ "user" := JObj (userWithoutPassword updated) ]})) db'
      end
  end.

Definition users_password : Middleware := fun req now db =>
  let failed := Respond (res_json 500 (message "Failed to change password")) db in
  match Request.user req with
  | None => failed
  | Some caller =>
      match getUser (AuthUser.id caller) db with
      | None => Respond (res_json 404 (message "User not found")) db
      | Some user =>
          (* bcrypt throws on an argument that is not a string *)
          match z_string (Request.body req !! "currentPassword") with
          | None => failed
          | Some currentPassword =>
              if bcrypt_compare currentPassword (User.password user) then
                match z_string (Request.body req !! "newPassword") with
                | None => failed
                | Some newPassword =>
                    let hashedPassword := bcrypt_hash newPassword in
                    let '(_, db') :=
                      updateUserPassword (AuthUser.id caller) hashedPassword now db in
                    Respond (res_json 200 (message "Password changed successfully")) db'
                end
              else Respond (res_json 400 (message "Current password is incorrect")) db
          end
      end
  end.

(** *** Facilities routes *)

Definition facilities_list : Middleware := fun req now db =>
  Respond (res_json 200 (json_rows json_of_facility (getAllFacilities db))) db.

Definition facilities_get : Middleware := fun req now db =>
  let failed := Respond (res_json 500 (message "Failed to get facility")) db in
  match param_id req with
  | None => failed
  | Some id =>
      match getFacility id db with
      | None => failed
      | Some None => Respond (res_json 404 (message "Facility not found")) db
      | Some (Some facility) => Respond (res_json 200 (JObj (json_of_facility facility))) db
      end
  end.

(** *** Bookings routes *)

Definition bookings_my : Middleware := fun req now db =>
  match Request.user req with
  | None => Respond (res_json 500 (message "Failed to get bookings")) db
  | Some caller =>
      let userBookings := getUserBookings (AuthUser.id caller) db in
      Respond (res_json 200 (json_rows json_of_booking_with_relations userBookings)) db
  end.

Definition submitted_message (eventName : string) : string :=
  "Your booking request for " +:+ dquote +:+ eventName +:+ dquote
    +:+ " has been submitted and is pending review.".

Definition bookings_create : Middleware := fun req now db =>
  let failed := Respond (res_json 500 (message "Failed to create booking")) in
  match Request.user req with
  | None => failed db
  | Some caller =>
      (* { ...req.body, userId: req.user!.id } *)
      let bookingData := <["userId" := JNum (AuthUser.id caller)]> (Request.body req) in
      match insertBookingSchema bookingData with
      | None => Respond (mkResponse 400 ValidationFailed) db
      | Some parsed =>
          match createBooking parsed now db with
          | (None, db1) => failed db1
          | (Some booking, db1) =>
              match
                createNotification
                  (InsertNotification.mk (AuthUser.id caller)
                     "Booking Request Submitted"
                     (submitted_message (Booking.eventName booking))
                     "info"
                     (Some (Booking.id booking))) now db1
              with
              | (None, db2) => failed db2
              | (Some _, db2) => Respond (res_json 201 (JObj (json_of_booking booking))) db2
              end
          end
      end
  end.

Definition bookings_stats : Middleware := fun req now db =>
  Respond (res_json 200 (json_of_stats (getBookingStats db))) db.

(** *** Notifications routes *)

Definition notifications_list : Middleware := fun req now db =>
  match Request.user req with
  | None => Respond (res_json 500 (message "Failed to get notifications")) db
  | Some caller =>
      Respond (res_json 200
                 (json_rows json_of_notification
                    (getUserNotifications (AuthUser.id caller) db))) db
  end.

Definition notifications_read : Middleware := fun req now db =>
  let failed := Respond (res_json 500 (message "Failed to mark notification as read")) db in
  match param_id req with
  | None => failed
  | Some id =>
      match markNotificationRead id db with
      | None => failed
      | Some (_, db') => Respond (res_json 200 (message "Notification marked as read")) db'
      end
  end.

Definition notifications_read_all : Middleware := fun req now db =>
  match Request.user req with
  | None => Respond (res_json 500 (message "Failed to mark notifications as read")) db
  | Some caller =>
      let '(_, db') := markAllNotificationsRead (AuthUser.id caller) db in
      Respond (res_json 200 (message "All notifications marked as read")) db'
  end.

(** *** Admin routes *)

Definition admin_bookings : Middleware := fun req now db =>
  Respond (res_json 200 (json_rows json_of_booking_with_relations (getAllBookings db))) db.

Definition approved_message (eventName : string) : string :=
  "Your booking request for " +:+ dquote +:+ eventName +:+ dquote
    +:+ " has been approved!".

(** [`Reason: ${notes}`] of a truthy [notes] *)
Definition js_template (v : jsval) : string :=
  match v with JStr s => s | _ => js_toString v end.

Definition rejected_message (eventName : string) (notes : option jsval) : string :=
  "Your booking request for " +:+ dquote +:+ eventName +:+ dquote
    +:+ " has been rejected. "
    +:+ (match notes with
         | Some v => if js_truthy notes then "Reason: " +:+ js_template v else ""
         | None => ""
         end).

Definition admin_bookings_approve : Middleware := fun req now db =>
  let failed := Respond (res_json 500 (message "Failed to approve booking")) in
  match param_id req, Request.user req with
  | Some bookingId, Some caller =>
      let notes := Request.body req !! "notes" in
      match updateBookingStatus bookingId approved (AuthUser.id caller) notes now db with
      | None => failed db
      | Some (None, db1) => Respond (res_json 404 (message "Booking not found")) db1
      | Some (Some updated, db1) =>
          match
            createNotification
              (InsertNotification.mk (Booking.userId updated)
                 "Booking Approved"
                 (approved_message (Booking.eventName updated))
                 "success"
                 (Some (Booking.id updated))) now db1
          with
          | (None, db2) => failed db2
          | (Some _, db2) => Respond (res_json 200 (JObj (json_of_booking updated))) db2
          end
      end
  | _, _ => failed db
  end.

Definition admin_bookings_reject : Middleware := fun req now db =>
  let failed := Respond (res_json 500 (message "Failed to reject booking")) in
  match param_id req, Request.user req with
  | Some bookingId, Some caller =>
      let notes := Request.body req !! "notes" in
      match updateBookingStatus bookingId rejected (AuthUser.id caller) notes now db with
      | None => failed db
      | Some (None, db1) => Respond (res_json 404 (message "Booking not found")) db1
      | Some (Some updated, db1) =>
          match
            createNotification
              (InsertNotification.mk (Booking.userId updated)
                 "Booking Rejected"
                 (rejected_message (Booking.eventName updated) notes)
                 "error"
                 (Some (Booking.id updated))) now db1
          with
          | (None, db2) => failed db2
          | (Some _, db2) => Respond (res_json 200 (JObj (json_of_booking updated))) db2
          end
      end
  | _, _ => failed db
  end.

Definition admin_users : Middleware := fun req now db =>
  let allUsers := getAllUsers db in
  let usersWithoutPasswords := map userWithoutPassword allUsers in
  Respond (res_json 200 (JArr (map JObj usersWithoutPasswords))) db.

Definition admin_users_role : Middleware := fun req now db =>
  let failed := Respond (res_json 500 (message "Failed to update user role")) db in
  (* ["student", "faculty", "admin"].includes(role) *)
  match z_userRole (Request.body req !! "role") with
  | None => Respond (res_json 400 (message "Invalid role")) db
  | Some role =>
      match param_id req with
      | None => failed
      | Some userId =>
          match updateUserRole userId role now db with
          | None => failed
          | Some (None, db') => Respond (res_json 404 (message "User not found")) db'
          | Some (Some updated, db') =>
              Respond (res_json 200 (JObj (userWithoutPassword updated))) db'
          end
      end
  end.

Definition admin_users_delete : Middleware := fun req now db =>
  let failed := Respond (res_json 500 (message "Failed to delete user")) db in
  match Request.user req with
  | None => failed
  | Some caller =>
      match param_id req with
      | None => failed
      | Some userId =>
          if decide (userId = AuthUser.id caller) then
            Respond (res_json 400 (message "Cannot delete your own account")) db
          else
            match deleteUser userId db with
            | None => failed
            | Some (_, db') => Respond (res_json 200 (message "User deleted successfully")) db'
            end
      end
  end.

(** *** Admin facility routes *)

Definition admin_facilities_create : Middleware := fun req now db =>
  match insertFacilitySchema (Request.body req) with
  | None => Respond (mkResponse 400 ValidationFailed) db
  | Some parsed =>
      match createFacility parsed now db with
      | (None, db') => Respond (res_json 500 (message "Failed to create facility")) db'
      | (Some facility, db') => Respond (res_json 201 (JObj (json_of_facility facility))) db'
      end
  end.

Definition admin_facilities_update : Middleware := fun req now db =>
  let failed := Respond (res_json 500 (message "Failed to update facility")) db in
  match param_id req with
  | None => failed
  | Some facilityId =>
      match updateFacility facilityId (Request.body req) now db with
      | None => failed
      | Some (None, db') => Respond (res_json 404 (message "Facility not found")) db'
      | Some (Some updated, db') =>
          Respond (res_json 200 (JObj (json_of_facility updated))) db'
      end
  end.

Definition admin_facilities_delete : Middleware := fun req now db =>
  let failed := Respond (res_json 500 (message "Failed to delete facility")) db in
  match param_id req with
  | None => failed
  | Some facilityId =>
      match deleteFacility facilityId db with
      | None => failed
      | Some (_, db') => Respond (res_json 200 (message "Facility deleted successfully")) db'
      end
  end.

(** *** Admin reports *)

Definition count_where {A} (p : A -> bool) (l : list A) : jsval :=
  JNum (Z.of_nat (length (filter (fun x => p x = true) l))).

Definition admin_stats : Middleware := fun req now db =>
  let bookingStats := getBookingStats db in
  let allUsers := getAllUsers db in
  let allFacilities := getAllFacilities db in
  Respond
    (res_json 200
       (JObj (list_to_map [
          ("bookings", json_of_stats bookingStats);
          ("users", JObj (list_to_map [
             ("total", JNum (Z.of_nat (length allUsers)));
             ("students", count_where (fun u => bool_decide (User.role u = student)) allUsers);
             ("faculty", count_where (fun u => bool_decide (User.role u = faculty)) allUsers);
             ("admins", count_where (fun u => bool_decide (User.role u = admin)) allUsers) ]));
          ("facilities", JObj (list_to_map [
             ("total", JNum (Z.of_nat (length allFacilities)));
             ("available",
              count_where (fun f => bool_decide (Facility.status f = available)) allFacilities);
             ("maintenance",
              count_where (fun f => bool_decide (Facility.status f = maintenance)) allFacilities);
             ("closed",
              count_where (fun f => bool_decide (Facility.status f = closed)) allFacilities) ]))
        ]))) db.

(** *** The route table *)

Inductive Seg := Lit (s : string) | Param (name : string).

Record Route := mkRoute {
  route_method : Method;
  route_path : list Seg;
  route_handlers : list Middleware;
}.

Definition api (p : list Seg) : list Seg := Lit "api" :: p.

(** The calls of [registerRoutes], in their order. *)
Definition registerRoutes : list Route := [
  mkRoute POST (api [Lit "auth"; Lit "register"]) [auth_register];
  mkRoute POST (api [Lit "auth"; Lit "login"]) [auth_login];
  mkRoute PATCH (api [Lit "users"; Lit "profile"]) [authenticateToken; users_profile];
  mkRoute PATCH (api [Lit "users"; Lit "password"]) [authenticateToken; users_password];
  mkRoute GET (api [Lit "facilities"]) [facilities_list];
  mkRoute GET (api [Lit "facilities"; Param "id"]) [facilities_get];
  mkRoute GET (api [Lit "bookings"; Lit "my"]) [authenticateToken; bookings_my];
  mkRoute POST (api [Lit "bookings"]) [authenticateToken; bookings_create];
  mkRoute GET (api [Lit "bookings"; Lit "stats"]) [authenticateToken; bookings_stats];
  mkRoute GET (api [Lit "notifications"]) [authenticateToken; notifications_list];
  mkRoute PATCH (api [Lit "notifications"; Param "id"; Lit "read"])
    [authenticateToken; notifications_read];
  mkRoute PATCH (api [Lit "notifications"; Lit "read-all"])
    [authenticateToken; notifications_read_all];
  mkRoute GET (api [Lit "admin"; Lit "bookings"])
    [authenticateToken; requireAdmin; admin_bookings];
  mkRoute PATCH (api [Lit "admin"; Lit "bookings"; Param "id"; Lit "approve"])
    [authenticateToken; requireAdmin; admin_bookings_approve];
  mkRoute PATCH (api [Lit "admin"; Lit "bookings"; Param "id"; Lit "reject"])
    [authenticateToken; requireAdmin; admin_bookings_reject];
  mkRoute GET (api [Lit "admin"; Lit "users"])
    [authenticateToken; requireAdmin; admin_users];
  mkRoute PATCH (api [Lit "admin"; Lit "users"; Param "id"; Lit "role"])
    [authenticateToken; requireAdmin; admin_users_role];
  mkRoute DELETE (api [Lit "admin"; Lit "users"; Param "id"])
    [authenticateToken; requireAdmin; admin_users_delete];
  mkRoute POST (api [Lit "admin"; Lit "facilities"])
    [authenticateToken; requireAdmin; admin_facilities_create];
  mkRoute PATCH (api [Lit "admin"; Lit "facilities"; Param "id"])
    [authenticateToken; requireAdmin; admin_facilities_update];
  mkRoute DELETE (api [Lit "admin"; Lit "facilities"; Param "id"])
    [authenticateToken; requireAdmin; admin_facilities_delete];
  mkRoute GET (api [Lit "admin"; Lit "stats"])
    [authenticateToken; requireAdmin; admin_stats]
].

(** Express compares the text of a route without regard to the case of
    its letters. *)
Definition lower (c : ascii) : ascii :=
  if (Ascii.leb "A" c && Ascii.leb c "Z")%bool
  then ascii_of_nat (nat_of_ascii c + 32) else c.

Fixpoint lowercase (s : string) : string :=
  match s with
  | EmptyString => EmptyString
  | String c s' => String (lower c) (lowercase s')
  end.

Definition seg_eqb (s x : string) : bool := String.eqb (lowercase s) (lowercase x).

(** A pattern against the segments of a path, the texts between its
    slashes: a parameter takes one segment that is not empty, and one
    slash may follow the last segment. *)
Fixpoint match_path (pat : list Seg) (path : list string) : option (gmap string string) :=
  match pat, path with
  | [], [] => Some ∅
  | [], [x] => if String.eqb x "" then Some ∅ else None
  | Lit s :: pat', x :: path' =>
      if seg_eqb s x then match_path pat' path' else None
  | Param name :: pat', x :: path' =>
      if String.eqb x "" then None else insert name x <$> match_path pat' path'
  | _, _ => None
  end.

(** The handlers of a route, one after the other while they call [next()]. *)
Fixpoint run_chain (hs : list Middleware) (req : Request.t) (now : Z) (db : Db)
  : option (Response * Db) :=
  match hs with
  | [] => None
  | h :: hs' =>
      match h req now db with
      | Respond res db' => Some (res, db')
      | Next req' => run_chain hs' req' now db
      end
  end.

(** The first route of the table that matches and answers; [None] when
    the request leaves the table unanswered. *)
Fixpoint dispatch (routes : list Route) (req : Request.t) (now : Z) (db : Db)
  : option (Response * Db) :=
  match routes with
  | [] => None
  | r :: routes' =>
      if bool_decide (route_method r = Request.method req) then
        match match_path (route_path r) (Request.path req) with
        | Some ps =>
            match run_chain (route_handlers r) (Request.with_params ps req) now db with
            | Some out => Some out
            | None => dispatch routes' req now db
            end
        | None => dispatch routes' req now db
        end
      else dispatch routes' req now db
  end.

Definition handle (req : Request.t) (now : Z) (db : Db) : option (Response * Db) :=
  dispatch registerRoutes req now db.

(** The store a request leaves behind. *)
Definition step (req : Request.t) (now : Z) (db : Db) : Db :=
  match handle req now db with
  | Some (_, db') => db'
  | None => db
  end.

(** The stores that requests can build from the empty one. *)
Inductive reachable : Db -> Prop :=
| reachable_empty : reachable empty_db
| reachable_step req now db : reachable db -> reachable (step req now db).
End Routes.

(** ** Vocabulary of the statements *)

Section Vocabulary.
Context `{Runtime}.

(** The request carries a token that verifies and resolves to [caller]. *)
Definition authenticated (req : Request.t) (now : Z) (caller : AuthUser.t) : Prop :=
  exists tok, bearer_token req = Some tok /\ tok <> ""
              /\ jwt_verify tok JWT_SECRET now = Some caller.

(** The status that the route [.../:id/approve] or [.../:id/reject] sets. *)
Definition action_status (action : string) : BookingStatus :=
  if String.eqb action "approve" then approved else rejected.

Definition action_handler (action : string) : Middleware :=
  if String.eqb action "approve" then admin_bookings_approve else admin_bookings_reject.

(** The notification that the handler of [action] inserts for the row
    it updated. *)
Definition review_insert (action : string) (notes : option jsval) (updated : Booking.t)
  : InsertNotification.t :=
  if String.eqb action "approve" then
    InsertNotification.mk (Booking.userId updated) "Booking Approved"
      (approved_message (Booking.eventName updated)) "success" (Some (Booking.id updated))
  else
    InsertNotification.mk (Booking.userId updated) "Booking Rejected"
      (rejected_message (Booking.eventName updated) notes) "error"
      (Some (Booking.id updated)).

(** The columns of a booking that a review leaves alone. *)
Definition same_request (old new : Booking.t) : Prop :=
  Booking.id new = Booking.id old
  /\ Booking.userId new = Booking.userId old
  /\ Booking.facilityId new = Booking.facilityId old
  /\ Booking.eventName new = Booking.eventName old
  /\ Booking.eventDescription new = Booking.eventDescription old
  /\ Booking.purpose new = Booking.purpose old
  /\ Booking.eventDate new = Booking.eventDate old
  /\ Booking.startTime new = Booking.startTime old
  /\ Booking.endTime new = Booking.endTime old
  /\ Booking.attendees new = Booking.attendees old
  /\ Booking.equipmentNeeded new = Booking.equipmentNeeded old
  /\ Booking.createdAt new = Booking.createdAt old.


(** The notes of a review as the route's type has them: none, or a text,
    which PostgreSQL takes when it holds no NUL. *)
Definition notes_text (notes : option jsval) : Prop :=
  match notes with
  | None => True
  | Some (JStr s) => no_nul s = true
  | Some _ => False
  end.

(** The row of a booking can be notified of: its owner has a row in
    [users] and its name is a text PostgreSQL holds. *)
Definition notifiable (b : Booking.t) (db : Db) : Prop :=
  Booking.userId b ∈ user_ids db /\ no_nul (Booking.eventName b) = true.

(** The message of the [catch] of the two review routes. *)
Definition action_failure (action : string) : string :=
  if String.eqb action "approve" then "Failed to approve booking"
  else "Failed to reject booking".

(** A text that a [varchar(n)] column takes as it is. *)
Definition fits (n : nat) (s : string) : Prop :=
  no_nul s = true /\ (String.length s <= n)%nat.

(** The texts of a registration are texts that the columns of [users]
    take as they are. *)
Definition user_texts (user : InsertUser.t) : Prop :=
  fits 255 (InsertUser.email user)
  /\ (forall s, InsertUser.firstName user = Some s -> fits 100 s)
  /\ (forall s, InsertUser.lastName user = Some s -> fits 100 s)
  /\ (forall s, InsertUser.studentId user = Some s -> no_nul s = true).

(** The texts of a booking are texts PostgreSQL takes. *)
Definition booking_texts (booking : InsertBooking.t) : Prop :=
  no_nul (InsertBooking.eventName booking) = true
  /\ (forall s, InsertBooking.eventDescription booking = Some s -> no_nul s = true)
  /\ (forall s, InsertBooking.purpose booking = Some s -> no_nul s = true)
  /\ (forall s, InsertBooking.equipmentNeeded booking = Some s -> no_nul s = true).

(** An answer that is the [catch] of a handler. *)
Definition failed (m : string) : Response := res_json 500 (message m).

(** Two stores with the same rows; their sequences may differ. *)
Definition same_tables (db db' : Db) : Prop :=
  users db' = users db /\ facilities db' = facilities db
  /\ bookings db' = bookings db /\ notifications db' = notifications db.


(** The first row of [bookings] with a given id. *)
Definition find_booking (id : Z) (db : Db) : option Booking.t :=
  head (filter (fun b => Booking.id b = id) (bookings db)).

(** The invariant of the review columns. *)
Definition review_consistent (b : Booking.t) : Prop :=
  In (Booking.status b) [pending; approved; rejected]
  /\ (Booking.reviewedBy b = None <-> Booking.status b = pending)
  /\ (Booking.reviewedAt b = None <-> Booking.status b = pending).

Definition consistent (db : Db) : Prop := Forall review_consistent (bookings db).

End Vocabulary.

(** The number of bookings of a list with a given status, by recursion on
    the list. *)
Fixpoint occurrences (s : BookingStatus) (l : list Booking.t) : Z :=
  match l with
  | [] => 0
  | b :: l' => (if decide (Booking.status b = s) then 1 else 0) + occurrences s l'
  end.

(** ** A concrete runtime and concrete requests

    Used to run the handlers on examples. *)

Fixpoint parse_digits (acc : Z) (s : string) : option Z :=
  match s with
  | EmptyString => Some acc
  | String c s' =>
      let n := Z.of_nat (nat_of_ascii c) in
      if (Z.leb 48 n && Z.leb n 57)%bool then parse_digits (10 * acc + (n - 48)) s'
      else None
  end.

Definition sample_parseInt (s : string) : option Z :=
  match s with
  | EmptyString => None
  | _ => parse_digits 0 s
  end.

Definition sample_verify (token : string) : option AuthUser.t :=
  if String.eqb token "alice@campus.edu" then Some (AuthUser.mk 1 token "student")
  else if String.eqb token "root@campus.edu" then Some (AuthUser.mk 2 token "admin")
  else None.

(** Stand-ins for the date and time input of PostgreSQL: a date is read
    from [YYYY-MM-DD], a time from [HH:MM] or [HH:MM:SS], in digits. *)
Definition is_digit (c : ascii) : bool :=
  let n := Z.of_nat (nat_of_ascii c) in (Z.leb 48 n && Z.leb n 57)%bool.

Definition sample_date (s : string) : option string :=
  match s with
  | String y1 (String y2 (String y3 (String y4 (String "-" (String m1 (String m2
      (String "-" (String d1 (String d2 EmptyString))))))))) =>
      if forallb is_digit [y1; y2; y3; y4; m1; m2; d1; d2] then Some s else None
  | _ => None
  end.

Definition sample_time (s : string) : option string :=
  match s with
  | String h1 (String h2 (String ":" (String m1 (String m2 EmptyString)))) =>
      if forallb is_digit [h1; h2; m1; m2] then Some (s +:+ ":00") else None
  | String h1 (String h2 (String ":" (String m1 (String m2 (String ":" (String s1
      (String s2 EmptyString))))))) =>
      if forallb is_digit [h1; h2; m1; m2; s1; s2] then Some s else None
  | _ => None
  end.

Definition sample_runtime : Runtime := {|
  SESSION_SECRET := None;
  bcrypt_hash := fun s => "$2b$10$" +:+ s;
  bcrypt_compare := fun s h => String.eqb h ("$2b$10$" +:+ s);
  jwt_sign := fun u _ _ => AuthUser.email u;
  jwt_verify := fun token _ _ => sample_verify token;
  zod_email := fun s => negb (String.eqb s "");
  parseInt := sample_parseInt;
  js_toString := fun _ => "[object Object]";
  pg_text := fun _ => "{}";
  collate_le := String.leb;
  pg_date := sample_date;
  pg_time := sample_time;
  pg_updateFacility := fun _ _ f => Some f;
|}.

Definition request (m : Method) (path : list string) (bearer : option string)
    (body : list (string * jsval)) : Request.t :=
  Request.mk m path (fmap (fun t => "Bearer " +:+ t) bearer) ∅ (list_to_map body) None.

Definition register_alice : Request.t :=
  request POST ["api"; "auth"; "register"] None [
    ("email", JStr "alice@campus.edu"); ("password", JStr "secret1");
    ("confirmPassword", JStr "secret1");
    ("firstName", JStr "Alice"); ("lastName", JStr "Ames") ].

Definition register_root : Request.t :=
  request POST ["api"; "auth"; "register"] None [
    ("email", JStr "root@campus.edu"); ("password", JStr "secret2");
    ("confirmPassword", JStr "secret2");
    ("firstName", JStr "Root"); ("lastName", JStr "Ray"); ("role", JStr "admin") ].

(** The administrator opens a hall. *)
Definition create_hall : Request.t :=
  request POST ["api"; "admin"; "facilities"] (Some "root@campus.edu") [("name", JStr "Hall")].

(** A booking request whose body also names another owner and a status. *)
Definition book_hall : Request.t :=
  request POST ["api"; "bookings"] (Some "alice@campus.edu") [
    ("facilityId", JNum 1); ("eventName", JStr "Recital");
    ("eventDate", JStr "2025-01-15"); ("startTime", JStr "10:00");
    ("endTime", JStr "12:00");
    ("userId", JNum 2); ("status", JStr "approved") ].

Definition approve_1 (bearer : string) : Request.t :=
  request PATCH ["api"; "admin"; "bookings"; "1"; "approve"] (Some bearer)
    [("notes", JStr "ok")].


(** The elements of an answer whose body is an array. *)
Definition answer_rows (out : option (Response * Db)) : list jsval :=
  match out with
  | Some (mkResponse _ (Json (JArr l)), _) => l
  | _ => []
  end.

(** The store after a list of requests, one per tick of the clock. *)
Fixpoint run `{Runtime} (reqs : list Request.t) (now : Z) (db : Db) : Db :=
  match reqs with
  | [] => db
  | req :: reqs' => run reqs' (now + 1) (step req now db)
  end.

Definition db_two_users : Db :=
  run (H := sample_runtime) [register_alice; register_root] 100 empty_db.

Definition db_hall : Db :=
  run (H := sample_runtime) [register_alice; register_root; create_hall] 100 empty_db.

Definition db_booked : Db :=
  run (H := sample_runtime) [register_alice; register_root; create_hall; book_hall] 100
    empty_db.

Definition db_approved : Db :=
  run (H := sample_runtime)
    [register_alice; register_root; create_hall; book_hall; approve_1 "root@campus.edu"] 100
    empty_db.


(** The same registration again, and one whose two passwords differ. *)
Definition register_alice_mismatch : Request.t :=
  request POST ["api"; "auth"; "register"] None [
    ("email", JStr "alice@campus.edu"); ("password", JStr "secret1");
    ("confirmPassword", JStr "secret9");
    ("firstName", JStr "Alice"); ("lastName", JStr "Ames") ].

Definition my_bookings (bearer : string) : Request.t :=
  request GET ["api"; "bookings"; "my"] (Some bearer) [].

Definition delete_booking_1 (bearer : string) : Request.t :=
  request DELETE ["api"; "bookings"; "1"] (Some bearer) [].

(** Alice's row after the registration at time 100. *)
Definition alice_row : User.t :=
  User.mk 1 "alice@campus.edu" "$2b$10$secret1" (Some "Alice") (Some "Ames") None
    student (Some 100) (Some 100).

Definition alice : AuthUser.t := AuthUser.mk 1 "alice@campus.edu" "student".
Definition root : AuthUser.t := AuthUser.mk 2 "root@campus.edu" "admin".

(** Three approved, two pending and one rejected booking. *)
Definition sample_booking (id : Z) (s : BookingStatus) : Booking.t :=
  let reviewer := match s with pending => None | _ => Some 2 end in
  let reviewedAt := match s with pending => None | _ => Some 200 end in
  Booking.mk id 1 1 "Recital" None None "2025-01-15" "10:00" "12:00" None None
    s None reviewer reviewedAt (Some 100) (Some 100).

Definition db_six : Db :=
  with_bookings
    [ sample_booking 1 approved; sample_booking 2 pending; sample_booking 3 approved;
      sample_booking 4 rejected; sample_booking 5 pending; sample_booking 6 approved ]
    empty_db.

(** ** script/seed-admin.ts *)

Section SeedAdmin.
Context `{Runtime}.

(** [main]: the user of the e-mail [admin@gmail.com] is made an
    administrator with the password [admin123], or inserted as one. *)
Definition seed_admin (now : Z) (db : Db) : Db :=
  let email := "admin@gmail.com" in
  let password := "admin123" in
  let hash := bcrypt_hash password in
  match head (filter (fun u => User.email u = email) (users db)) with
  | Some existing =>
      with_users
        (map (fun u =>
                if decide (User.id u = User.id existing) then
                  User.mk (User.id u) (User.email u) hash
                    (Some (default "Admin" (User.firstName existing)))
                    (Some (default "User" (User.lastName existing)))
                    (User.studentId u) admin (User.createdAt u) (Some now)
                else u)
           (users db)) db
  | None =>
      let inserted :=
        User.mk (users_id_seq db) email hash (Some "Admin") (Some "User") None
          admin (Some now) (Some now) in
      mkDb (users db ++ [inserted])%list (facilities db) (bookings db) (notifications db)
           (users_id_seq db + 1) (facilities_id_seq db) (bookings_id_seq db)
           (notifications_id_seq db)
  end.
End SeedAdmin.

(** ** What a request may do to the store *)

Section Footprint.
Context `{Runtime}.

(** One statement of [storage.ts] that did not throw, or an INSERT,
    which may leave its sequence advanced when it did. *)
Inductive write : Db -> Db -> Prop :=
| write_createUser user now db :
    write db (createUser user now db).2
| write_updateUser id data now db r db' :
    updateUser id data now db = Some (r, db') -> write db db'
| write_updateUserPassword id hashed now db :
    write db (updateUserPassword id hashed now db).2
| write_updateUserRole id role now db r db' :
    updateUserRole id role now db = Some (r, db') -> write db db'
| write_deleteUser id db r db' :
    deleteUser id db = Some (r, db') -> write db db'
| write_createFacility facility now db :
    write db (createFacility facility now db).2
| write_updateFacility id data now db r db' :
    updateFacility id data now db = Some (r, db') -> write db db'
| write_deleteFacility id db r db' :
    deleteFacility id db = Some (r, db') -> write db db'
| write_createBooking booking now db :
    write db (createBooking booking now db).2
| write_updateBookingStatus id status adminId notes now db r db' :
    status <> pending ->
    updateBookingStatus id status adminId notes now db = Some (r, db') -> write db db'
| write_createNotification notification now db :
    write db (createNotification notification now db).2
| write_markNotificationRead id db r db' :
    markNotificationRead id db = Some (r, db') -> write db db'
| write_markAllNotificationsRead userId db :
    write db (markAllNotificationsRead userId db).2.

(** A handler whose answers leave a store that some statements reach. *)
Definition writes (h : Middleware) : Prop :=
  forall req now db res db', h req now db = Respond res db' -> rtc write db db'.

(** A handler that answers without a statement that writes. *)
Definition reads (h : Middleware) : Prop :=
  forall req now db res db', h req now db = Respond res db' -> db' = db.
End Footprint.

(** The keys of the tables that the sequences and the registration guard
    keep apart. *)
Definition keyed {A} (id : A -> Z) (seq : Z) (l : list A) : Prop :=
  NoDup (map id l) /\ Forall (fun x => id x < seq) l.

Definition well_keyed (db : Db) : Prop :=
  keyed User.id (users_id_seq db) (users db)
  /\ NoDup (map User.email (users db))
  /\ keyed Booking.id (bookings_id_seq db) (bookings db)
  /\ keyed Notification.id (notifications_id_seq db) (notifications db).

(** The identity columns of a user, which no route rewrites. *)
Definition same_account (old new : User.t) : Prop :=
  User.id new = User.id old
  /\ User.email new = User.email old
  /\ User.createdAt new = User.createdAt old.

(** A notification as it was, but for a status that may have become
    [read]. *)
Definition same_notice (old new : Notification.t) : Prop :=
  Notification.id new = Notification.id old
  /\ Notification.userId new = Notification.userId old
  /\ Notification.title new = Notification.title old
  /\ Notification.message new = Notification.message old
  /\ Notification.type new = Notification.type old
  /\ Notification.relatedBookingId new = Notification.relatedBookingId old
  /\ Notification.createdAt new = Notification.createdAt old
  /\ (Notification.status old = read -> Notification.status new = read).

(** [l'] is [l], row by row up to [R], followed by new rows. *)
Definition extends {A} (R : A -> A -> Prop) (l l' : list A) : Prop :=
  exists l1 l2, l' = (l1 ++ l2)%list /\ Forall2 R l l1.

(** A word of a header: a string without a space. *)
Fixpoint spaceless (s : string) : bool :=
  match s with
  | EmptyString => true
  | String c s' => negb (Ascii.eqb c " "%char) && spaceless s'
  end.

(** The login request of a given e-mail and password. *)
Definition login_request (email password : string) : Request.t :=
  Request.mk POST ["api"; "auth"; "login"] None ∅
    (list_to_map [("email", JStr email); ("password", JStr password)]) None.

(** A second administrator's registration, and the parsed form of Alice's. *)
Definition alice_registration : RegisterData :=
  mkRegisterData
    (InsertUser.mk "alice@campus.edu" "secret1" (Some "Alice") (Some "Ames") None None)
    "secret1".

(** What [insertBookingSchema] makes of [book_hall] for Alice. *)
Definition hall_booking : InsertBooking.t :=
  InsertBooking.mk 1 1 "Recital" None None "2025-01-15" "10:00" "12:00" None None.

(** The facilities of a store with one facility, open and closed. *)
Definition hall (s : FacilityStatus) : Facility.t :=
  Facility.mk 1 "Hall" None None None s None None (Some 50) (Some 50).

Definition rename_alice : Request.t :=
  request PATCH ["api"; "users"; "profile"] (Some "alice@campus.edu")
    [("firstName", JStr "Alicia"); ("role", JStr "admin")].

Definition change_password_guess : Request.t :=
  request PATCH ["api"; "users"; "password"] (Some "alice@campus.edu")
    [("currentPassword", JStr "guess"); ("newPassword", JStr "secret3")].

Definition delete_user_2 : Request.t :=
  request DELETE ["api"; "admin"; "users"; "2"] (Some "root@campus.edu") [].

Definition make_owner_1 : Request.t :=
  request PATCH ["api"; "admin"; "users"; "1"; "role"] (Some "root@campus.edu")
    [("role", JStr "owner")].

Definition make_faculty_1 : Request.t :=
  request PATCH ["api"; "admin"; "users"; "1"; "role"] (Some "root@campus.edu")
    [("role", JStr "faculty")].

Definition read_1 (bearer : string) : Request.t :=
  request PATCH ["api"; "notifications"; "1"; "read"] (Some bearer) [].

Definition read_all (bearer : string) : Request.t :=
  request PATCH ["api"; "notifications"; "read-all"] (Some bearer) [].

Definition list_notifications (bearer : string) : Request.t :=
  request GET ["api"; "notifications"] (Some bearer) [].

Definition list_facilities : Request.t := request GET ["api"; "facilities"] None [].

(** An object of an answer that is a stored user without the password:
    no key [password], every other key as in the row. *)
Definition stripped_row (db : Db) (o : gmap string jsval) : Prop :=
  exists u, u ∈ users db
            /\ o !! "password" = None
            /\ forall k, k <> "password" -> o !! k = json_of_user u !! k.


(** The rows that a booking and a notification refer to are there: the
    owner and the reviewer of a booking, the user and the booking of a
    notification. *)
Definition linked_booking (db : Db) (b : Booking.t) : Prop :=
  notifiable b db /\ refers (user_ids db) (Booking.reviewedBy b).

Definition linked_notification (db : Db) (n : Notification.t) : Prop :=
  Notification.userId n ∈ user_ids db
  /\ refers (booking_ids db) (Notification.relatedBookingId n).

Definition referential (db : Db) : Prop :=
  Forall (linked_booking db) (bookings db)
  /\ Forall (linked_notification db) (notifications db).

(** A registration whose first name has 101 characters, and what
    [registerSchema] makes of it. *)
Fixpoint repeat_char (c : ascii) (n : nat) : string :=
  match n with
  | O => EmptyString
  | S n' => String c (repeat_char c n')
  end.

Definition register_long_name : Request.t :=
  request POST ["api"; "auth"; "register"] None [
    ("email", JStr "bob@campus.edu"); ("password", JStr "secret4");
    ("confirmPassword", JStr "secret4");
    ("firstName", JStr (repeat_char "b" 101)); ("lastName", JStr "Bell") ].

Definition long_name_registration : RegisterData :=
  mkRegisterData
    (InsertUser.mk "bob@campus.edu" "secret4" (Some (repeat_char "b" 101)) (Some "Bell")
       None None)
    "secret4".

(** The approval of a booking whose id is no [integer]. *)
Definition approve_far (bearer : string) : Request.t :=
  request PATCH ["api"; "admin"; "bookings"; "2147483648"; "approve"] (Some bearer) [].
(** * Properties *)

(** ** Routing *)

Section Routing.
Context `{Runtime}.

Lemma dispatch_skip_method r rs req now db :
  route_method r <> Request.method req ->
  dispatch (r :: rs) req now db = dispatch rs req now db.
Proof. intros Hne. cbn [dispatch]. by rewrite bool_decide_eq_false_2. Qed.

Lemma dispatch_skip_path r rs req now db :
  match_path (route_path r) (Request.path req) = None ->
  dispatch (r :: rs) req now db = dispatch rs req now db.
Proof. intros Hn. cbn [dispatch]. rewrite Hn. by destruct (bool_decide _). Qed.

Lemma dispatch_hit r rs req now db ps out :
  route_method r = Request.method req ->
  match_path (route_path r) (Request.path req) = Some ps ->
  run_chain (route_handlers r) (Request.with_params ps req) now db = Some out ->
  dispatch (r :: rs) req now db = Some out.
Proof.
  intros Hm Hp Hr. cbn [dispatch]. rewrite bool_decide_eq_true_2 by done.
  by rewrite Hp, Hr.
Qed.

Lemma eqb_nonempty (s : string) : s <> "" -> String.eqb s "" = false.
Proof. intros Hs. by apply String.eqb_neq. Qed.

Lemma match_path_Lit s pat x path :
  match_path (Lit s :: pat) (x :: path)
  = if seg_eqb s x then match_path pat path else None.
Proof. reflexivity. Qed.

Lemma match_path_Param name pat x path :
  x <> "" ->
  match_path (Param name :: pat) (x :: path) = insert name x <$> match_path pat path.
Proof. intros Hx. cbn [match_path]. by rewrite eqb_nonempty. Qed.

Lemma match_path_nil : match_path [] [] = Some ∅.
Proof. reflexivity. Qed.

Lemma match_path_short pat : pat <> [] -> match_path pat [] = None.
Proof. by destruct pat as [|[]]. Qed.

Lemma match_path_long x y path : match_path [] (x :: y :: path) = None.
Proof. reflexivity. Qed.
End Routing.

(** Evaluates a pattern against a path whose literal segments are given. *)
Ltac eval_path :=
  unfold api;
  repeat first
    [ rewrite match_path_Lit;
      match goal with
      | |- context [seg_eqb ?a ?b] =>
          let v := eval vm_compute in (seg_eqb a b) in
          change (seg_eqb a b) with v; cbv iota
      end
    | rewrite match_path_Param by assumption
    | rewrite match_path_nil
    | rewrite match_path_long
    | rewrite match_path_short by discriminate ];
  cbn [fmap option_fmap option_map].

(** Walks the table down to the first route of the request's method
    whose pattern fits its path. *)
Ltac find_route Hm Hp :=
  unfold handle, registerRoutes;
  repeat first
    [ rewrite dispatch_skip_method by (rewrite Hm; discriminate)
    | rewrite dispatch_skip_path by (cbn [route_path]; rewrite Hp; eval_path; reflexivity) ].

(** Reduces an answer of the table to the answer of the route's chain. *)
Ltac route_to Hm Hp :=
  find_route Hm Hp;
  eapply dispatch_hit;
    [ by rewrite Hm
    | cbn [route_path]; rewrite Hp; eval_path; reflexivity
    | cbn [route_handlers] ].

Section Statements.
Context `{Runtime}.

Lemma handle_review req now db id action :
  Request.method req = PATCH ->
  Request.path req = ["api"; "admin"; "bookings"; id; action] ->
  id <> "" ->
  action = "approve" \/ action = "reject" ->
  forall out,
    run_chain
      [authenticateToken; requireAdmin; action_handler action]
      (Request.with_params (<["id" := id]> ∅) req) now db = Some out ->
    handle req now db = Some out.
Proof.
  intros Hm Hp Hid [-> | ->] out Hrun; route_to Hm Hp; exact Hrun.
Qed.

(** ** The gate *)

Lemma authenticateToken_resolves req now db tok caller :
  bearer_token req = Some tok -> tok <> "" ->
  jwt_verify tok JWT_SECRET now = Some caller ->
  authenticateToken req now db = Next (Request.with_user caller req).
Proof.
  intros Hb Hne Hv. unfold authenticateToken. rewrite Hb.
  rewrite (eqb_nonempty tok) by done. by rewrite Hv.
Qed.

Lemma authenticated_with_params ps req now caller :
  authenticated req now caller -> authenticated (Request.with_params ps req) now caller.
Proof. intros (tok & ? & ? & ?). by exists tok. Qed.

Lemma run_chain_authenticated hs req now db caller :
  authenticated req now caller ->
  run_chain (authenticateToken :: hs) req now db =
  run_chain hs (Request.with_user caller req) now db.
Proof.
  intros (tok & Hb & Hne & Hv). cbn [run_chain].
  by rewrite (authenticateToken_resolves _ _ _ tok caller).
Qed.

Lemma run_chain_admin hs req now db caller :
  Request.user req = Some caller -> AuthUser.role caller = "admin" ->
  run_chain (requireAdmin :: hs) req now db = run_chain hs req now db.
Proof.
  intros Hu Hr. cbn [run_chain]. unfold requireAdmin. rewrite Hu.
  by rewrite decide_True.
Qed.

Lemma run_chain_not_admin hs req now db caller :
  Request.user req = Some caller -> AuthUser.role caller <> "admin" ->
  run_chain (requireAdmin :: hs) req now db =
  Some (res_json 403 (message "Admin access required"), db).
Proof.
  intros Hu Hr. cbn [run_chain]. unfold requireAdmin. rewrite Hu.
  by rewrite decide_False.
Qed.

(** The chain of a route behind the token, and of one behind the token
    and the role, for a caller who passes. *)
Lemma run_user_chain h req now db caller ps :
  authenticated req now caller ->
  run_chain [authenticateToken; h] (Request.with_params ps req) now db
  = match h (Request.with_user caller (Request.with_params ps req)) now db with
    | Respond res db' => Some (res, db')
    | Next _ => None
    end.
Proof.
  intros Hauth.
  rewrite (run_chain_authenticated _ _ _ _ caller) by (by apply authenticated_with_params).
  cbn [run_chain]. by destruct (h _ _ _).
Qed.

Lemma run_admin_chain h req now db caller ps :
  authenticated req now caller ->
  AuthUser.role caller = "admin" ->
  run_chain [authenticateToken; requireAdmin; h] (Request.with_params ps req) now db
  = match h (Request.with_user caller (Request.with_params ps req)) now db with
    | Respond res db' => Some (res, db')
    | Next _ => None
    end.
Proof.
  intros Hauth Hrole.
  rewrite (run_chain_authenticated _ _ _ _ caller) by (by apply authenticated_with_params).
  rewrite (run_chain_admin _ _ _ _ caller) by done.
  cbn [run_chain]. by destruct (h _ _ _).
Qed.

(** C5. An approve or reject request whose token resolves to a caller
    that is not an administrator is answered 403, "Admin access
    required", and the store, hence the booking and the notifications,
    is left as it was. *)
Theorem review_requires_admin req now db id action caller :
  Request.method req = PATCH ->
  Request.path req = ["api"; "admin"; "bookings"; id; action] ->
  id <> "" ->
  action = "approve" \/ action = "reject" ->
  authenticated req now caller ->
  AuthUser.role caller <> "admin" ->
  handle req now db = Some (res_json 403 (message "Admin access required"), db).
Proof.
  intros Hm Hp Hid Hact Hauth Hrole.
  apply (handle_review req now db id action Hm Hp Hid Hact).
  rewrite (run_chain_authenticated _ _ _ _ caller)
    by by apply authenticated_with_params.
  by apply (run_chain_not_admin _ _ _ _ caller).
Qed.

(** ** What the statements do *)

Lemma no_nul_app a b : no_nul (a +:+ b) = (no_nul a && no_nul b)%bool.
Proof.
  induction a as [|c a IH]; [done|].
  change (String c a +:+ b) with (String c (a +:+ b)). cbn [no_nul].
  by rewrite IH, andb_assoc.
Qed.

Lemma pg_bind_Some s : no_nul s = true -> pg_bind s = Some s.
Proof. unfold pg_bind. by intros ->. Qed.

Lemma pg_bind_inv s s' : pg_bind s = Some s' -> s' = s /\ no_nul s = true.
Proof. unfold pg_bind. destruct (no_nul s); [|done]. by intros [= <-]. Qed.

Lemma pg_bind_int4_Some n : int4 n -> pg_bind_int4 n = Some n.
Proof. unfold pg_bind_int4. intros Hn. by rewrite decide_True. Qed.

Lemma pg_bind_int4_inv n n' : pg_bind_int4 n = Some n' -> n' = n /\ int4 n.
Proof. unfold pg_bind_int4. destruct (decide _); [|done]. by intros [= <-]. Qed.

Lemma varchar_fits n s : (String.length s <= n)%nat -> varchar n s = Some s.
Proof. unfold varchar. intros Hs. by rewrite decide_True. Qed.

Lemma z_int4_inv v n : z_int4 v = Some n -> v = Some (JNum n) /\ int4 n.
Proof.
  unfold z_int4. destruct v as [[]|]; cbn; try done.
  destruct (decide _); [|done]. by intros [= <-].
Qed.

Lemma z_max_inv n s s' : z_max n s = Some s' -> s' = s /\ (String.length s <= n)%nat.
Proof. unfold z_max. destruct (decide _); [|done]. by intros [= <-]. Qed.

Lemma z_string_inv v s : z_string v = Some s -> v = Some (JStr s).
Proof. destruct v as [[]|]; cbn; congruence. Qed.

Lemma z_min_inv n s s' : z_min n s = Some s' -> s' = s /\ (n <= String.length s)%nat.
Proof. unfold z_min. destruct (decide _); [|done]. by intros [= <-]. Qed.


(** An INSERT that is refused leaves the rows, and the sequence as it was
    or advanced by one. *)
Lemma createUser_None user now db db' :
  createUser user now db = (None, db') -> db' = db \/ db' = nextval_users db.
Proof.
  unfold createUser. destruct (users_bind user); [|intros [= <-]; by left].
  destruct (users_row _ _ _ _ _); [done|]. intros [= <-]. by right.
Qed.

Lemma createFacility_None facility now db db' :
  createFacility facility now db = (None, db') -> db' = db \/ db' = nextval_facilities db.
Proof.
  unfold createFacility. destruct (facilities_bind facility); [|intros [= <-]; by left].
  destruct (facilities_row _ _ _); [done|]. intros [= <-]. by right.
Qed.

Lemma createBooking_None booking now db db' :
  createBooking booking now db = (None, db') -> db' = db \/ db' = nextval_bookings db.
Proof.
  unfold createBooking. destruct (bookings_bind booking) as [[[d s] e]|];
    [|intros [= <-]; by left].
  destruct (bookings_row _ _ _ _ _ _ _); [done|]. intros [= <-]. by right.
Qed.

Lemma createNotification_None notification now db db' :
  createNotification notification now db = (None, db') ->
  db' = db \/ db' = nextval_notifications db.
Proof.
  unfold createNotification. destruct (notifications_bind notification);
    [|intros [= <-]; by left].
  destruct (notifications_row _ _ _ _); [done|]. intros [= <-]. by right.
Qed.

(** An INSERT that goes through appends the row it returns, whose key is
    the value of the sequence. *)
Lemma users_row_inv user hashed id now db u :
  users_row user hashed id now db = Some u ->
  User.id u = id
  /\ varchar 255 (InsertUser.email user) = Some (User.email u)
  /\ (User.email u ∉ map User.email (users db))
  /\ User.password u = hashed
  /\ nullable (varchar 100) (InsertUser.firstName user) = Some (User.firstName u)
  /\ nullable (varchar 100) (InsertUser.lastName user) = Some (User.lastName u)
  /\ nullable (varchar 50) (InsertUser.studentId user) = Some (User.studentId u)
  /\ User.role u = default student (InsertUser.role user)
  /\ User.createdAt u = Some now.
Proof.
  unfold users_row. intros Hu.
  destruct (varchar 255 _) as [email|]; cbn in Hu; [|done].
  destruct (nullable (varchar 100) (InsertUser.firstName user)) as [fn|]; cbn in Hu; [|done].
  destruct (nullable (varchar 100) (InsertUser.lastName user)) as [ln|]; cbn in Hu; [|done].
  destruct (nullable (varchar 50) _) as [sid|]; cbn in Hu; [|done].
  destruct (decide _) as [|Hfree]; [done|]. by injection Hu as <-.
Qed.

Lemma createUser_Some user now db u db' :
  createUser user now db = (Some u, db') ->
  db' = with_users (users db ++ [u])%list (nextval_users db)
  /\ users_bind user = Some ()
  /\ users_row user (bcrypt_hash (InsertUser.password user)) (users_id_seq db) now db = Some u.
Proof.
  unfold createUser. destruct (users_bind user) as [[]|]; [|done].
  destruct (users_row _ _ _ _ _) as [u'|]; [|done]. by intros [= <- <-].
Qed.

Lemma facilities_row_inv facility id now f :
  facilities_row facility id now = Some f -> Facility.id f = id.
Proof.
  unfold facilities_row. intros Hf.
  destruct (varchar 255 _); cbn in Hf; [|done].
  destruct (nullable (varchar 255) _); cbn in Hf; [|done]. by injection Hf as <-.
Qed.

Lemma createFacility_Some facility now db f db' :
  createFacility facility now db = (Some f, db') ->
  db' = with_facilities (facilities db ++ [f])%list (nextval_facilities db)
  /\ Facility.id f = facilities_id_seq db.
Proof.
  unfold createFacility. destruct (facilities_bind facility); [|done].
  destruct (facilities_row _ _ _) as [f'|] eqn:Hrow; [|done]. intros [= <- <-].
  split; [done|]. by apply facilities_row_inv in Hrow.
Qed.

Lemma bookings_row_inv booking d s e id now db b :
  bookings_row booking d s e id now db = Some b ->
  exists eventName,
    varchar 255 (InsertBooking.eventName booking) = Some eventName
    /\ InsertBooking.userId booking ∈ user_ids db
    /\ InsertBooking.facilityId booking ∈ facility_ids db
    /\ b = Booking.mk id
             (InsertBooking.userId booking) (InsertBooking.facilityId booking)
             eventName (InsertBooking.eventDescription booking)
             (InsertBooking.purpose booking) d s e
             (InsertBooking.attendees booking) (InsertBooking.equipmentNeeded booking)
             pending None None None (Some now) (Some now).
Proof.
  unfold bookings_row. intros Hb.
  destruct (varchar 255 _) as [eventName|]; cbn in Hb; [|done].
  destruct (decide _) as [[Hu Hf]|]; [|done]. injection Hb as <-. by exists eventName.
Qed.

Lemma createBooking_Some booking now db b db' :
  createBooking booking now db = (Some b, db') ->
  db' = with_bookings (bookings db ++ [b])%list (nextval_bookings db)
  /\ exists d s e,
       bookings_bind booking = Some (d, s, e)
       /\ bookings_row booking d s e (bookings_id_seq db) now db = Some b.
Proof.
  unfold createBooking. destruct (bookings_bind booking) as [[[d s] e]|]; [|done].
  destruct (bookings_row _ _ _ _ _ _ _) as [b'|] eqn:Hrow; [|done]. intros [= <- <-].
  split; [done|]. by exists d, s, e.
Qed.

Lemma notifications_row_inv notification id now db n :
  notifications_row notification id now db = Some n ->
  exists title type,
    varchar 255 (InsertNotification.title notification) = Some title
    /\ varchar 50 (InsertNotification.type notification) = Some type
    /\ InsertNotification.userId notification ∈ user_ids db
    /\ refers (booking_ids db) (InsertNotification.relatedBookingId notification)
    /\ n = Notification.mk id (InsertNotification.userId notification) title
             (InsertNotification.message notification) type
             (InsertNotification.relatedBookingId notification) unread (Some now).
Proof.
  unfold notifications_row. intros Hn.
  destruct (varchar 255 _) as [title|]; cbn in Hn; [|done].
  destruct (varchar 50 _) as [type|]; cbn in Hn; [|done].
  destruct (decide _) as [[Hu Hb]|]; [|done]. injection Hn as <-. by exists title, type.
Qed.

Lemma createNotification_Some notification now db n db' :
  createNotification notification now db = (Some n, db') ->
  db' = with_notifications (notifications db ++ [n])%list (nextval_notifications db)
  /\ notifications_row notification (notifications_id_seq db) now db = Some n.
Proof.
  unfold createNotification. destruct (notifications_bind notification); [|done].
  destruct (notifications_row _ _ _ _) as [n'|] eqn:Hrow; [|done]. by intros [= <- <-].
Qed.

(** The INSERT of a notification goes through when its texts are short and
    without NUL and the rows it refers to exist. *)
Lemma createNotification_accepted notification now db :
  fits 255 (InsertNotification.title notification) ->
  no_nul (InsertNotification.message notification) = true ->
  fits 50 (InsertNotification.type notification) ->
  InsertNotification.userId notification ∈ user_ids db ->
  refers (booking_ids db) (InsertNotification.relatedBookingId notification) ->
  createNotification notification now db
  = let n := Notification.mk (notifications_id_seq db)
               (InsertNotification.userId notification)
               (InsertNotification.title notification)
               (InsertNotification.message notification)
               (InsertNotification.type notification)
               (InsertNotification.relatedBookingId notification) unread (Some now) in
    (Some n, with_notifications (notifications db ++ [n])%list (nextval_notifications db)).
Proof.
  intros [Ht Htl] Hm [Hy Hyl] Hfu Hfb. unfold createNotification, notifications_bind.
  rewrite !pg_bind_Some by done. cbn [mbind option_bind]. unfold notifications_row.
  rewrite !varchar_fits by done. cbn [mbind option_bind].
  by rewrite decide_True.
Qed.

(** An update of the status that does not throw. *)
Lemma updateBookingStatus_inv id status adminId notes now db r db' :
  updateBookingStatus id status adminId notes now db = Some (r, db') ->
  exists adminNotes,
    int4 id
    /\ bound_notes notes = Some adminNotes
    /\ (id ∈ booking_ids db -> adminId ∈ user_ids db)
    /\ r = updateBookingStatus_row status adminId adminNotes now <$> find_booking id db
    /\ db' = with_bookings
               (map (fun b => if decide (Booking.id b = id)
                              then updateBookingStatus_row status adminId adminNotes now b
                              else b)
                  (bookings db)) db.
Proof.
  unfold updateBookingStatus. intros Hu.
  destruct (pg_bind_int4 id) as [id'|] eqn:Hid; cbn in Hu; [|done].
  apply pg_bind_int4_inv in Hid as [_ Hid].
  fold (bound_notes notes) in Hu.
  destruct (bound_notes notes) as [adminNotes|] eqn:Hnotes; cbn in Hu; [|done].
  destruct (decide _) as [|Hfk]; [done|].
  unfold update_returning in Hu. injection Hu as <- <-.
  exists adminNotes. split; [done|]. split; [done|]. split.
  - intros Hin. destruct (decide (adminId ∈ user_ids db)); [done|]. by destruct Hfk.
  - split; [|done]. unfold find_booking.
    by destruct (filter (fun b => Booking.id b = id) (bookings db)).
Qed.

Lemma updateBookingStatus_accepted id status adminId notes adminNotes now db :
  int4 id ->
  bound_notes notes = Some adminNotes ->
  (id ∈ booking_ids db -> adminId ∈ user_ids db) ->
  updateBookingStatus id status adminId notes now db
  = Some (updateBookingStatus_row status adminId adminNotes now <$> find_booking id db,
          with_bookings
            (map (fun b => if decide (Booking.id b = id)
                           then updateBookingStatus_row status adminId adminNotes now b
                           else b)
               (bookings db)) db).
Proof.
  intros Hid Hnotes Hfk. unfold updateBookingStatus.
  rewrite (pg_bind_int4_Some _ Hid). cbn [mbind option_bind].
  fold (bound_notes notes). rewrite Hnotes.
  cbn [mbind option_bind]. rewrite decide_False by (intros [? ?]; tauto).
  unfold update_returning, find_booking.
  by destruct (filter (fun b => Booking.id b = id) (bookings db)).
Qed.

Lemma updateUserRole_inv id role now db r db' :
  updateUserRole id role now db = Some (r, db') ->
  int4 id
  /\ db' = with_users
             (map (fun u => if decide (User.id u = id)
                            then User.mk (User.id u) (User.email u) (User.password u)
                                   (User.firstName u) (User.lastName u) (User.studentId u)
                                   role (User.createdAt u) (Some now)
                            else u) (users db)) db.
Proof.
  unfold updateUserRole. intros Hu.
  destruct (pg_bind_int4 id) as [id'|] eqn:Hid; cbn in Hu; [|done].
  apply pg_bind_int4_inv in Hid as [_ Hid]. unfold update_returning in Hu.
  by injection Hu as _ <-.
Qed.

Lemma deleteUser_inv id db r db' :
  deleteUser id db = Some (r, db') ->
  db' = with_users (filter (fun u => User.id u <> id) (users db)) db
  /\ (id ∈ user_ids db -> ~ user_referenced id db).
Proof.
  unfold deleteUser. intros Hd.
  destruct (pg_bind_int4 id); cbn in Hd; [|done].
  destruct (decide _) as [|Hn]; [done|]. injection Hd as _ <-. split; [done|].
  intros Hin Href. by apply Hn.
Qed.

Lemma deleteFacility_inv id db r db' :
  deleteFacility id db = Some (r, db') ->
  db' = with_facilities (filter (fun f => Facility.id f <> id) (facilities db)) db
  /\ (id ∈ facility_ids db -> id ∉ map Booking.facilityId (bookings db)).
Proof.
  unfold deleteFacility. intros Hd.
  destruct (pg_bind_int4 id); cbn in Hd; [|done].
  destruct (decide _) as [|Hn]; [done|]. injection Hd as _ <-. split; [done|].
  intros Hin Href. by apply Hn.
Qed.

Lemma markNotificationRead_inv id db r db' :
  markNotificationRead id db = Some (r, db') ->
  int4 id
  /\ db' = with_notifications
             (map (fun n => if bool_decide (Notification.id n = id) then mark_read n else n)
                (notifications db)) db.
Proof.
  unfold markNotificationRead. intros Hm.
  destruct (pg_bind_int4 id) as [id'|] eqn:Hid; cbn in Hm; [|done].
  apply pg_bind_int4_inv in Hid as [_ Hid]. by injection Hm as _ <-.
Qed.

Lemma updateUser_tables id data now db r db' :
  updateUser id data now db = Some (r, db') ->
  facilities db' = facilities db /\ bookings db' = bookings db
  /\ notifications db' = notifications db.
Proof.
  unfold updateUser. destruct (update_where _ _ _) as [[us ret]|]; [|done].
  by intros [= <- <-].
Qed.

Lemma updateFacility_tables id data now db r db' :
  updateFacility id data now db = Some (r, db') ->
  users db' = users db /\ bookings db' = bookings db /\ notifications db' = notifications db.
Proof.
  unfold updateFacility. destruct (pg_bind_int4 id); [|done]. cbn.
  destruct (update_where _ _ _) as [[fs ret]|]; [|done].
  by intros [= <- <-].
Qed.

(** ** What a handler may do to the store *)

(** Splits the cases of a handler up to its answers. *)
Ltac answer Hrun :=
  repeat match type of Hrun with
         | context [match ?x with _ => _ end] => destruct x eqn:?
         end;
  first [ discriminate Hrun | injection Hrun as <- <- ].

Ltac read_only :=
  intros req now db res db' Hrun; answer Hrun; reflexivity.

Lemma reads_authenticateToken : reads authenticateToken.
Proof. unfold reads, authenticateToken. read_only. Qed.

Lemma reads_requireAdmin : reads requireAdmin.
Proof. unfold reads, requireAdmin. read_only. Qed.

Lemma reads_auth_login : reads auth_login.
Proof. unfold reads, auth_login. read_only. Qed.

Lemma reads_facilities_list : reads facilities_list.
Proof. unfold reads, facilities_list. read_only. Qed.

Lemma reads_facilities_get : reads facilities_get.
Proof. unfold reads, facilities_get. read_only. Qed.

Lemma reads_bookings_my : reads bookings_my.
Proof. unfold reads, bookings_my. read_only. Qed.

Lemma reads_bookings_stats : reads bookings_stats.
Proof. unfold reads, bookings_stats. read_only. Qed.

Lemma reads_notifications_list : reads notifications_list.
Proof. unfold reads, notifications_list. read_only. Qed.

Lemma reads_admin_bookings : reads admin_bookings.
Proof. unfold reads, admin_bookings. read_only. Qed.

Lemma reads_admin_users : reads admin_users.
Proof. unfold reads, admin_users. read_only. Qed.

Lemma reads_admin_stats : reads admin_stats.
Proof. unfold reads, admin_stats. read_only. Qed.

Lemma reads_writes h : reads h -> writes h.
Proof. intros Hr req now db res db' Hrun. by rewrite (Hr _ _ _ _ _ Hrun). Qed.

Lemma pair_snd {A B} (p : A * B) a b : p = (a, b) -> b = p.2.
Proof. by intros ->. Qed.

(** Closes a footprint goal after [answer]: nothing written, or the one or
    two statements found among the hypotheses. *)
Ltac last_write :=
  first
    [ apply write_createNotification
    | apply write_createBooking
    | eapply write_updateBookingStatus; [|eassumption]; discriminate
    | apply write_createUser
    | eapply write_updateUser; eassumption
    | apply write_updateUserPassword
    | eapply write_updateUserRole; eassumption
    | eapply write_deleteUser; eassumption
    | apply write_createFacility
    | eapply write_updateFacility; eassumption
    | eapply write_deleteFacility; eassumption
    | eapply write_markNotificationRead; eassumption
    | apply write_markAllNotificationsRead ].

Ltac footprint :=
  repeat match goal with
         | E : _ = (_, ?d) |- _ => apply pair_snd in E; subst d
         end;
  repeat first [ apply rtc_refl | eapply rtc_r; [|last_write] ].

Ltac writer :=
  intros req now db res db' Hrun; answer Hrun; footprint.

Lemma writes_auth_register : writes auth_register.
Proof. unfold writes, auth_register. writer. Qed.

Lemma writes_users_profile : writes users_profile.
Proof. unfold writes, users_profile. writer. Qed.

Lemma writes_users_password : writes users_password.
Proof. unfold writes, users_password. writer. Qed.

Lemma writes_bookings_create : writes bookings_create.
Proof. unfold writes, bookings_create. writer. Qed.

Lemma writes_notifications_read : writes notifications_read.
Proof. unfold writes, notifications_read. writer. Qed.

Lemma writes_notifications_read_all : writes notifications_read_all.
Proof. unfold writes, notifications_read_all. writer. Qed.

Lemma writes_admin_bookings_approve : writes admin_bookings_approve.
Proof. unfold writes, admin_bookings_approve. writer. Qed.

Lemma writes_admin_bookings_reject : writes admin_bookings_reject.
Proof. unfold writes, admin_bookings_reject. writer. Qed.

Lemma writes_admin_users_role : writes admin_users_role.
Proof. unfold writes, admin_users_role. writer. Qed.

Lemma writes_admin_users_delete : writes admin_users_delete.
Proof. unfold writes, admin_users_delete. writer. Qed.

Lemma writes_admin_facilities_create : writes admin_facilities_create.
Proof. unfold writes, admin_facilities_create. writer. Qed.

Lemma writes_admin_facilities_update : writes admin_facilities_update.
Proof. unfold writes, admin_facilities_update. writer. Qed.

Lemma writes_admin_facilities_delete : writes admin_facilities_delete.
Proof. unfold writes, admin_facilities_delete. writer. Qed.

Lemma run_chain_writes hs req now db res db' :
  Forall writes hs -> run_chain hs req now db = Some (res, db') -> rtc write db db'.
Proof.
  intros Hhs. revert req. induction Hhs as [|h hs Hh Hhs IH]; intros req; [done|].
  cbn [run_chain]. destruct (h req now db) as [res1 db1|req1] eqn:Hrun.
  - intros [= <- <-]. by apply (Hh req now db res1 db1).
  - apply IH.
Qed.

Lemma dispatch_writes routes req now db res db' :
  Forall (fun r => Forall writes (route_handlers r)) routes ->
  dispatch routes req now db = Some (res, db') -> rtc write db db'.
Proof.
  induction 1 as [|r routes Hr Hrs IH]; [done|]. cbn [dispatch].
  destruct (bool_decide _); [|done].
  destruct (match_path _ _) as [ps|]; [|done].
  destruct (run_chain _ _ _ _) as [[res1 db1]|] eqn:Hrun; [|done].
  intros [= <- <-]. by apply (run_chain_writes _ _ _ _ _ _ Hr Hrun).
Qed.

Lemma registerRoutes_write :
  Forall (fun r => Forall writes (route_handlers r)) registerRoutes.
Proof.
  unfold registerRoutes.
  repeat (constructor;
          [cbn [route_handlers];
           repeat (constructor;
                   first [ exact (reads_writes _ reads_authenticateToken)
                         | exact (reads_writes _ reads_requireAdmin)
                         | exact (reads_writes _ reads_auth_login)
                         | exact (reads_writes _ reads_facilities_list)
                         | exact (reads_writes _ reads_facilities_get)
                         | exact (reads_writes _ reads_bookings_my)
                         | exact (reads_writes _ reads_bookings_stats)
                         | exact (reads_writes _ reads_notifications_list)
                         | exact (reads_writes _ reads_admin_bookings)
                         | exact (reads_writes _ reads_admin_users)
                         | exact (reads_writes _ reads_admin_stats)
                         | exact writes_auth_register
                         | exact writes_users_profile
                         | exact writes_users_password
                         | exact writes_bookings_create
                         | exact writes_notifications_read
                         | exact writes_notifications_read_all
                         | exact writes_admin_bookings_approve
                         | exact writes_admin_bookings_reject
                         | exact writes_admin_users_role
                         | exact writes_admin_users_delete
                         | exact writes_admin_facilities_create
                         | exact writes_admin_facilities_update
                         | exact writes_admin_facilities_delete
                         | idtac ])
          |]).
  constructor.
Qed.

Lemma step_writes req now db : rtc write db (step req now db).
Proof.
  unfold step, handle.
  destruct (dispatch registerRoutes req now db) as [[res db']|] eqn:Hd; [|done].
  by apply (dispatch_writes _ _ _ _ _ _ registerRoutes_write Hd).
Qed.
End Statements.

(** Splits a statement of the footprint into what it did to the store. *)
Ltac written :=
  match goal with
  | Hw : write _ _ |- _ => destruct Hw
  end;
  repeat match goal with
         | |- context [(createUser ?u ?t ?d).2] =>
             let E := fresh "E" in
             destruct (createUser u t d) as [[?|] ?] eqn:E; cbn [snd];
             [apply createUser_Some in E as (-> & ? & ?)
             |apply createUser_None in E as [-> | ->]]
         | |- context [(createFacility ?f ?t ?d).2] =>
             let E := fresh "E" in
             destruct (createFacility f t d) as [[?|] ?] eqn:E; cbn [snd];
             [apply createFacility_Some in E as (-> & ?)
             |apply createFacility_None in E as [-> | ->]]
         | |- context [(createBooking ?b ?t ?d).2] =>
             let E := fresh "E" in
             destruct (createBooking b t d) as [[?|] ?] eqn:E; cbn [snd];
             [apply createBooking_Some in E as (-> & ? & ? & ? & ? & ?)
             |apply createBooking_None in E as [-> | ->]]
         | |- context [(createNotification ?n ?t ?d).2] =>
             let E := fresh "E" in
             destruct (createNotification n t d) as [[?|] ?] eqn:E; cbn [snd];
             [apply createNotification_Some in E as (-> & ?)
             |apply createNotification_None in E as [-> | ->]]
         | E : updateUserRole _ _ _ _ = Some _ |- _ =>
             apply updateUserRole_inv in E as (? & ->)
         | E : deleteUser _ _ = Some _ |- _ =>
             apply deleteUser_inv in E as (-> & ?)
         | E : deleteFacility _ _ = Some _ |- _ =>
             apply deleteFacility_inv in E as (-> & ?)
         | E : updateBookingStatus _ _ _ _ _ _ = Some _ |- _ =>
             apply updateBookingStatus_inv in E as (? & ? & ? & ? & -> & ->)
         | E : markNotificationRead _ _ = Some _ |- _ =>
             apply markNotificationRead_inv in E as (? & ->)
         end.

Section Claims.
Context `{Runtime}.

(** ** The invariant of the review columns *)

Lemma reviewed_row_consistent status adminId adminNotes now b :
  status <> pending ->
  review_consistent (updateBookingStatus_row status adminId adminNotes now b).
Proof.
  intros Hs. unfold review_consistent; cbn. split.
  - destruct status; [done| right; by left | right; right; by left].
  - split; split; done.
Qed.

Lemma write_consistent db db' : write db db' -> consistent db -> consistent db'.
Proof.
  unfold consistent. intros Hw Hinv. written; cbn [bookings with_users with_facilities
    with_bookings with_notifications nextval_users nextval_facilities nextval_bookings
    nextval_notifications updateUserPassword markAllNotificationsRead snd]; try done.
  - by apply updateUser_tables in H0 as (_ & -> & _).
  - by apply updateFacility_tables in H0 as (_ & -> & _).
  - apply Forall_app. split; [done|]. constructor; [|done].
    match goal with
    | Hrow : bookings_row _ _ _ _ _ _ _ = Some _ |- _ =>
        apply bookings_row_inv in Hrow as (? & _ & _ & _ & ->)
    end.
    unfold review_consistent; cbn. split; [by left|]. by split.
  - induction Hinv as [|b l Hb Hl IH]; cbn [map]; constructor; [|done].
    destruct (decide _); [by apply reviewed_row_consistent | done].
Qed.

Lemma step_consistent req now db : consistent db -> consistent (step req now db).
Proof.
  intros Hinv. induction (step_writes req now db) as [|x y z Hxy _ IH]; [done|].
  apply IH. by apply (write_consistent x).
Qed.

(** C2. In every store that requests build from the empty one, each
    booking has one of the three statuses, and its reviewer and its
    review time are null exactly when it is pending. *)
Theorem reachable_bookings_review_consistent db :
  reachable db ->
  forall b, b ∈ bookings db ->
    In (Booking.status b) [pending; approved; rejected]
    /\ (Booking.reviewedBy b = None /\ Booking.reviewedAt b = None
        <-> Booking.status b = pending)
    /\ (Booking.reviewedBy b = None <-> Booking.reviewedAt b = None).
Proof.
  intros Hreach.
  assert (Hinv : consistent db).
  { induction Hreach as [|req now db _ IH]; [by constructor|].
    by apply step_consistent. }
  intros b Hb. unfold consistent in Hinv. rewrite Forall_forall in Hinv.
  destruct (Hinv b Hb) as (Hs & Hby & Hat). split; [done|]. split.
  - split; [intros [? _]; by apply Hby | intros Hp; split; [by apply Hby | by apply Hat]].
  - rewrite Hby, Hat. done.
Qed.

(** ** Reviews *)


Lemma head_filter_nil {A} (P : A -> Prop) `{forall x, Decision (P x)} l :
  head (filter P l) = None -> filter P l = [].
Proof. by destruct (filter P l). Qed.

Lemma head_filter_elem {A} (P : A -> Prop) `{forall x, Decision (P x)} l x :
  head (filter P l) = Some x -> x ∈ l /\ P x.
Proof.
  intros Hh.
  assert (Hin : x ∈ filter P l) by (destruct (filter P l); [done|]; injection Hh as ->; by left).
  apply list_elem_of_filter in Hin as [? ?]. done.
Qed.



Lemma bound_notes_text notes :
  notes_text notes ->
  exists adminNotes,
    bound_notes notes = Some adminNotes
    /\ (forall s, notes = Some (JStr s) -> adminNotes = Some (Some s))
    /\ (notes = None -> adminNotes = None).
Proof.
  destruct notes as [[]|]; cbn; try done.
  - intros Hs. unfold pg_bind. rewrite Hs. eexists. split; [reflexivity|].
    split; [by intros ? [= ->]|done].
  - intros _. eexists. split; [reflexivity|]. split; [done|done].
Qed.




Lemma updated_ids id (f : Booking.t -> Booking.t) l :
  (forall b, Booking.id (f b) = Booking.id b) ->
  map Booking.id (map (fun b => if decide (Booking.id b = id) then f b else b) l)
  = map Booking.id l.
Proof.
  intros Hf. rewrite map_map. apply map_ext. intros b. by destruct (decide _).
Qed.

Lemma action_handler_run action req now db caller b :
  action = "approve" \/ action = "reject" ->
  Request.user req = Some caller ->
  param_id req = Some b ->
  action_handler action req now db =
  let notes := Request.body req !! "notes" in
  match updateBookingStatus b (action_status action) (AuthUser.id caller) notes now db with
  | None => Respond (failed (action_failure action)) db
  | Some (None, db1) => Respond (res_json 404 (message "Booking not found")) db1
  | Some (Some updated, db1) =>
      match createNotification (review_insert action notes updated) now db1 with
      | (None, db2) => Respond (failed (action_failure action)) db2
      | (Some _, db2) => Respond (res_json 200 (JObj (json_of_booking updated))) db2
      end
  end.
Proof.
  intros [-> | ->] Hu Hp;
    unfold action_handler, action_status, review_insert, action_failure, failed;
    cbn [String.eqb Ascii.eqb Bool.eqb];
    [unfold admin_bookings_approve | unfold admin_bookings_reject];
    by rewrite Hu, Hp.
Qed.

Lemma handle_review_admin req now db id action caller b :
  Request.method req = PATCH ->
  Request.path req = ["api"; "admin"; "bookings"; id; action] ->
  id <> "" ->
  action = "approve" \/ action = "reject" ->
  authenticated req now caller ->
  AuthUser.role caller = "admin" ->
  parseInt id = Some b ->
  handle req now db =
  let notes := Request.body req !! "notes" in
  match updateBookingStatus b (action_status action) (AuthUser.id caller) notes now db with
  | None => Some (failed (action_failure action), db)
  | Some (None, db1) => Some (res_json 404 (message "Booking not found"), db1)
  | Some (Some updated, db1) =>
      match createNotification (review_insert action notes updated) now db1 with
      | (None, db2) => Some (failed (action_failure action), db2)
      | (Some _, db2) => Some (res_json 200 (JObj (json_of_booking updated)), db2)
      end
  end.
Proof.
  intros Hm Hp Hid Hact Hauth Hrole Hb.
  set (req' := Request.with_user caller (Request.with_params (<["id" := id]> ∅) req)).
  assert (Hrun : action_handler action req' now db = _)
    by (apply (action_handler_run action req' now db caller b Hact);
        [done | unfold param_id; cbn; by rewrite lookup_insert_eq]).
  cbv zeta in Hrun |- *.
  change (Request.body req') with (Request.body req) in Hrun.
  destruct (updateBookingStatus _ _ _ _ _ _) as [[[updated|] db1]|];
    [destruct (createNotification _ _ _) as [[?|] ?]| |];
    apply (handle_review req now db id action Hm Hp Hid Hact);
    rewrite (run_admin_chain _ _ _ _ caller) by done; fold req'; by rewrite Hrun.
Qed.







(** ** The gate, again *)

(** C7, as the code has it. A token that is present and fails
    verification is answered 403, "Invalid or expired token", and the
    store is left alone. *)
Theorem invalid_token_is_forbidden req now db tok :
  bearer_token req = Some tok -> tok <> "" ->
  jwt_verify tok JWT_SECRET now = None ->
  authenticateToken req now db =
    Respond (res_json 403 (message "Invalid or expired token")) db.
Proof.
  intros Hb Hne Hv. unfold authenticateToken.
  by rewrite Hb, (eqb_nonempty tok), Hv.
Qed.

Lemma missing_token_is_unauthenticated req now db :
  bearer_token req = None \/ bearer_token req = Some "" ->
  authenticateToken req now db =
    Respond (res_json 401 (message "Authentication required")) db.
Proof. unfold authenticateToken. by intros [-> | ->]. Qed.

(** ** Creating a booking *)

Lemma no_nul_take n s : no_nul s = true -> no_nul (string_take n s) = true.
Proof.
  revert s. induction n as [|n IH]; intros [|c s]; cbn [string_take no_nul]; try done.
  intros Hs. apply andb_true_iff in Hs as [Hc Hs]. by rewrite Hc, IH.
Qed.

Lemma varchar_no_nul n s s' : varchar n s = Some s' -> no_nul s = true -> no_nul s' = true.
Proof.
  unfold varchar. destruct (decide _); [by intros [= <-]|].
  destruct (all_spaces _); [|done]. intros [= <-]. apply no_nul_take.
Qed.

Lemma bookings_bind_inv booking d s e :
  bookings_bind booking = Some (d, s, e) ->
  int4 (InsertBooking.userId booking)
  /\ int4 (InsertBooking.facilityId booking)
  /\ no_nul (InsertBooking.eventName booking) = true
  /\ pg_date (InsertBooking.eventDate booking) = Some d
  /\ pg_time (InsertBooking.startTime booking) = Some s
  /\ pg_time (InsertBooking.endTime booking) = Some e.
Proof.
  unfold bookings_bind. intros Hb.
  destruct (pg_bind_int4 (InsertBooking.userId booking)) eqn:Hu; cbn in Hb; [|done].
  destruct (pg_bind_int4 (InsertBooking.facilityId booking)) eqn:Hf; cbn in Hb; [|done].
  destruct (pg_bind (InsertBooking.eventName booking)) as [name|] eqn:Hn;
    cbn in Hb; [|done].
  destruct (varchar 255 name); cbn in Hb; [|done].
  destruct (nullable pg_bind (InsertBooking.eventDescription booking)); cbn in Hb; [|done].
  destruct (nullable pg_bind (InsertBooking.purpose booking)); cbn in Hb; [|done].
  destruct (pg_date _) as [d'|]; cbn in Hb; [|done].
  destruct (pg_time (InsertBooking.startTime booking)) as [s'|]; cbn in Hb; [|done].
  destruct (pg_time (InsertBooking.endTime booking)) as [e'|]; cbn in Hb; [|done].
  destruct (nullable pg_bind_int4 _); cbn in Hb; [|done].
  destruct (nullable pg_bind _); cbn in Hb; [|done].
  injection Hb as <- <- <-.
  apply pg_bind_int4_inv in Hu as [_ Hu]. apply pg_bind_int4_inv in Hf as [_ Hf].
  apply pg_bind_inv in Hn as [_ Hn]. done.
Qed.

Lemma nullable_Some {A} (f : A -> option A) (o : option A) :
  (forall a, o = Some a -> f a = Some a) -> nullable f o = Some o.
Proof. destruct o as [a|]; [|done]. intros Hf. cbn. by rewrite Hf. Qed.

(** The INSERT of a booking goes through when its numbers are integers,
    its texts are texts, its name is short, PostgreSQL reads its date and
    its times, and the user and the facility exist. *)
Lemma createBooking_accepted booking now db d s e :
  int4 (InsertBooking.userId booking) ->
  int4 (InsertBooking.facilityId booking) ->
  (forall n, InsertBooking.attendees booking = Some n -> int4 n) ->
  booking_texts booking ->
  (String.length (InsertBooking.eventName booking) <= 255)%nat ->
  pg_date (InsertBooking.eventDate booking) = Some d ->
  pg_time (InsertBooking.startTime booking) = Some s ->
  pg_time (InsertBooking.endTime booking) = Some e ->
  InsertBooking.userId booking ∈ user_ids db ->
  InsertBooking.facilityId booking ∈ facility_ids db ->
  createBooking booking now db
  = let b := Booking.mk (bookings_id_seq db)
               (InsertBooking.userId booking) (InsertBooking.facilityId booking)
               (InsertBooking.eventName booking) (InsertBooking.eventDescription booking)
               (InsertBooking.purpose booking) d s e
               (InsertBooking.attendees booking) (InsertBooking.equipmentNeeded booking)
               pending None None None (Some now) (Some now) in
    (Some b, with_bookings (bookings db ++ [b])%list (nextval_bookings db)).
Proof.
  intros Hu Hf Ha (Hn & Hd & Hp & Hq) Hlen Hdate Hs He Hfu Hff.
  unfold createBooking, bookings_bind.
  rewrite !pg_bind_int4_Some, pg_bind_Some by done. cbn [mbind option_bind].
  rewrite !(nullable_Some pg_bind) by (intros; by apply pg_bind_Some; auto).
  cbn [mbind option_bind]. rewrite Hdate, Hs, He. cbn [mbind option_bind].
  rewrite (nullable_Some pg_bind_int4) by (intros; by apply pg_bind_int4_Some; auto).
  cbn [mbind option_bind].
  unfold bookings_row. rewrite varchar_fits by done. cbn [mbind option_bind].
  by rewrite decide_True.
Qed.

(** The notification of a booking that was inserted is taken. *)
Lemma created_booking_is_notified booking now db b db1 :
  createBooking booking now db = (Some b, db1) ->
  createNotification
    (InsertNotification.mk (InsertBooking.userId booking) "Booking Request Submitted"
       (submitted_message (Booking.eventName b)) "info" (Some (Booking.id b))) now db1
  = let n := Notification.mk (notifications_id_seq db) (InsertBooking.userId booking)
               "Booking Request Submitted" (submitted_message (Booking.eventName b))
               "info" (Some (Booking.id b)) unread (Some now) in
    (Some n, with_notifications (notifications db ++ [n])%list (nextval_notifications db1)).
Proof.
  intros Hc. apply createBooking_Some in Hc as (-> & d & s & e & Hbind & Hrow).
  apply bookings_bind_inv in Hbind as (_ & _ & Hname & _).
  apply bookings_row_inv in Hrow as (eventName & Hvar & Hu & _ & ->).
  rewrite createNotification_accepted; [reflexivity|..];
    cbn [InsertNotification.title InsertNotification.type InsertNotification.message
           InsertNotification.userId InsertNotification.relatedBookingId
           Booking.eventName Booking.id refers].
  - split; [reflexivity | cbn; lia].
  - unfold submitted_message. rewrite !no_nul_app.
    by rewrite (varchar_no_nul _ _ _ Hvar Hname).
  - split; [reflexivity | cbn; lia].
  - exact Hu.
  - unfold booking_ids. cbn [bookings with_bookings nextval_bookings].
    rewrite map_app. apply elem_of_app. right. by left.
Qed.

Lemma insertBookingSchema_userId c body parsed :
  insertBookingSchema (<["userId" := JNum c]> body) = Some parsed ->
  InsertBooking.userId parsed = c.
Proof.
  unfold insertBookingSchema. rewrite lookup_insert_eq. intros Hp.
  destruct (z_int4 (Some (JNum c))) as [u|] eqn:Hu; cbn [mbind option_bind] in Hp; [|done].
  apply z_int4_inv in Hu as [[= <-] _].
  repeat (match type of Hp with
          | context [?x ≫= _] => destruct x; cbn [mbind option_bind] in Hp; [|done]
          end).
  by injection Hp as <-.
Qed.

(** The handler behind the token, case by case. *)
Lemma bookings_create_run req now db caller :
  Request.user req = Some caller ->
  bookings_create req now db
  = match insertBookingSchema (<["userId" := JNum (AuthUser.id caller)]> (Request.body req))
    with
    | None => Respond (mkResponse 400 ValidationFailed) db
    | Some parsed =>
        match createBooking parsed now db with
        | (None, db1) => Respond (failed "Failed to create booking") db1
        | (Some b, db1) =>
            let n := Notification.mk (notifications_id_seq db) (AuthUser.id caller)
                       "Booking Request Submitted" (submitted_message (Booking.eventName b))
                       "info" (Some (Booking.id b)) unread (Some now) in
            Respond (res_json 201 (JObj (json_of_booking b)))
              (with_notifications (notifications db ++ [n])%list (nextval_notifications db1))
        end
    end.
Proof.
  intros Hu. unfold bookings_create. rewrite Hu.
  destruct (insertBookingSchema _) as [parsed|] eqn:Hparse; [|done].
  destruct (createBooking parsed now db) as [[b|] db1] eqn:Hc; [|done].
  rewrite <- (insertBookingSchema_userId _ _ _ Hparse).
  by rewrite (created_booking_is_notified _ _ _ _ _ Hc).
Qed.

Lemma handle_bookings_create req now db caller :
  Request.method req = POST ->
  Request.path req = ["api"; "bookings"] ->
  authenticated req now caller ->
  handle req now db =
  match bookings_create (Request.with_user caller (Request.with_params ∅ req)) now db with
  | Respond res db' => Some (res, db')
  | Next _ => None
  end.
Proof.
  intros Hm Hp Hauth.
  assert (Hresp : exists res db', bookings_create
            (Request.with_user caller (Request.with_params ∅ req)) now db = Respond res db').
  { rewrite (bookings_create_run _ _ _ caller) by done.
    destruct (insertBookingSchema _); [|by eexists _, _].
    destruct (createBooking _ _ _) as [[bk|] db1]; by eexists _, _. }
  destruct Hresp as (res & db' & Hresp). rewrite Hresp.
  route_to Hm Hp. rewrite (run_user_chain _ _ _ _ caller) by done. by rewrite Hresp.
Qed.

(** The schema reads ten keys of its input and nothing else. *)
Lemma insertBookingSchema_ext (d1 d2 : gmap string jsval) :
  (forall k, k <> "status" -> d1 !! k = d2 !! k) ->
  insertBookingSchema d1 = insertBookingSchema d2.
Proof.
  intros Hk. unfold insertBookingSchema.
  by rewrite !Hk by discriminate.
Qed.

Lemma same_tables_refl db : same_tables db db.
Proof. by repeat split. Qed.

Lemma same_tables_nextval_bookings db : same_tables db (nextval_bookings db).
Proof. by repeat split. Qed.

(** C1. An authenticated request to create a booking is refused as
    invalid, with the store unchanged, or answered 500 when PostgreSQL
    refuses the row, with the tables unchanged, or answered 201 with the
    new row, which is appended to the bookings, belongs to the caller and
    is pending with no review; and the outcome is the same whatever the
    body holds under [userId] and [status]. *)
Theorem created_booking_is_callers_and_pending req now db caller :
  Request.method req = POST ->
  Request.path req = ["api"; "bookings"] ->
  authenticated req now caller ->
  (exists res db',
     handle req now db = Some (res, db')
     /\ ((res = mkResponse 400 ValidationFailed /\ db' = db)
         \/ (res = failed "Failed to create booking" /\ same_tables db db')
         \/ exists b,
              res = res_json 201 (JObj (json_of_booking b))
              /\ bookings db' = (bookings db ++ [b])%list
              /\ Booking.userId b = AuthUser.id caller
              /\ Booking.status b = pending
              /\ Booking.reviewedBy b = None
              /\ Booking.reviewedAt b = None))
  /\ (forall body',
        (forall k, k <> "userId" -> k <> "status" ->
                   body' !! k = Request.body req !! k) ->
        handle (Request.with_body body' req) now db = handle req now db).
Proof.
  intros Hm Hp Hauth. split.
  - rewrite (handle_bookings_create req now db caller) by done.
    rewrite (bookings_create_run _ _ _ caller) by done.
    cbn [Request.body Request.with_user Request.with_params].
    destruct (insertBookingSchema _) as [parsed|] eqn:Hparse.
    + destruct (createBooking parsed now db) as [[b|] db1] eqn:Hc.
      * eexists _, _. split; [reflexivity|]. right. right. exists b.
        split; [reflexivity|].
        apply createBooking_Some in Hc as (-> & d & s & e & _ & Hrow).
        apply bookings_row_inv in Hrow as (eventName & _ & _ & _ & ->).
        cbn [bookings with_notifications nextval_notifications with_bookings
               Booking.userId Booking.status Booking.reviewedBy Booking.reviewedAt].
        split; [done|]. split; [by apply (insertBookingSchema_userId _ _ _ Hparse)|done].
      * eexists _, _. split; [reflexivity|]. right. left. split; [done|].
        apply createBooking_None in Hc as [-> | ->];
          [apply same_tables_refl | apply same_tables_nextval_bookings].
    + eexists _, _. split; [reflexivity|]. by left.
  - intros body' Hbody.
    rewrite (handle_bookings_create req now db caller) by done.
    rewrite (handle_bookings_create (Request.with_body body' req) now db caller)
      by (try done; destruct Hauth as (tok & ? & ? & ?); by exists tok).
    rewrite !(bookings_create_run _ _ _ caller) by done.
    cbn [Request.body Request.with_user Request.with_params Request.with_body].
    rewrite (insertBookingSchema_ext
               (<["userId" := JNum (AuthUser.id caller)]> body')
               (<["userId" := JNum (AuthUser.id caller)]> (Request.body req))); [done|].
    intros k Hk. destruct (decide (k = "userId")) as [->|Hu].
    + by rewrite !lookup_insert_eq.
    + rewrite !lookup_insert_ne by done. by apply Hbody.
Qed.

(** ** Statistics *)

Lemma count_status_occurrences s l : count_status s l = occurrences s l.
Proof.
  unfold count_status. induction l as [|b l IH]; [done|].
  rewrite filter_cons. cbn [occurrences]. rewrite <- IH.
  destruct (decide (Booking.status b = s)); cbn [length]; lia.
Qed.

Lemma occurrences_total l :
  occurrences pending l + occurrences approved l + occurrences rejected l
  = Z.of_nat (length l).
Proof.
  induction l as [|b l IH]; [done|]. cbn [occurrences length].
  destruct (Booking.status b);
    repeat (destruct (decide _) as [?|?]; try congruence); lia.
Qed.

(** C9. The statistics are the numbers of pending, approved and
    rejected bookings and the size of the table, so the three counts add
    up to the total. *)
Theorem booking_stats_partition db :
  let stats := getBookingStats db in
  BookingStats.pending stats = occurrences pending (bookings db)
  /\ BookingStats.approved stats = occurrences approved (bookings db)
  /\ BookingStats.rejected stats = occurrences rejected (bookings db)
  /\ BookingStats.total stats = Z.of_nat (length (bookings db))
  /\ BookingStats.pending stats + BookingStats.approved stats
       + BookingStats.rejected stats = BookingStats.total stats.
Proof.
  cbn. rewrite !count_status_occurrences. repeat split; try done.
  apply occurrences_total.
Qed.

(** ** Registration *)

Lemma auth_register_responds req now db :
  exists res db', auth_register req now db = Respond res db'.
Proof.
  unfold auth_register. destruct (registerSchema _); [|by eexists _, _].
  destruct (getUserByEmail _ _); [by eexists _, _|].
  destruct (createUser _ _ _) as [[?|] ?]; by eexists _, _.
Qed.

Lemma handle_auth_register req now db :
  Request.method req = POST ->
  Request.path req = ["api"; "auth"; "register"] ->
  handle req now db =
  match auth_register (Request.with_params ∅ req) now db with
  | Respond res db' => Some (res, db')
  | Next _ => None
  end.
Proof.
  intros Hm Hp.
  destruct (auth_register_responds (Request.with_params ∅ req) now db)
    as (res & db' & Hresp).
  rewrite Hresp. route_to Hm Hp. cbn [run_chain]. by rewrite Hresp.
Qed.

Lemma registerSchema_email data parsed e :
  data !! "email" = Some (JStr e) ->
  registerSchema data = Some parsed ->
  InsertUser.email (rd_user parsed) = e.
Proof.
  intros He. unfold registerSchema. rewrite He. cbn.
  repeat (match goal with
          | |- context [?x ≫= _] => destruct x; cbn; [|done]
          end).
  by intros [= <-].
Qed.

Lemma getUserByEmail_existing e db u :
  u ∈ users db -> User.email u = e -> is_Some (getUserByEmail e db).
Proof.
  intros Hin He. unfold getUserByEmail.
  assert (Hf : u ∈ filter (fun u => User.email u = e) (users db))
    by by apply list_elem_of_filter.
  destruct (filter _ _); [by apply elem_of_nil in Hf | by eexists].
Qed.

(** C8, as the code has it. A registration whose e-mail is that of an
    existing user is answered 400 and leaves the store as it was, so no
    user is created and no token is issued: with "Email already
    registered" when the body passes the schema, as a failed validation
    when it does not. *)
Theorem duplicate_registration_is_refused req now db e u :
  Request.method req = POST ->
  Request.path req = ["api"; "auth"; "register"] ->
  Request.body req !! "email" = Some (JStr e) ->
  u ∈ users db -> User.email u = e ->
  exists res,
    handle req now db = Some (res, db)
    /\ statusCode res = 400
    /\ ((registerSchema (Request.body req) <> None
         /\ res = res_json 400 (message "Email already registered"))
        \/ (registerSchema (Request.body req) = None
            /\ res = mkResponse 400 ValidationFailed)).
Proof.
  intros Hm Hp He Hin Hu.
  rewrite (handle_auth_register req now db Hm Hp).
  unfold auth_register. cbn [Request.body Request.with_params].
  destruct (registerSchema (Request.body req)) as [parsed|] eqn:Hparse.
  - rewrite (registerSchema_email _ _ e He Hparse).
    destruct (getUserByEmail_existing e db u Hin Hu) as [existing ->].
    eexists. split; [reflexivity|]. split; [done|]. by left.
  - eexists. split; [reflexivity|]. split; [done|]. by right.
Qed.

(** ** Routes that are not there *)

(** No route of the table takes a PUT, PATCH or DELETE on
    [/api/bookings/:id]. *)
Lemma no_route_edits_or_deletes_bookings req now db id :
  Request.path req = ["api"; "bookings"; id] ->
  Request.method req = PUT \/ Request.method req = PATCH \/ Request.method req = DELETE ->
  handle req now db = None.
Proof. intros Hp [Hm | [Hm | Hm]]; by find_route Hm Hp. Qed.

(** ** User objects in the answers *)

Lemma userWithoutPassword_spec u :
  userWithoutPassword u !! "password" = None
  /\ forall k, k <> "password" -> userWithoutPassword u !! k = json_of_user u !! k.
Proof.
  unfold userWithoutPassword. split; [apply lookup_delete_eq|].
  intros k Hk. by apply lookup_delete_ne.
Qed.

Lemma insert_by_perm {A} (le : A -> A -> bool) x l : insert_by le x l ≡ₚ x :: l.
Proof.
  induction l as [|y l IH]; [done|]. cbn [insert_by].
  destruct (le x y); [done|]. rewrite IH. apply Permutation_swap.
Qed.

Lemma order_by_perm {A} (le : A -> A -> bool) l : order_by le l ≡ₚ l.
Proof.
  unfold order_by. induction l as [|x l IH]; [done|].
  cbn [foldr]. by rewrite insert_by_perm, IH.
Qed.

Lemma update_where_returned {A} (P : A -> Prop) `{forall x, Decision (P x)}
    (f : A -> option A) l l' ret :
  update_where P f l = Some (l', ret) -> forall y, y ∈ ret -> y ∈ l'.
Proof.
  revert l' ret. induction l as [|x l IH]; intros l' ret; cbn [update_where].
  - intros [= <- <-] y Hy. by apply elem_of_nil in Hy.
  - destruct (update_where P f l) as [[l1 r1]|]; [|done]. cbn.
    destruct (decide (P x)).
    + destruct (f x) as [y0|]; [|done]. cbn. intros [= <- <-] y Hy.
      apply elem_of_cons in Hy as [-> | Hy]; [by left|]. right. by apply (IH l1 r1).
    + intros [= <- <-] y Hy. right. by apply (IH l1 r1).
Qed.

(** The five routes that answer with user objects take the password out
    of each of them: the object is the stored row without that key. *)
Lemma user_routes_strip_password req now db res db' :
  (auth_register req now db = Respond res db' -> statusCode res = 201 ->
   exists u token, u ∈ users db'
     /\ json res = Json (JObj {[ "user" := JObj (userWithoutPassword u);
                                 "token" := JStr token ]}))
  /\ (auth_login req now db = Respond res db' -> statusCode res = 200 ->
      exists u token, u ∈ users db'
        /\ json res = Json (JObj {[ "user" := JObj (userWithoutPassword u);
                                    "token" := JStr token ]}))
  /\ (users_profile req now db = Respond res db' -> statusCode res = 200 ->
      exists u, u ∈ users db'
        /\ json res = Json (JObj {[ "user" := JObj (userWithoutPassword u) ]}))
  /\ (admin_users req now db = Respond res db' ->
      exists us, us ≡ₚ users db'
        /\ json res = Json (JArr (map (fun u => JObj (userWithoutPassword u)) us)))
  /\ (admin_users_role req now db = Respond res db' -> statusCode res = 200 ->
      exists u, u ∈ users db' /\ json res = Json (JObj (userWithoutPassword u))).
Proof.
  repeat split.
  - unfold auth_register. intros Hrun Hcode.
    destruct (registerSchema _); [|by injection Hrun as <- <-].
    destruct (getUserByEmail _ _); [by injection Hrun as <- <-|].
    destruct (createUser _ _ _) as [[user|] db1] eqn:Hc; [|by injection Hrun as <- <-].
    injection Hrun as <- <-. apply createUser_Some in Hc as (-> & _).
    eexists _, _. split; [|reflexivity].
    cbn [users with_users]. apply elem_of_app. right. by left.
  - unfold auth_login. intros Hrun Hcode.
    destruct (loginSchema _) as [[email password]|]; [|by injection Hrun as <- <-].
    destruct (getUserByEmail email db) as [user|] eqn:Hu; [|by injection Hrun as <- <-].
    destruct (bcrypt_compare _ _); [|by injection Hrun as <- <-].
    injection Hrun as <- <-. eexists _, _. split; [|reflexivity].
    unfold getUserByEmail in Hu.
    by apply (head_filter_elem (fun u => User.email u = email)) in Hu as [? _].
  - unfold users_profile. intros Hrun Hcode.
    destruct (Request.user req) as [caller|]; [|by injection Hrun as <- <-].
    destruct (updateUser _ _ _ _) as [[[updated|] db1]|] eqn:Hu;
      [|by injection Hrun as <- <-|by injection Hrun as <- <-].
    injection Hrun as <- <-. exists updated. split; [|reflexivity].
    unfold updateUser in Hu.
    destruct (update_where _ _ _) as [[us ret]|] eqn:Hw; [|done].
    injection Hu as Hhead <-. cbn [users with_users].
    apply (update_where_returned _ _ _ _ _ Hw).
    destruct ret; [done|]. injection Hhead as ->. by left.
  - unfold admin_users. intros Hrun. injection Hrun as <- <-.
    exists (getAllUsers db). split; [apply order_by_perm|].
    cbn [json res_json]. by rewrite map_map.
  - unfold admin_users_role. intros Hrun Hcode.
    destruct (z_userRole _) as [role|]; [|by injection Hrun as <- <-].
    destruct (param_id req) as [userId|]; [|by injection Hrun as <- <-].
    unfold updateUserRole, update_returning in Hrun.
    destruct (pg_bind_int4 userId); cbn [mbind option_bind] in Hrun;
      [|by injection Hrun as <- <-].
    destruct (filter (fun u => User.id u = userId) (users db)) as [|u0 us0] eqn:Hf;
      [by injection Hrun as <- <-|].
    cbn [map head] in Hrun. injection Hrun as <- <-.
    eexists. split; [|reflexivity]. cbn [users with_users].
    assert (Hin : u0 ∈ filter (fun u => User.id u = userId) (users db))
      by (rewrite Hf; by left).
    apply list_elem_of_filter in Hin as [Hid Hin].
    apply list_elem_of_fmap. exists u0. split; [|done].
    by rewrite decide_True.
Qed.

(** The rows of the booking lists keep it: the object under [user], and
    likewise under [reviewer], is the whole row of the user. *)
Lemma booking_row_carries_password b u :
  BookingWithRelations.user b = Some u \/ BookingWithRelations.reviewer b = Some u ->
  exists rel,
    (json_of_booking_with_relations b !! rel) ≫= jget "password"
    = Some (JStr (User.password u)).
Proof.
  intros [Hu | Hu]; [exists "user" | exists "reviewer"];
    unfold json_of_booking_with_relations.
  - rewrite lookup_insert_eq, Hu. reflexivity.
  - rewrite lookup_insert_ne, lookup_insert_ne, lookup_insert_eq, Hu by done.
    reflexivity.
Qed.
End Claims.

(** * The handlers on concrete requests *)

Lemma authenticated_alice m path body now :
  authenticated (H := sample_runtime) (request m path (Some "alice@campus.edu") body) now alice.
Proof. exists "alice@campus.edu". by repeat split. Defined.

Lemma authenticated_root m path body now :
  authenticated (H := sample_runtime) (request m path (Some "root@campus.edu") body) now root.
Proof. exists "root@campus.edu". by repeat split. Defined.

(** The booking of the sample store is Alice's, while the body of the
    request named user 2 and the status approved. *)
Lemma created_booking_is_callers_and_pending_witness :
  exists res db',
    handle (H := sample_runtime) book_hall 103 db_hall = Some (res, db')
    /\ statusCode res = 201
    /\ exists b, bookings db' = [b] /\ Booking.userId b = 1 /\ Booking.status b = pending.
Proof.
  destruct (created_booking_is_callers_and_pending (H := sample_runtime)
              book_hall 103 db_hall alice eq_refl eq_refl
              (authenticated_alice _ _ _ _)) as [(res & db' & Hh & Hcases) _].
  exists res, db'. split; [exact Hh|].
  destruct Hcases as [[-> ->] | [[-> _] | (b & -> & Hb & Hu & Hs & _)]].
  - vm_compute in Hh. discriminate Hh.
  - vm_compute in Hh. discriminate Hh.
  - split; [reflexivity|]. exists b. by repeat split.
Defined.

Lemma reachable_db_approved : reachable (H := sample_runtime) db_approved.
Proof. unfold db_approved. cbn [run]. repeat constructor. Defined.

Lemma reachable_bookings_review_consistent_witness :
  reachable (H := sample_runtime) db_approved
  /\ Forall (fun b =>
               In (Booking.status b) [pending; approved; rejected]
               /\ (Booking.reviewedBy b = None /\ Booking.reviewedAt b = None
                   <-> Booking.status b = pending)
               /\ (Booking.reviewedBy b = None <-> Booking.reviewedAt b = None))
       (bookings db_approved).
Proof.
  split; [exact reachable_db_approved|]. apply Forall_forall.
  exact (reachable_bookings_review_consistent (H := sample_runtime) db_approved
           reachable_db_approved).
Defined.


Lemma root_has_a_row : 2 ∈ user_ids db_booked.
Proof. apply list_elem_of_further, list_elem_of_here. Defined.




Lemma review_requires_admin_witness :
  handle (H := sample_runtime) (approve_1 "alice@campus.edu") 103 db_booked
  = Some (res_json 403 (message "Admin access required"), db_booked).
Proof.
  apply (review_requires_admin (H := sample_runtime) _ _ _ "1" "approve" alice);
    [reflexivity | reflexivity | discriminate | by left
    | apply authenticated_alice | discriminate].
Defined.

(** C6 at the owner's request to delete a pending booking: no route of
    the table takes [DELETE /api/bookings/1]; the request is left
    unanswered and the booking stays. *)
Theorem delete_booking_is_not_routed :
  (exists b, find_booking 1 db_booked = Some b
             /\ Booking.userId b = AuthUser.id alice /\ Booking.status b = pending)
  /\ handle (H := sample_runtime) (delete_booking_1 "alice@campus.edu") 103 db_booked = None
  /\ step (H := sample_runtime) (delete_booking_1 "alice@campus.edu") 103 db_booked = db_booked.
Proof.
  split; [eexists; by vm_compute|].
  assert (Hn : handle (H := sample_runtime) (delete_booking_1 "alice@campus.edu") 103 db_booked
               = None) by reflexivity.
  split; [exact Hn|]. unfold step. by rewrite Hn.
Qed.

(** C7 fails at a forged token: the answer is 403, not 401. *)
Lemma invalid_token_is_not_401 :
  bearer_token (my_bookings "forged") = Some "forged"
  /\ jwt_verify (Runtime := sample_runtime) "forged" (JWT_SECRET (H := sample_runtime)) 0 = None
  /\ exists res,
       handle (H := sample_runtime) (my_bookings "forged") 0 empty_db = Some (res, empty_db)
       /\ statusCode res = 403
       /\ statusCode res <> 401.
Proof.
  split; [reflexivity|]. split; [reflexivity|].
  eexists. split; [reflexivity|]. split; [reflexivity|]. discriminate.
Qed.

Lemma invalid_token_is_forbidden_witness :
  authenticateToken (H := sample_runtime) (my_bookings "forged") 0 empty_db
  = Respond (res_json 403 (message "Invalid or expired token")) empty_db.
Proof.
  apply (invalid_token_is_forbidden (H := sample_runtime) _ _ _ "forged");
    [reflexivity | discriminate | reflexivity].
Defined.

(** C8 fails at a duplicate e-mail in a body whose passwords differ: the
    answer is the failed validation, not "Email already registered". *)
Lemma duplicate_registration_validation_first :
  (exists u, u ∈ users db_two_users /\ User.email u = "alice@campus.edu")
  /\ handle (H := sample_runtime) register_alice_mismatch 102 db_two_users
     = Some (mkResponse 400 ValidationFailed, db_two_users)
  /\ mkResponse 400 ValidationFailed
     <> res_json 400 (message "Email already registered").
Proof.
  split.
  - exists alice_row. split; [apply list_elem_of_here | reflexivity].
  - split; [reflexivity | discriminate].
Qed.

Lemma duplicate_registration_is_refused_witness :
  handle (H := sample_runtime) register_alice 102 db_two_users
  = Some (res_json 400 (message "Email already registered"), db_two_users).
Proof.
  assert (Hin : alice_row ∈ users db_two_users) by apply list_elem_of_here.
  destruct (duplicate_registration_is_refused (H := sample_runtime) register_alice 102
              db_two_users "alice@campus.edu" alice_row eq_refl eq_refl eq_refl Hin eq_refl)
    as (res & Hh & _ & [[_ ->] | [Hnone _]]).
  - exact Hh.
  - vm_compute in Hnone. discriminate Hnone.
Defined.

(** The scenario of C9. *)
Example booking_stats_of_six :
  getBookingStats db_six = BookingStats.mk 2 3 1 6.
Proof. reflexivity. Qed.

(** C10 at Alice's list of bookings: the row of the answer carries,
    under [user] and [reviewer], the stored password hashes of Alice and of
    the administrator who reviewed the booking. *)
Theorem my_bookings_discloses_password_hashes :
  let out := handle (H := sample_runtime) (my_bookings "alice@campus.edu") 104 db_approved in
  (fun o => statusCode o.1) <$> out = Some 200
  /\ User.password <$> getUser 1 db_approved = Some "$2b$10$secret1"
  /\ (answer_rows out !! 0%nat ≫= jget "user") ≫= jget "password"
     = Some (JStr "$2b$10$secret1")
  /\ User.password <$> getUser 2 db_approved = Some "$2b$10$secret2"
  /\ (answer_rows out !! 0%nat ≫= jget "reviewer") ≫= jget "password"
     = Some (JStr "$2b$10$secret2").
Proof. vm_compute. by repeat split. Qed.

(** * Further properties of the routes and the store *)

Section Stores.
Context `{Runtime}.

(** ** Keys *)

Lemma keyed_snoc {A} (id : A -> Z) seq l x :
  id x = seq -> keyed id seq l -> keyed id (seq + 1) (l ++ [x]).
Proof.
  intros Hx [Hnd Hlt]. split.
  - rewrite map_app. apply NoDup_app. split; [done|]. split; [|apply NoDup_singleton].
    intros y Hy Hy'. apply list_elem_of_singleton in Hy'. subst y.
    apply list_elem_of_fmap in Hy as (z & Hz & Hin).
    rewrite Forall_forall in Hlt. specialize (Hlt z Hin). lia.
  - apply Forall_app. split.
    + eapply Forall_impl; [exact Hlt|]. intros; cbn in *; lia.
    + constructor; [lia|done].
Qed.

Lemma keyed_next {A} (id : A -> Z) seq l : keyed id seq l -> keyed id (seq + 1) l.
Proof.
  intros [Hnd Hlt]. split; [done|].
  eapply Forall_impl; [exact Hlt|]. intros; cbn in *; lia.
Qed.

Lemma keyed_map {A} (id : A -> Z) seq (f : A -> A) l :
  (forall x, id (f x) = id x) -> keyed id seq l -> keyed id seq (map f l).
Proof.
  intros Hf [Hnd Hlt]. split.
  - rewrite map_map. by rewrite (map_ext _ id) by done.
  - apply Forall_fmap. eapply Forall_impl; [exact Hlt|]. intros x Hx; cbn. by rewrite Hf.
Qed.

Lemma NoDup_map_filter {A B} (g : A -> B) (P : A -> Prop) `{forall x, Decision (P x)} l :
  NoDup (map g l) -> NoDup (map g (filter P l)).
Proof.
  induction l as [|x l IH]; [done|]. cbn [map]. rewrite filter_cons.
  intros Hnd. apply NoDup_cons in Hnd as [Hx Hnd].
  destruct (decide (P x)); [|by apply IH]. cbn [map]. apply NoDup_cons. split; [|by apply IH].
  intros Hin. apply Hx. apply list_elem_of_fmap in Hin as (y & -> & Hy).
  apply list_elem_of_fmap. exists y. split; [done|].
  by apply list_elem_of_filter in Hy as [_ ?].
Qed.

Lemma keyed_filter {A} (id : A -> Z) seq (P : A -> Prop) `{forall x, Decision (P x)} l :
  keyed id seq l -> keyed id seq (filter P l).
Proof.
  intros [Hnd Hlt]. split; [by apply NoDup_map_filter|].
  apply Forall_forall. intros x Hx. apply list_elem_of_filter in Hx as [_ Hx].
  rewrite Forall_forall in Hlt. by apply Hlt.
Qed.

Lemma update_where_map {A B} (g : A -> B) (P : A -> Prop) `{forall x, Decision (P x)}
    (f : A -> option A) l l' ret :
  (forall x y, f x = Some y -> g y = g x) ->
  update_where P f l = Some (l', ret) -> map g l' = map g l.
Proof.
  intros Hf. revert l' ret. induction l as [|x l IH]; intros l' ret; cbn [update_where].
  - by intros [= <- <-].
  - destruct (update_where P f l) as [[l1 r1]|]; [|done]. cbn.
    destruct (decide (P x)).
    + destruct (f x) as [y|] eqn:Hy; [|done]. cbn. intros [= <- <-].
      cbn [map]. by rewrite (Hf x y Hy), (IH l1 r1).
    + intros [= <- <-]. cbn [map]. by rewrite (IH l1 r1).
Qed.

Lemma updateUser_row_keeps data now u u' :
  updateUser_row data now u = Some u' ->
  same_account u u' /\ User.password u' = User.password u /\ User.role u' = User.role u.
Proof.
  unfold updateUser_row. intros Hu.
  repeat match type of Hu with
         | context [?x ≫= _] => destruct x; cbn [mbind option_bind] in Hu; [|done]
         end.
  by injection Hu as <-.
Qed.

Lemma keyed_forall_map {A} (id : A -> Z) seq l l' :
  map id l' = map id l -> keyed id seq l -> keyed id seq l'.
Proof.
  intros Hm [Hnd Hlt]. split; [by rewrite Hm|].
  apply Forall_forall. intros x Hx.
  assert (Hin : id x ∈ map id l) by (rewrite <- Hm; by apply list_elem_of_fmap_2).
  apply list_elem_of_fmap in Hin as (y & -> & Hy).
  rewrite Forall_forall in Hlt. by apply Hlt.
Qed.

Lemma write_well_keyed db db' : write db db' -> well_keyed db -> well_keyed db'.
Proof.
  unfold well_keyed.
  intros Hw (Hu & He & Hb & Hn). written;
    cbn [users bookings notifications users_id_seq bookings_id_seq notifications_id_seq
           with_users with_facilities with_bookings with_notifications
           nextval_users nextval_facilities nextval_bookings nextval_notifications
           updateUserPassword markAllNotificationsRead snd];
    try done.
  - (* createUser *)
    match goal with
    | Hrow : users_row _ _ _ _ _ = Some _ |- _ =>
        apply users_row_inv in Hrow as (Hid & _ & Hfree & _)
    end.
    split; [by apply keyed_snoc|]. split; [|done].
    rewrite map_app. apply NoDup_app. split; [done|]. split; [|apply NoDup_singleton].
    intros y Hy Hy'. apply list_elem_of_singleton in Hy'. by subst y.
  - split; [by apply keyed_next|done].
  - (* updateUser *)
    unfold updateUser in H0.
    destruct (update_where _ _ _) as [[us ret]|] eqn:Hw; [|done].
    injection H0 as _ <-. cbn.
    assert (Hid : map User.id us = map User.id (users db)).
    { apply (update_where_map _ _ _ _ _ _ (fun x y Hxy =>
               proj1 (proj1 (updateUser_row_keeps _ _ _ _ Hxy))) Hw). }
    assert (Hem : map User.email us = map User.email (users db)).
    { apply (update_where_map _ _ _ _ _ _ (fun x y Hxy =>
               proj1 (proj2 (proj1 (updateUser_row_keeps _ _ _ _ Hxy)))) Hw). }
    split; [by apply (keyed_forall_map _ _ (users db))|]. split; [by rewrite Hem|done].
  - (* updateUserPassword *)
    split; [apply keyed_map; [intros u; by destruct (bool_decide _)|done]|].
    split; [|done]. rewrite map_map.
    rewrite (map_ext _ User.email); [done|]. intros u; by destruct (bool_decide _).
  - (* updateUserRole *)
    split; [apply keyed_map; [intros u; by destruct (decide _)|done]|].
    split; [|done]. rewrite map_map.
    rewrite (map_ext _ User.email); [done|]. intros u; by destruct (decide _).
  - (* deleteUser *)
    split; [by apply keyed_filter|]. split; [by apply NoDup_map_filter|done].
  - (* updateFacility *)
    destruct (updateFacility_tables _ _ _ _ _ _ H0) as (-> & -> & ->).
    unfold updateFacility in H0. destruct (pg_bind_int4 id); [|done]. cbn in H0.
    destruct (update_where _ _ _) as [[fs ret]|]; [|done]. by injection H0 as _ <-.
  - (* createBooking *)
    match goal with
    | Hrow : bookings_row _ _ _ _ _ _ _ = Some _ |- _ =>
        apply bookings_row_inv in Hrow as (? & _ & _ & _ & ->)
    end.
    split; [done|]. split; [done|]. split; [by apply keyed_snoc|done].
  - split; [done|]. split; [done|]. split; [by apply keyed_next|done].
  - (* updateBookingStatus *)
    split; [done|]. split; [done|]. split; [|done].
    apply keyed_map; [|done]. intros b; by destruct (decide _).
  - (* createNotification *)
    match goal with
    | Hrow : notifications_row _ _ _ _ = Some _ |- _ =>
        apply notifications_row_inv in Hrow as (? & ? & _ & _ & _ & _ & ->)
    end.
    split; [done|]. split; [done|]. split; [done|]. by apply keyed_snoc.
  - split; [done|]. split; [done|]. split; [done|]. by apply keyed_next.
  - split; [done|]. split; [done|]. split; [done|].
    apply keyed_map; [|done]. intros n; by destruct (bool_decide _).
  - split; [done|]. split; [done|]. split; [done|].
    apply keyed_map; [|done]. intros n; by destruct (bool_decide _).
Qed.

Lemma rtc_write_well_keyed db db' : rtc write db db' -> well_keyed db -> well_keyed db'.
Proof. induction 1 as [|x y z Hxy _ IH]; [done|]. intros Hx. apply IH. by apply (write_well_keyed x). Qed.

Lemma well_keyed_empty : well_keyed empty_db.
Proof. repeat split; cbn; by constructor. Qed.

(** X1. In every store that requests build from the empty one, the ids of
    the users, of the bookings and of the notifications are pairwise
    distinct and below their sequences, and no two users share an e-mail. *)
Theorem reachable_well_keyed db : reachable db -> well_keyed db.
Proof.
  induction 1 as [|req now db _ IH]; [apply well_keyed_empty|].
  exact (rtc_write_well_keyed db _ (step_writes req now db) IH).
Qed.
End Stores.

Section Monotone.
Context `{Runtime}.

Lemma extends_refl {A} (R : A -> A -> Prop) l : (forall x, R x x) -> extends R l l.
Proof.
  intros HR. exists l, []. split; [by rewrite app_nil_r|].
  induction l; by constructor.
Qed.

Lemma extends_trans {A} (R : A -> A -> Prop) l1 l2 l3 :
  (forall x y z, R x y -> R y z -> R x z) ->
  extends R l1 l2 -> extends R l2 l3 -> extends R l1 l3.
Proof.
  intros HR (a & b & -> & Ha) (c & d & -> & Hc).
  apply Forall2_app_inv_l in Hc as (c1 & c2 & Hc1 & Hc2 & ->).
  exists c1, (c2 ++ d)%list. split; [by rewrite app_assoc|].
  clear Hc2. revert c1 Hc1. induction Ha as [|x y l l' Hxy Ha IH]; intros c1 Hc1.
  - apply Forall2_nil_inv_l in Hc1 as ->. constructor.
  - apply Forall2_cons_inv_l in Hc1 as (z & c1' & Hyz & Hc1 & ->).
    constructor; [by apply (HR x y z)|by apply IH].
Qed.

Lemma extends_snoc {A} (R : A -> A -> Prop) l x :
  (forall x, R x x) -> extends R l (l ++ [x]).
Proof.
  intros HR. exists l, [x]. split; [done|]. induction l; by constructor.
Qed.

Lemma extends_map {A} (R : A -> A -> Prop) (f : A -> A) l :
  (forall x, R x (f x)) -> extends R l (map f l).
Proof.
  intros HR. exists (map f l), []. split; [by rewrite app_nil_r|].
  induction l; cbn [map]; by constructor.
Qed.

Lemma same_request_refl b : same_request b b.
Proof. by repeat split. Qed.

Lemma same_request_trans x y z : same_request x y -> same_request y z -> same_request x z.
Proof.
  unfold same_request. intros Hxy Hyz. destruct_and!. repeat split; congruence.
Qed.

Lemma same_notice_refl n : same_notice n n.
Proof. by repeat split. Qed.

Lemma same_notice_trans x y z : same_notice x y -> same_notice y z -> same_notice x z.
Proof.
  unfold same_notice. intros Hxy Hyz. destruct_and!. repeat split; try congruence. auto.
Qed.

Lemma write_bookings db db' :
  write db db' -> extends same_request (bookings db) (bookings db').
Proof.
  intros Hw. written;
    cbn [bookings with_users with_facilities with_bookings with_notifications
           nextval_users nextval_facilities nextval_bookings nextval_notifications
           updateUserPassword markAllNotificationsRead snd];
    try (apply extends_refl, same_request_refl).
  - apply updateUser_tables in H0 as (_ & -> & _). apply extends_refl, same_request_refl.
  - apply updateFacility_tables in H0 as (_ & -> & _).
    apply extends_refl, same_request_refl.
  - apply extends_snoc, same_request_refl.
  - apply extends_map. intros b. destruct (decide _); [|apply same_request_refl].
    by repeat split.
Qed.

Lemma mark_read_notice n : same_notice n (mark_read n).
Proof. by repeat split. Qed.

Lemma write_notifications db db' :
  write db db' -> extends same_notice (notifications db) (notifications db').
Proof.
  intros Hw. written;
    cbn [notifications with_users with_facilities with_bookings with_notifications
           nextval_users nextval_facilities nextval_bookings nextval_notifications
           updateUserPassword markAllNotificationsRead snd];
    try (apply extends_refl, same_notice_refl).
  - apply updateUser_tables in H0 as (_ & _ & ->). apply extends_refl, same_notice_refl.
  - apply updateFacility_tables in H0 as (_ & _ & ->).
    apply extends_refl, same_notice_refl.
  - apply extends_snoc, same_notice_refl.
  - apply extends_map. intros n.
    destruct (bool_decide _); [apply mark_read_notice | apply same_notice_refl].
  - apply extends_map. intros n.
    destruct (bool_decide _); [apply mark_read_notice | apply same_notice_refl].
Qed.

(** X2. No request deletes a booking or rewrites what its owner asked for:
    after any request the bookings are the earlier ones, row by row with
    the same id, owner, facility, event data and creation time, followed
    by the new ones. *)
Theorem bookings_only_grow req now db :
  extends same_request (bookings db) (bookings (step req now db)).
Proof.
  induction (step_writes req now db) as [db0|x y z Hxy _ IH].
  - apply extends_refl, same_request_refl.
  - eapply extends_trans; [apply same_request_trans | by apply write_bookings | exact IH].
Qed.

(** X3. Notifications are append-only: after any request the earlier ones
    are still there, in place, with every column as it was except that a
    status may have gone from unread to read, never back. *)
Theorem notifications_only_grow req now db :
  extends same_notice (notifications db) (notifications (step req now db)).
Proof.
  induction (step_writes req now db) as [db0|x y z Hxy _ IH].
  - apply extends_refl, same_notice_refl.
  - eapply extends_trans; [apply same_notice_trans | by apply write_notifications | exact IH].
Qed.
End Monotone.

Section Gates.
Context `{Runtime}.

(** The table answers with [out] or not at all when every route that takes
    the request does. *)
Lemma dispatch_all out routes req now db :
  Forall (fun r =>
            route_method r = Request.method req ->
            forall ps, match_path (route_path r) (Request.path req) = Some ps ->
                       run_chain (route_handlers r) (Request.with_params ps req) now db
                       = Some out) routes ->
  dispatch routes req now db = None \/ dispatch routes req now db = Some out.
Proof.
  induction 1 as [|r routes Hr Hrs IH]; [by left|]. cbn [dispatch].
  destruct (bool_decide _) eqn:Hm; [|done]. apply bool_decide_eq_true in Hm.
  destruct (match_path _ _) as [ps|] eqn:Hp; [|done].
  rewrite (Hr Hm ps eq_refl). by right.
Qed.

Lemma run_chain_no_token hs req now db :
  bearer_token req = None \/ bearer_token req = Some "" ->
  run_chain (authenticateToken :: hs) req now db
  = Some (res_json 401 (message "Authentication required"), db).
Proof.
  intros Hb. cbn [run_chain]. unfold authenticateToken.
  by destruct Hb as [-> | ->].
Qed.

(** A route whose first two segments are not those of the path does not
    take it. *)
Ltac off_route Hp Hps :=
  cbn [route_path] in Hps; rewrite Hp in Hps; unfold api in Hps;
  rewrite !match_path_Lit in Hps;
  repeat match type of Hps with
         | context [seg_eqb ?a ?b] =>
             let v := eval vm_compute in (seg_eqb a b) in
             change (seg_eqb a b) with v in Hps; cbv iota in Hps
         end;
  discriminate Hps.

(** X4. Under [/api/users], [/api/bookings], [/api/notifications] and
    [/api/admin] nothing is served without a token: a request with no
    [Authorization] header, or with one that has no second word, is
    answered 401, "Authentication required", with the store untouched, if
    it is answered at all. *)
Theorem token_required req now db seg rest :
  Request.path req = "api" :: seg :: rest ->
  In seg ["users"; "bookings"; "notifications"; "admin"] ->
  bearer_token req = None \/ bearer_token req = Some "" ->
  handle req now db = None
  \/ handle req now db = Some (res_json 401 (message "Authentication required"), db).
Proof.
  intros Hp Hseg Hb. unfold handle, registerRoutes. apply dispatch_all.
  destruct Hseg as [<- | [<- | [<- | [<- | []]]]];
    repeat (constructor;
            [intros _ ps Hps; cbn [route_handlers];
             first [ by apply run_chain_no_token | off_route Hp Hps ]
            |]);
    constructor.
Qed.

(** X5. Every route under [/api/admin] is closed to callers that are not
    administrators: their request is answered 403, "Admin access
    required", with the store untouched, if it is answered at all. *)
Theorem admin_routes_require_admin req now db rest caller :
  Request.path req = "api" :: "admin" :: rest ->
  authenticated req now caller ->
  AuthUser.role caller <> "admin" ->
  handle req now db = None
  \/ handle req now db = Some (res_json 403 (message "Admin access required"), db).
Proof.
  intros Hp Hauth Hrole. unfold handle, registerRoutes. apply dispatch_all.
  repeat (constructor;
          [intros _ ps Hps; cbn [route_handlers];
           first [ off_route Hp Hps
                 | rewrite (run_chain_authenticated _ _ _ _ caller)
                     by (by apply authenticated_with_params);
                   by apply (run_chain_not_admin _ _ _ _ caller) ]
          |]).
  constructor.
Qed.

Lemma run_chain_reads hs req now db res db' :
  Forall reads hs -> run_chain hs req now db = Some (res, db') -> db' = db.
Proof.
  intros Hhs. revert req. induction Hhs as [|h hs Hh Hhs IH]; intros req; [done|].
  cbn [run_chain]. destruct (h req now db) as [res1 db1|req1] eqn:Hrun.
  - intros [= <- <-]. by apply (Hh req now db res1 db1).
  - apply IH.
Qed.

Lemma dispatch_reads routes req now db res db' :
  Forall (fun r => route_method r = Request.method req ->
                   Forall reads (route_handlers r)) routes ->
  dispatch routes req now db = Some (res, db') -> db' = db.
Proof.
  induction 1 as [|r routes Hr Hrs IH]; [done|]. cbn [dispatch].
  destruct (bool_decide _) eqn:Hm; [|done]. apply bool_decide_eq_true in Hm.
  destruct (match_path _ _) as [ps|]; [|done].
  destruct (run_chain _ _ _ _) as [[res1 db1]|] eqn:Hrun; [|done].
  intros [= <- <-]. by apply (run_chain_reads _ _ _ _ _ _ (Hr Hm) Hrun).
Qed.

(** X6. A GET never writes: whatever the path, the token and the answer,
    the store after the request is the store before it. *)
Theorem get_is_read_only req now db :
  Request.method req = GET -> step req now db = db.
Proof.
  intros Hm. unfold step, handle.
  destruct (dispatch registerRoutes req now db) as [[res db']|] eqn:Hd; [|done].
  apply (dispatch_reads registerRoutes req now db res db'); [|done].
  unfold registerRoutes.
  repeat (constructor;
          [cbn [route_method route_handlers]; rewrite Hm; intros Hget;
           first [ discriminate Hget
                 | repeat (constructor;
                           first [ exact reads_authenticateToken
                                 | exact reads_requireAdmin
                                 | exact reads_facilities_list
                                 | exact reads_facilities_get
                                 | exact reads_bookings_my
                                 | exact reads_bookings_stats
                                 | exact reads_notifications_list
                                 | exact reads_admin_bookings
                                 | exact reads_admin_users
                                 | exact reads_admin_stats
                                 | idtac ]) ]
          |]).
  constructor.
Qed.
End Gates.

Section Accounts.
Context `{Runtime}.

Lemma filter_head_snoc {A} (P : A -> Prop) `{forall x, Decision (P x)} l x :
  head (filter P l) = None -> P x -> head (filter P (l ++ [x])%list) = Some x.
Proof.
  intros Hn Hx. rewrite filter_app. apply head_filter_nil in Hn. rewrite Hn.
  rewrite app_nil_l, filter_cons, decide_True by done. done.
Qed.

Lemma getUserByEmail_free e db :
  getUserByEmail e db = None -> e ∉ map User.email (users db).
Proof.
  intros Hn Hin. apply list_elem_of_fmap in Hin as (u & -> & Hu).
  destruct (getUserByEmail_existing (User.email u) db u Hu eq_refl) as [x Hx].
  congruence.
Qed.

Lemma registerSchema_inv data parsed :
  registerSchema data = Some parsed ->
  exists email password firstName lastName studentId role,
    parsed = mkRegisterData
               (InsertUser.mk email password (Some firstName) (Some lastName) studentId role)
               password
    /\ data !! "email" = Some (JStr email)
    /\ zod_email email = true
    /\ data !! "password" = Some (JStr password)
    /\ (6 <= String.length password)%nat
    /\ z_optional z_userRole (data !! "role") = Some role
    /\ (forall s, studentId = Some s -> (String.length s <= 50)%nat).
Proof.
  unfold registerSchema. intros Hp.
  destruct (z_string (data !! "email")) as [email|] eqn:He; cbn in Hp; [|done].
  destruct (guard (zod_email email = true)) as [Hz|] eqn:Hg; cbn in Hp; [|done].
  destruct (z_string (data !! "password")) as [pw0|] eqn:Hpw; cbn in Hp; [|done].
  destruct (z_min 6 pw0) as [pw|] eqn:Hmin; cbn in Hp; [|done].
  destruct (z_string (data !! "firstName") ≫= z_min 1) as [fn|]; cbn in Hp; [|done].
  destruct (z_string (data !! "lastName") ≫= z_min 1) as [ln|]; cbn in Hp; [|done].
  destruct (z_nullish (z_varchar 50) (data !! "studentId")) as [sid|] eqn:Hsid;
    cbn in Hp; [|done].
  destruct (z_optional z_userRole (data !! "role")) as [role|] eqn:Hr; cbn in Hp; [|done].
  destruct (z_string (data !! "confirmPassword")) as [cp|]; cbn in Hp; [|done].
  destruct (guard (pw = cp)) as [Heq|]; cbn in Hp; [|done].
  injection Hp as <-. subst cp.
  apply z_min_inv in Hmin as [-> Hlen].
  exists email, pw0, fn, ln, sid, role.
  repeat split; [by apply z_string_inv | done | by apply z_string_inv | done |].
  intros s ->. unfold z_nullish, z_varchar in Hsid.
  destruct (data !! "studentId") as [[]|]; cbn in Hsid; try done.
  destruct (z_max 50 _) as [s'|] eqn:Hmax; [|done]. injection Hsid as ->.
  by apply z_max_inv in Hmax as [-> ?].
Qed.

(** The INSERT of a user goes through when the texts fit their columns
    and no user has the e-mail. *)
Lemma createUser_accepted user now db :
  user_texts user ->
  (forall s, InsertUser.studentId user = Some s -> (String.length s <= 50)%nat) ->
  getUserByEmail (InsertUser.email user) db = None ->
  createUser user now db
  = let u := User.mk (users_id_seq db) (InsertUser.email user)
               (bcrypt_hash (InsertUser.password user))
               (InsertUser.firstName user) (InsertUser.lastName user)
               (InsertUser.studentId user)
               (default student (InsertUser.role user)) (Some now) (Some now) in
    (Some u, with_users (users db ++ [u])%list (nextval_users db)).
Proof.
  intros ([He Hel] & Hfn & Hln & Hsid) Hlen Hfree.
  assert (Hbound : forall n (o : option string),
            (forall a, o = Some a -> fits n a) ->
            nullable (fun s => pg_bind s ≫= varchar n) o = Some o
            /\ nullable (varchar n) o = Some o).
  { intros n [a|] Ha; [|done]. destruct (Ha a eq_refl) as [Hnul Hfit]. cbn [nullable].
    rewrite pg_bind_Some by done. cbn [mbind option_bind].
    by rewrite !varchar_fits by done. }
  destruct (Hbound 100%nat _ Hfn) as [Hfn1 Hfn2].
  destruct (Hbound 100%nat _ Hln) as [Hln1 Hln2].
  destruct (Hbound 50%nat (InsertUser.studentId user)) as [Hsid1 Hsid2];
    [intros a Ha; split; [by apply Hsid | by apply Hlen]|].
  unfold createUser, users_bind.
  rewrite pg_bind_Some by done. cbn [mbind option_bind].
  rewrite varchar_fits by done. cbn [mbind option_bind].
  rewrite Hfn1, Hln1, Hsid1. cbn [mbind option_bind]. unfold users_row.
  rewrite varchar_fits by done. cbn [mbind option_bind].
  rewrite Hfn2, Hln2, Hsid2. cbn [mbind option_bind].
  rewrite decide_False by by apply getUserByEmail_free. done.
Qed.

(** X7. A valid registration with an unused e-mail, whose e-mail and names
    fit their columns and whose texts hold no NUL character, is answered
    201 with a token for the new user, who is appended with the next id of
    the sequence, the bcrypt hash of the password and the role that the
    body asked for, [admin] included; without a role in the body the user
    is a student. *)
Theorem registration_creates_the_user req now db parsed :
  Request.method req = POST ->
  Request.path req = ["api"; "auth"; "register"] ->
  registerSchema (Request.body req) = Some parsed ->
  getUserByEmail (InsertUser.email (rd_user parsed)) db = None ->
  user_texts (rd_user parsed) ->
  exists u db',
    handle req now db
    = Some (res_json 201 (JObj {[ "user" := JObj (userWithoutPassword u);
                                  "token" := JStr (sign_user u now) ]}), db')
    /\ users db' = (users db ++ [u])%list
    /\ User.id u = users_id_seq db
    /\ Request.body req !! "email" = Some (JStr (User.email u))
    /\ (exists password, Request.body req !! "password" = Some (JStr password)
                         /\ User.password u = bcrypt_hash password)
    /\ (Request.body req !! "role" = None -> User.role u = student)
    /\ (forall r, Request.body req !! "role" = Some (JStr (userRoleEnum r)) ->
                  User.role u = r)
    /\ bookings db' = bookings db
    /\ notifications db' = notifications db
    /\ facilities db' = facilities db.
Proof.
  intros Hm Hp Hparse Hfree Htexts.
  destruct (registerSchema_inv _ _ Hparse)
    as (email & pw & fn & ln & sid & role & -> & He & Hz & Hpw & Hlen & Hrole & Hsid).
  cbn [rd_user] in Hfree, Htexts.
  eexists _, _. split.
  - rewrite (handle_auth_register req now db Hm Hp). unfold auth_register.
    cbn [Request.body Request.with_params]. rewrite Hparse. cbn [rd_user].
    rewrite Hfree. rewrite (createUser_accepted _ now db Htexts) by done.
    reflexivity.
  - cbn [users with_users nextval_users User.id User.email User.password User.role bookings
           notifications facilities InsertUser.email InsertUser.password InsertUser.role].
    split; [done|]. split; [done|]. split; [done|]. split; [by exists pw|].
    split; [|split; [|done]].
    + intros Hnone. rewrite Hnone in Hrole. by injection Hrole as <-.
    + intros r Hr. rewrite Hr in Hrole. cbn in Hrole.
      destruct r; cbn in Hrole; by injection Hrole as <-.
Qed.

Lemma loginSchema_intro data email password :
  data !! "email" = Some (JStr email) -> zod_email email = true ->
  data !! "password" = Some (JStr password) -> (6 <= String.length password)%nat ->
  loginSchema data = Some (email, password).
Proof.
  intros He Hz Hp Hl. unfold loginSchema. rewrite He, Hp. cbn.
  rewrite Hz. cbn. unfold z_min. by rewrite decide_True.
Qed.

Lemma handle_auth_login req now db :
  Request.method req = POST ->
  Request.path req = ["api"; "auth"; "login"] ->
  forall res, auth_login (Request.with_params ∅ req) now db = Respond res db ->
  handle req now db = Some (res, db).
Proof.
  intros Hm Hp res Hrun. route_to Hm Hp. cbn [run_chain]. by rewrite Hrun.
Qed.

(** X8. A login never writes. With a body that passes the schema it is
    answered 200 with a token exactly when the first user of that e-mail
    exists and bcrypt accepts the password against the stored hash; an
    unknown e-mail and a wrong password get the same 401, "Invalid email or
    password". *)
Theorem login_checks_the_password req now db email password :
  Request.method req = POST ->
  Request.path req = ["api"; "auth"; "login"] ->
  loginSchema (Request.body req) = Some (email, password) ->
  match getUserByEmail email db with
  | Some u =>
      if bcrypt_compare password (User.password u) then
        handle req now db
        = Some (res_json 200 (JObj {[ "user" := JObj (userWithoutPassword u);
                                      "token" := JStr (sign_user u now) ]}), db)
      else
        handle req now db
        = Some (res_json 401 (message "Invalid email or password"), db)
  | None =>
      handle req now db = Some (res_json 401 (message "Invalid email or password"), db)
  end.
Proof.
  intros Hm Hp Hparse.
  destruct (getUserByEmail email db) as [u|] eqn:Hu;
    [destruct (bcrypt_compare password (User.password u)) eqn:Hc|];
    apply (handle_auth_login req now db Hm Hp);
    unfold auth_login; cbn [Request.body Request.with_params];
    rewrite Hparse, Hu, ?Hc; reflexivity.
Qed.

(** X9. Registration and login compose: when bcrypt accepts a password
    against its own hash, the user that a registration created, with an
    e-mail and names that fit their columns, logs in with the e-mail and
    the password of that registration. *)
Theorem registered_user_can_log_in reg login now now' db parsed :
  Request.method reg = POST ->
  Request.path reg = ["api"; "auth"; "register"] ->
  registerSchema (Request.body reg) = Some parsed ->
  getUserByEmail (InsertUser.email (rd_user parsed)) db = None ->
  user_texts (rd_user parsed) ->
  Request.method login = POST ->
  Request.path login = ["api"; "auth"; "login"] ->
  Request.body login !! "email" = Request.body reg !! "email" ->
  Request.body login !! "password" = Request.body reg !! "password" ->
  bcrypt_compare (InsertUser.password (rd_user parsed))
    (bcrypt_hash (InsertUser.password (rd_user parsed))) = true ->
  exists u token,
    u ∈ users (step reg now db)
    /\ handle login now' (step reg now db)
       = Some (res_json 200 (JObj {[ "user" := JObj (userWithoutPassword u);
                                     "token" := JStr token ]}), step reg now db).
Proof.
  intros Hm Hp Hparse Hfree Htexts Hm' Hp' Hemail Hpw Hbcrypt.
  destruct (registerSchema_inv _ _ Hparse)
    as (email & pw & fn & ln & sid & role & -> & He & Hz & Hpwd & Hlen & Hrole & Hsid).
  cbn [rd_user InsertUser.email InsertUser.password] in *.
  set (u := User.mk (users_id_seq db) email (bcrypt_hash pw) (Some fn) (Some ln) sid
              (default student role) (Some now) (Some now)).
  assert (Hstep : step reg now db = with_users (users db ++ [u])%list (nextval_users db)).
  { unfold step. rewrite (handle_auth_register reg now db Hm Hp). unfold auth_register.
    cbn [Request.body Request.with_params]. rewrite Hparse. cbn [rd_user InsertUser.email].
    rewrite Hfree. by rewrite (createUser_accepted _ now db Htexts) by done. }
  rewrite Hstep.
  assert (Hfind : getUserByEmail email
                    (with_users (users db ++ [u])%list (nextval_users db)) = Some u).
  { unfold getUserByEmail; cbn [users with_users nextval_users].
    by apply filter_head_snoc. }
  exists u, (sign_user u now'). split.
  - cbn [users with_users nextval_users]. apply elem_of_app. right. by left.
  - apply (handle_auth_login login now' _ Hm' Hp').
    unfold auth_login. cbn [Request.body Request.with_params].
    rewrite (loginSchema_intro _ email pw) by (try done; congruence).
    rewrite Hfind.
    replace (User.password u) with (bcrypt_hash pw) by reflexivity.
    by rewrite Hbcrypt.
Qed.
End Accounts.

Section Profiles.
Context `{Runtime}.

Lemma update_where_rows {A} (P : A -> Prop) `{forall x, Decision (P x)}
    (f : A -> option A) l l' ret :
  update_where P f l = Some (l', ret) ->
  Forall2 (fun x y => if decide (P x) then f x = Some y else y = x) l l'.
Proof.
  revert l' ret. induction l as [|x l IH]; intros l' ret; cbn [update_where].
  - intros [= <- <-]. constructor.
  - destruct (update_where P f l) as [[l1 r1]|]; [|done]. cbn.
    destruct (decide (P x)) as [Hx|Hx].
    + destruct (f x) as [y|] eqn:Hy; [|done]. cbn. intros [= <- <-].
      constructor; [by rewrite decide_True|by apply (IH l1 r1)].
    + intros [= <- <-]. constructor; [by rewrite decide_False|by apply (IH l1 r1)].
Qed.

Lemma Forall2_same {A} (R : A -> A -> Prop) l : (forall x, R x x) -> Forall2 R l l.
Proof. intros HR. induction l; by constructor. Qed.

(** X10. A profile update can rewrite names and the student id only: after
    it every user has the id, e-mail, password hash, role and creation
    time as before, the users other than the caller are unchanged, and so
    are the other tables. *)
Theorem profile_update_keeps_identity req now db caller :
  Request.method req = PATCH ->
  Request.path req = ["api"; "users"; "profile"] ->
  authenticated req now caller ->
  Forall2 (fun old new =>
             same_account old new
             /\ User.password new = User.password old
             /\ User.role new = User.role old
             /\ (User.id old <> AuthUser.id caller -> new = old))
    (users db) (users (step req now db))
  /\ bookings (step req now db) = bookings db
  /\ notifications (step req now db) = notifications db
  /\ facilities (step req now db) = facilities db.
Proof.
  intros Hm Hp Hauth.
  set (req' := Request.with_user caller (Request.with_params ∅ req)).
  set (data := mkProfileData (Request.body req !! "firstName")
                 (Request.body req !! "lastName") (Request.body req !! "studentId")).
  assert (Hsame : Forall2 (fun old new =>
             same_account old new /\ User.password new = User.password old
             /\ User.role new = User.role old
             /\ (User.id old <> AuthUser.id caller -> new = old)) (users db) (users db))
    by (apply Forall2_same; intros u; by repeat split).
  assert (Hstep : step req now db = db
                  \/ exists r, updateUser (AuthUser.id caller) data now db
                               = Some (r, step req now db)).
  { unfold step.
    destruct (updateUser (AuthUser.id caller) data now db) as [[r db1]|] eqn:Hu.
    - right. exists r.
      assert (Hh : exists res, handle req now db = Some (res, db1)).
      { destruct r as [updated|]; eexists; route_to Hm Hp;
          rewrite (run_chain_authenticated _ _ _ _ caller)
            by (by apply authenticated_with_params);
          cbn [run_chain]; fold req'; unfold users_profile;
          cbn [Request.user Request.body req' Request.with_user Request.with_params];
          fold data; rewrite Hu; reflexivity. }
      destruct Hh as [res ->]. done.
    - left.
      assert (Hh : handle req now db
                   = Some (res_json 500 (message "Failed to update profile"), db)).
      { route_to Hm Hp.
        rewrite (run_chain_authenticated _ _ _ _ caller)
          by (by apply authenticated_with_params).
        cbn [run_chain]. fold req'. unfold users_profile.
        cbn [Request.user Request.body req' Request.with_user Request.with_params].
        fold data. by rewrite Hu. }
      by rewrite Hh. }
  destruct Hstep as [-> | [r Hu]]; [done|].
  unfold updateUser in Hu.
  destruct (update_where _ _ _) as [[us ret]|] eqn:Hw; [|done].
  injection Hu as _ <-. cbn [users bookings notifications facilities with_users].
  split; [|done].
  eapply Forall2_impl; [exact (update_where_rows _ _ _ _ _ Hw)|].
  intros old new Hrow. cbv beta in Hrow.
  destruct (decide (User.id old = AuthUser.id caller)).
  - destruct (updateUser_row_keeps _ _ _ _ Hrow) as (? & ? & ?).
    split; [done|]. split; [done|]. split; [done|]. intros Hne. by destruct Hne.
  - subst new. by repeat split.
Qed.

Lemma handle_users_password req now db caller res db' :
  Request.method req = PATCH ->
  Request.path req = ["api"; "users"; "password"] ->
  authenticated req now caller ->
  users_password (Request.with_user caller (Request.with_params ∅ req)) now db
  = Respond res db' ->
  handle req now db = Some (res, db').
Proof.
  intros Hm Hp Hauth Hrun. route_to Hm Hp.
  rewrite (run_chain_authenticated _ _ _ _ caller) by (by apply authenticated_with_params).
  cbn [run_chain]. by rewrite Hrun.
Qed.

(** X11. A password change needs the current password: when bcrypt rejects
    it against the stored hash the answer is 400, "Current password is
    incorrect", and nothing is written; when bcrypt accepts it, the rows
    of the caller's id get the hash of the new password, of any length,
    and every other row and column stays. *)
Theorem password_change_checks_current req now db caller user current new :
  Request.method req = PATCH ->
  Request.path req = ["api"; "users"; "password"] ->
  authenticated req now caller ->
  getUser (AuthUser.id caller) db = Some user ->
  Request.body req !! "currentPassword" = Some (JStr current) ->
  Request.body req !! "newPassword" = Some (JStr new) ->
  if bcrypt_compare current (User.password user) then
    exists db',
      handle req now db = Some (res_json 200 (message "Password changed successfully"), db')
      /\ Forall2 (fun old new' =>
                    if decide (User.id old = AuthUser.id caller)
                    then User.password new' = bcrypt_hash new
                         /\ same_account old new' /\ User.role new' = User.role old
                    else new' = old)
           (users db) (users db')
      /\ bookings db' = bookings db
      /\ notifications db' = notifications db
      /\ facilities db' = facilities db
  else
    handle req now db = Some (res_json 400 (message "Current password is incorrect"), db).
Proof.
  intros Hm Hp Hauth Hu Hcur Hnew.
  destruct (bcrypt_compare current (User.password user)) eqn:Hc.
  - eexists. split.
    + apply (handle_users_password req now db caller _ _ Hm Hp Hauth).
      unfold users_password.
      cbn [Request.user Request.body Request.with_user Request.with_params].
      rewrite Hu, Hcur, Hnew. cbn [z_string]. rewrite Hc. reflexivity.
    + cbn [users bookings notifications facilities with_users updateUserPassword snd].
      split; [|done].
      induction (users db) as [|u us IH]; cbn [map]; constructor; [|exact IH].
      destruct (decide (User.id u = AuthUser.id caller)) as [Hid|Hid].
      * rewrite bool_decide_eq_true_2 by done. by repeat split.
      * by rewrite bool_decide_eq_false_2.
  - apply (handle_users_password req now db caller _ _ Hm Hp Hauth).
    unfold users_password.
    cbn [Request.user Request.body Request.with_user Request.with_params].
    rewrite Hu, Hcur. cbn [z_string]. by rewrite Hc.
Qed.

(** X12. An administrator cannot delete the own account: the request on the
    caller's own id is answered 400, "Cannot delete your own account", and
    the store is as before. *)
Theorem admin_cannot_delete_own_account req now db id caller :
  Request.method req = DELETE ->
  Request.path req = ["api"; "admin"; "users"; id] ->
  id <> "" ->
  authenticated req now caller ->
  AuthUser.role caller = "admin" ->
  parseInt id = Some (AuthUser.id caller) ->
  handle req now db = Some (res_json 400 (message "Cannot delete your own account"), db).
Proof.
  intros Hm Hp Hid Hauth Hrole Hparse. route_to Hm Hp.
  rewrite (run_admin_chain _ _ _ _ caller) by done.
  unfold admin_users_delete, param_id.
  cbn [Request.user Request.params Request.with_user Request.with_params].
  rewrite lookup_insert_eq. cbn. rewrite Hparse. by rewrite decide_True.
Qed.

(** X13. A role update is checked before anything is looked up: a role
    other than student, faculty and admin is answered 400, "Invalid role",
    with the store untouched; a valid one, for an id that is a PostgreSQL
    [integer], is written to the rows of the given id, the caller's own id
    included, and to nothing else, and is answered 200 when there is such
    a row and 404 when there is none. *)
Theorem role_update_sets_the_role req now db id caller uid :
  Request.method req = PATCH ->
  Request.path req = ["api"; "admin"; "users"; id; "role"] ->
  id <> "" ->
  authenticated req now caller ->
  AuthUser.role caller = "admin" ->
  parseInt id = Some uid ->
  int4 uid ->
  match z_userRole (Request.body req !! "role") with
  | None => handle req now db = Some (res_json 400 (message "Invalid role"), db)
  | Some role =>
      exists res db',
        handle req now db = Some (res, db')
        /\ (statusCode res = 200 <-> exists u, u ∈ users db /\ User.id u = uid)
        /\ (statusCode res = 200 \/ statusCode res = 404)
        /\ Forall2 (fun old new =>
                      if decide (User.id old = uid)
                      then User.role new = role /\ same_account old new
                           /\ User.password new = User.password old
                      else new = old)
             (users db) (users db')
        /\ bookings db' = bookings db
        /\ notifications db' = notifications db
        /\ facilities db' = facilities db
  end.
Proof.
  intros Hm Hp Hid Hauth Hrole Hparse Hint.
  destruct (z_userRole (Request.body req !! "role")) as [role|] eqn:Hr.
  - assert (Hrows : forall l,
      Forall2 (fun old new =>
                 if decide (User.id old = uid)
                 then User.role new = role /\ same_account old new
                      /\ User.password new = User.password old
                 else new = old) l
        (map (fun x => if decide (User.id x = uid)
                       then User.mk (User.id x) (User.email x) (User.password x)
                              (User.firstName x) (User.lastName x) (User.studentId x)
                              role (User.createdAt x) (Some now)
                       else x) l)).
    { induction l as [|u us IH]; cbn [map]; constructor; [|exact IH].
      destruct (decide (User.id u = uid)); [by repeat split|done]. }
    destruct (filter (fun u => User.id u = uid) (users db)) as [|u0 us0] eqn:Hf.
    + eexists _, _. split.
      * route_to Hm Hp. rewrite (run_admin_chain _ _ _ _ caller) by done.
        unfold admin_users_role, param_id.
        cbn [Request.body Request.params Request.with_user Request.with_params].
        rewrite Hr, lookup_insert_eq. cbn [mbind option_bind]. rewrite Hparse.
        unfold updateUserRole, update_returning.
        rewrite pg_bind_int4_Some by done. cbn [mbind option_bind].
        rewrite Hf. reflexivity.
      * cbn [statusCode res_json users bookings notifications facilities with_users].
        split; [|split; [by right|split; [apply Hrows|done]]].
        split; [done|]. intros (u & Hin & Hu).
        assert (Hin' : u ∈ filter (fun u => User.id u = uid) (users db))
          by by apply list_elem_of_filter.
        rewrite Hf in Hin'. by apply elem_of_nil in Hin'.
    + eexists _, _. split.
      * route_to Hm Hp. rewrite (run_admin_chain _ _ _ _ caller) by done.
        unfold admin_users_role, param_id.
        cbn [Request.body Request.params Request.with_user Request.with_params].
        rewrite Hr, lookup_insert_eq. cbn [mbind option_bind]. rewrite Hparse.
        unfold updateUserRole, update_returning.
        rewrite pg_bind_int4_Some by done. cbn [mbind option_bind].
        rewrite Hf. reflexivity.
      * cbn [statusCode res_json users bookings notifications facilities with_users].
        split; [|split; [by left|split; [apply Hrows|done]]].
        split; [|done]. intros _. exists u0.
        assert (Hin' : u0 ∈ filter (fun u => User.id u = uid) (users db))
          by (rewrite Hf; by left).
        apply list_elem_of_filter in Hin' as [? ?]. done.
  - route_to Hm Hp. rewrite (run_admin_chain _ _ _ _ caller) by done.
    unfold admin_users_role. cbn [Request.body Request.with_user Request.with_params].
    by rewrite Hr.
Qed.
End Profiles.

Section Notices.
Context `{Runtime}.

Lemma handle_notifications_read req now db id caller n :
  Request.method req = PATCH ->
  Request.path req = ["api"; "notifications"; id; "read"] ->
  id <> "" ->
  authenticated req now caller ->
  parseInt id = Some n ->
  handle req now db
  = Some (match markNotificationRead n db with
          | None => (failed "Failed to mark notification as read", db)
          | Some (_, db') => (res_json 200 (message "Notification marked as read"), db')
          end).
Proof.
  intros Hm Hp Hid Hauth Hparse. route_to Hm Hp.
  rewrite (run_chain_authenticated _ _ _ _ caller) by (by apply authenticated_with_params).
  cbn [run_chain]. unfold notifications_read, param_id.
  cbn [Request.params Request.with_user Request.with_params].
  rewrite lookup_insert_eq. cbn [mbind option_bind]. rewrite Hparse.
  by destruct (markNotificationRead n db) as [[? ?]|].
Qed.

Lemma markNotificationRead_int4 n db :
  int4 n ->
  markNotificationRead n db
  = Some (true,
          with_notifications
            (map (fun x => if bool_decide (Notification.id x = n) then mark_read x else x)
               (notifications db)) db).
Proof. intros Hn. unfold markNotificationRead. by rewrite pg_bind_int4_Some. Qed.

Lemma markNotificationRead_refused n db : ~ int4 n -> markNotificationRead n db = None.
Proof.
  intros Hn. unfold markNotificationRead, pg_bind_int4. by rewrite decide_False.
Qed.

(** X14. Marking a notification read does not look at its owner: for any
    authenticated caller and any id that is a PostgreSQL [integer], the
    rows of the given id become read, whoever they are addressed to, the
    other rows stay, and the answer is 200 even when no row has the id. *)
Theorem any_caller_marks_a_notification_read req now db id caller n :
  Request.method req = PATCH ->
  Request.path req = ["api"; "notifications"; id; "read"] ->
  id <> "" ->
  authenticated req now caller ->
  parseInt id = Some n ->
  int4 n ->
  exists db',
    handle req now db = Some (res_json 200 (message "Notification marked as read"), db')
    /\ Forall2 (fun old new =>
                  if decide (Notification.id old = n)
                  then Notification.status new = read /\ same_notice old new
                  else new = old)
         (notifications db) (notifications db')
    /\ users db' = users db /\ bookings db' = bookings db /\ facilities db' = facilities db.
Proof.
  intros Hm Hp Hid Hauth Hparse Hint. eexists. split.
  - rewrite (handle_notifications_read req now db id caller n) by done.
    by rewrite markNotificationRead_int4.
  - cbn [notifications users bookings facilities with_notifications].
    split; [|done].
    induction (notifications db) as [|x l IH]; cbn [map]; constructor; [|exact IH].
    destruct (decide (Notification.id x = n)).
    + rewrite bool_decide_eq_true_2 by done. split; [done|]. by repeat split.
    + by rewrite bool_decide_eq_false_2.
Qed.

Lemma mark_read_twice n db :
  let mark := map (fun x => if bool_decide (Notification.id x = n) then mark_read x else x) in
  with_notifications (mark (notifications (with_notifications (mark (notifications db)) db)))
    (with_notifications (mark (notifications db)) db)
  = with_notifications (mark (notifications db)) db.
Proof.
  destruct db as [us fs bs ns s1 s2 s3 s4].
  unfold with_notifications.
  cbn [notifications users facilities bookings
         users_id_seq facilities_id_seq bookings_id_seq notifications_id_seq].
  f_equal. rewrite map_map. apply map_ext. intros x.
  destruct (bool_decide (Notification.id x = n)) eqn:Hx; cbn [mark_read Notification.id].
  - by rewrite Hx.
  - by rewrite Hx.
Qed.

(** X15. Marking a notification read is idempotent: the same request sent
    again, at any later time at which its token still verifies, leaves the
    store that the first one left. *)
Theorem marking_read_twice_is_marking_once req now now' db id caller caller' n :
  Request.method req = PATCH ->
  Request.path req = ["api"; "notifications"; id; "read"] ->
  id <> "" ->
  authenticated req now caller ->
  authenticated req now' caller' ->
  parseInt id = Some n ->
  step req now' (step req now db) = step req now db.
Proof.
  intros Hm Hp Hid Hauth Hauth' Hparse. unfold step.
  rewrite (handle_notifications_read req now db id caller n) by done.
  destruct (decide (int4 n)) as [Hint|Hint].
  - rewrite markNotificationRead_int4 by done.
    rewrite (handle_notifications_read req now' _ id caller' n) by done.
    rewrite markNotificationRead_int4 by done. apply mark_read_twice.
  - rewrite markNotificationRead_refused by done.
    rewrite (handle_notifications_read req now' _ id caller' n) by done.
    by rewrite markNotificationRead_refused.
Qed.

(** X16. Marking all read touches the caller's notifications only: they
    become read, and the notifications of every other user, like the
    other tables, stay as they are. *)
Theorem read_all_is_the_callers req now db caller :
  Request.method req = PATCH ->
  Request.path req = ["api"; "notifications"; "read-all"] ->
  authenticated req now caller ->
  exists db',
    handle req now db = Some (res_json 200 (message "All notifications marked as read"), db')
    /\ Forall2 (fun old new =>
                  if decide (Notification.userId old = AuthUser.id caller)
                  then Notification.status new = read /\ same_notice old new
                  else new = old)
         (notifications db) (notifications db')
    /\ users db' = users db /\ bookings db' = bookings db /\ facilities db' = facilities db.
Proof.
  intros Hm Hp Hauth. eexists. split.
  - route_to Hm Hp.
    rewrite (run_chain_authenticated _ _ _ _ caller)
      by (by apply authenticated_with_params).
    cbn [run_chain]. unfold notifications_read_all.
    cbn [Request.user Request.with_user]. reflexivity.
  - cbn [markAllNotificationsRead snd notifications users bookings facilities
           with_notifications].
    split; [|done].
    induction (notifications db) as [|x l IH]; cbn [map]; constructor; [|exact IH].
    destruct (decide (Notification.userId x = AuthUser.id caller)).
    + rewrite bool_decide_eq_true_2 by done. split; [done|]. by repeat split.
    + by rewrite bool_decide_eq_false_2.
Qed.

(** X17. The list of a caller's bookings holds the bookings that the caller
    owns, each once and with its relations loaded, and no booking of
    anybody else. *)
Theorem my_bookings_are_the_callers req now db caller :
  Request.method req = GET ->
  Request.path req = ["api"; "bookings"; "my"] ->
  authenticated req now caller ->
  exists rows,
    handle req now db
    = Some (res_json 200 (json_rows json_of_booking_with_relations rows), db)
    /\ rows ≡ₚ map (with_relations db)
                 (filter (fun b => Booking.userId b = AuthUser.id caller) (bookings db)).
Proof.
  intros Hm Hp Hauth. eexists. split.
  - route_to Hm Hp.
    rewrite (run_chain_authenticated _ _ _ _ caller)
      by (by apply authenticated_with_params).
    cbn [run_chain]. unfold bookings_my. cbn [Request.user Request.with_user]. reflexivity.
  - unfold getUserBookings. apply order_by_perm.
Qed.

(** X18. The list of notifications holds the notifications addressed to the
    caller, each once, and none addressed to anybody else. *)
Theorem my_notifications_are_the_callers req now db caller :
  Request.method req = GET ->
  Request.path req = ["api"; "notifications"] ->
  authenticated req now caller ->
  exists rows,
    handle req now db = Some (res_json 200 (json_rows json_of_notification rows), db)
    /\ rows ≡ₚ filter (fun n => Notification.userId n = AuthUser.id caller)
                 (notifications db).
Proof.
  intros Hm Hp Hauth. eexists. split.
  - route_to Hm Hp.
    rewrite (run_chain_authenticated _ _ _ _ caller)
      by (by apply authenticated_with_params).
    cbn [run_chain]. unfold notifications_list. cbn [Request.user Request.with_user].
    reflexivity.
  - unfold getUserNotifications. apply order_by_perm.
Qed.

(** X19. The list of facilities is public and unfiltered: with or without
    a token it holds every facility once, whatever its status. *)
Theorem facilities_are_public req now db :
  Request.method req = GET ->
  Request.path req = ["api"; "facilities"] ->
  exists rows,
    handle req now db = Some (res_json 200 (json_rows json_of_facility rows), db)
    /\ rows ≡ₚ facilities db.
Proof.
  intros Hm Hp. eexists. split.
  - route_to Hm Hp. cbn [run_chain]. unfold facilities_list. reflexivity.
  - unfold getAllFacilities. apply order_by_perm.
Qed.
End Notices.

Section Workflow.
Context `{Runtime}.

(** What the schema of a booking makes sure of: the numbers are
    [integer]s and the name is no longer than its column. *)
Lemma insertBookingSchema_bounds data parsed :
  insertBookingSchema data = Some parsed ->
  int4 (InsertBooking.userId parsed)
  /\ int4 (InsertBooking.facilityId parsed)
  /\ (forall n, InsertBooking.attendees parsed = Some n -> int4 n)
  /\ (String.length (InsertBooking.eventName parsed) <= 255)%nat.
Proof.
  unfold insertBookingSchema. intros Hp.
  destruct (z_int4 (data !! "userId")) as [u|] eqn:Hu; cbn [mbind option_bind] in Hp; [|done].
  destruct (z_int4 (data !! "facilityId")) as [f|] eqn:Hf;
    cbn [mbind option_bind] in Hp; [|done].
  destruct (z_varchar 255 (data !! "eventName")) as [name|] eqn:Hn;
    cbn [mbind option_bind] in Hp; [|done].
  destruct (z_nullish z_string (data !! "eventDescription"));
    cbn [mbind option_bind] in Hp; [|done].
  destruct (z_nullish z_string (data !! "purpose")); cbn [mbind option_bind] in Hp; [|done].
  destruct (z_string (data !! "eventDate")); cbn [mbind option_bind] in Hp; [|done].
  destruct (z_string (data !! "startTime")); cbn [mbind option_bind] in Hp; [|done].
  destruct (z_string (data !! "endTime")); cbn [mbind option_bind] in Hp; [|done].
  destruct (z_nullish z_int4 (data !! "attendees")) as [a|] eqn:Ha;
    cbn [mbind option_bind] in Hp; [|done].
  destruct (z_nullish z_string (data !! "equipmentNeeded"));
    cbn [mbind option_bind] in Hp; [|done].
  injection Hp as <-.
  cbn [InsertBooking.userId InsertBooking.facilityId InsertBooking.attendees
         InsertBooking.eventName].
  apply z_int4_inv in Hu as [_ Hu]. apply z_int4_inv in Hf as [_ Hf].
  split; [done|]. split; [done|]. split.
  - intros n ->. unfold z_nullish in Ha.
    destruct (data !! "attendees") as [[]|]; try done;
      cbn [fmap option_fmap option_map] in Ha;
      match type of Ha with
      | context [z_int4 ?v] => destruct (z_int4 v) as [m|] eqn:Hm; [|done]
      end;
      injection Ha as ->; by apply z_int4_inv in Hm as [_ ?].
  - unfold z_varchar in Hn.
    destruct (z_string (data !! "eventName")) as [text|];
      cbn [mbind option_bind] in Hn; [|done].
    by apply z_max_inv in Hn as [-> ?].
Qed.

(** X20. A booking that PostgreSQL takes is announced to its owner: when
    the body passes the schema, its texts hold no NUL, its date and times
    are read, and the caller and the facility have their rows, the answer
    is 201, the new row takes the next id of the sequence and the date
    and times as PostgreSQL reads them, and exactly one unread
    notification of type info, "Booking Request Submitted", is appended
    for the caller, linked to that id and quoting the event name. *)
Theorem booking_creation_notifies_the_caller req now db caller parsed d s e :
  Request.method req = POST ->
  Request.path req = ["api"; "bookings"] ->
  authenticated req now caller ->
  insertBookingSchema (<["userId" := JNum (AuthUser.id caller)]> (Request.body req))
  = Some parsed ->
  booking_texts parsed ->
  pg_date (InsertBooking.eventDate parsed) = Some d ->
  pg_time (InsertBooking.startTime parsed) = Some s ->
  pg_time (InsertBooking.endTime parsed) = Some e ->
  AuthUser.id caller ∈ user_ids db ->
  InsertBooking.facilityId parsed ∈ facility_ids db ->
  exists b n db',
    handle req now db = Some (res_json 201 (JObj (json_of_booking b)), db')
    /\ Booking.id b = bookings_id_seq db
    /\ Booking.facilityId b = InsertBooking.facilityId parsed
    /\ Booking.eventName b = InsertBooking.eventName parsed
    /\ Booking.eventDate b = d
    /\ Booking.startTime b = s
    /\ Booking.endTime b = e
    /\ bookings db' = (bookings db ++ [b])%list
    /\ notifications db' = (notifications db ++ [n])%list
    /\ Notification.id n = notifications_id_seq db
    /\ Notification.userId n = AuthUser.id caller
    /\ Notification.title n = "Booking Request Submitted"
    /\ Notification.type n = "info"
    /\ Notification.status n = unread
    /\ Notification.relatedBookingId n = Some (Booking.id b)
    /\ Notification.message n
       = "Your booking request for " +:+ dquote +:+ Booking.eventName b +:+ dquote
           +:+ " has been submitted and is pending review."
    /\ users db' = users db
    /\ facilities db' = facilities db.
Proof.
  intros Hm Hp Hauth Hparse Htexts Hd Hs He Hcaller Hfacility.
  destruct (insertBookingSchema_bounds _ _ Hparse) as (Hu & Hf & Ha & Hlen).
  pose proof (insertBookingSchema_userId _ _ _ Hparse) as Hid.
  eexists _, _, _. split.
  - rewrite (handle_bookings_create req now db caller Hm Hp Hauth).
    rewrite (bookings_create_run _ _ _ caller) by done.
    cbn [Request.body Request.with_user Request.with_params].
    rewrite Hparse.
    rewrite (createBooking_accepted parsed now db d s e) by (try done; by rewrite Hid).
    cbv zeta. reflexivity.
  - cbn [Booking.id Booking.facilityId Booking.eventName Booking.eventDate Booking.startTime
           Booking.endTime bookings notifications users facilities
           with_notifications nextval_notifications with_bookings nextval_bookings
           Notification.id Notification.userId Notification.title
           Notification.type Notification.status Notification.relatedBookingId
           Notification.message].
    by repeat split.
Qed.

Lemma createBooking_facilities booking now db fs :
  map Facility.id fs = map Facility.id (facilities db) ->
  createBooking booking now (with_facilities fs db)
  = ((createBooking booking now db).1, with_facilities fs (createBooking booking now db).2).
Proof.
  intros Hids. unfold createBooking.
  destruct (bookings_bind booking) as [[[d s] e]|]; [|done].
  unfold bookings_row. destruct (varchar 255 _) as [name|]; cbn [mbind option_bind]; [|done].
  unfold facility_ids, user_ids. cbn [facilities users with_facilities bookings_id_seq].
  rewrite Hids. by destruct (decide _).
Qed.

(** X21. Creating a booking consults no facility: the facility id of the
    body is not looked up and the status of the facility is not read, so
    swapping the table of facilities for one with the same ids, whatever
    their status, changes neither the answer nor what is written. *)
Theorem booking_creation_ignores_facilities req now db caller fs :
  Request.method req = POST ->
  Request.path req = ["api"; "bookings"] ->
  authenticated req now caller ->
  map Facility.id fs = map Facility.id (facilities db) ->
  handle req now (with_facilities fs db)
  = (fun out => (out.1, with_facilities fs out.2)) <$> handle req now db.
Proof.
  intros Hm Hp Hauth Hids.
  rewrite !(handle_bookings_create req now _ caller Hm Hp Hauth).
  rewrite !(bookings_create_run _ _ _ caller) by done.
  cbn [Request.user Request.body Request.with_user Request.with_params].
  destruct (insertBookingSchema _) as [parsed|]; [|done].
  rewrite (createBooking_facilities _ _ _ _ Hids).
  by destruct (createBooking parsed now db) as [[b|] db1].
Qed.

Lemma occurrences_snoc s l b :
  occurrences s (l ++ [b]) = occurrences s l + (if decide (Booking.status b = s) then 1 else 0).
Proof. induction l as [|x l IH]; cbn [app occurrences]; [lia|]. rewrite IH. lia. Qed.

(** X22. A created booking counts as pending: after a creation that is
    answered 201 the statistics show one more pending booking and a total
    larger by one, the other two counts as before. *)
Theorem created_booking_counts_as_pending req now db caller res db' :
  Request.method req = POST ->
  Request.path req = ["api"; "bookings"] ->
  authenticated req now caller ->
  handle req now db = Some (res, db') ->
  statusCode res = 201 ->
  let before := getBookingStats db in
  let after := getBookingStats (step req now db) in
  BookingStats.pending after = BookingStats.pending before + 1
  /\ BookingStats.approved after = BookingStats.approved before
  /\ BookingStats.rejected after = BookingStats.rejected before
  /\ BookingStats.total after = BookingStats.total before + 1.
Proof.
  intros Hm Hp Hauth Hh Hcode. cbv zeta. unfold step. rewrite Hh.
  rewrite (handle_bookings_create req now db caller Hm Hp Hauth) in Hh.
  rewrite (bookings_create_run _ _ _ caller) in Hh by done.
  destruct (insertBookingSchema _) as [parsed|]; [|injection Hh as <- <-; done].
  destruct (createBooking parsed now db) as [[b|] db1] eqn:Hc;
    [|injection Hh as <- <-; done].
  cbv zeta in Hh. injection Hh as _ <-.
  apply createBooking_Some in Hc as (-> & d & s & e & _ & Hrow).
  apply bookings_row_inv in Hrow as (eventName & _ & _ & _ & ->).
  unfold getBookingStats.
  cbn [bookings with_notifications nextval_notifications with_bookings nextval_bookings
         BookingStats.pending BookingStats.approved BookingStats.rejected
         BookingStats.total].
  rewrite !count_status_occurrences, !occurrences_snoc, length_app.
  cbn [Booking.status length].
  repeat split; repeat (destruct (decide _) as [?|?]; try congruence); cbn; lia.
Qed.

Lemma occurrences_unchanged s id (f : Booking.t -> Booking.t) l :
  id ∉ map Booking.id l ->
  occurrences s (map (fun b => if decide (Booking.id b = id) then f b else b) l)
  = occurrences s l.
Proof.
  induction l as [|x l IH]; [done|]. cbn [map occurrences]. intros Hn.
  rewrite not_elem_of_cons in Hn. destruct Hn as [Hx Hn].
  destruct (decide (Booking.id x = id)); [congruence|]. by rewrite IH.
Qed.

Lemma occurrences_update s id (f : Booking.t -> Booking.t) l old :
  NoDup (map Booking.id l) ->
  head (filter (fun b => Booking.id b = id) l) = Some old ->
  occurrences s (map (fun b => if decide (Booking.id b = id) then f b else b) l)
  = occurrences s l
    - (if decide (Booking.status old = s) then 1 else 0)
    + (if decide (Booking.status (f old) = s) then 1 else 0).
Proof.
  induction l as [|x l IH]; [done|]. cbn [map occurrences].
  intros Hnd Hold. apply NoDup_cons in Hnd as [Hx Hnd]. rewrite filter_cons in Hold.
  destruct (decide (Booking.id x = id)) as [Hid|Hid].
  - injection Hold as ->. rewrite occurrences_unchanged by by rewrite <- Hid. lia.
  - rewrite (IH Hnd Hold). lia.
Qed.

(** X23. A review moves one booking between the counts: in a store whose
    booking ids are distinct and in which the reviewing administrator has
    a row, approving or rejecting a pending booking of an id that is an
    [integer], with notes that are a text or none, takes one from the
    pending count and adds one to the count of the new status, and the
    total stays. *)
Theorem review_moves_one_pending_booking req now db id action caller b old :
  Request.method req = PATCH ->
  Request.path req = ["api"; "admin"; "bookings"; id; action] ->
  id <> "" ->
  action = "approve" \/ action = "reject" ->
  authenticated req now caller ->
  AuthUser.role caller = "admin" ->
  parseInt id = Some b ->
  int4 b ->
  notes_text (Request.body req !! "notes") ->
  AuthUser.id caller ∈ user_ids db ->
  NoDup (map Booking.id (bookings db)) ->
  find_booking b db = Some old ->
  Booking.status old = pending ->
  let before := getBookingStats db in
  let after := getBookingStats (step req now db) in
  BookingStats.pending after = BookingStats.pending before - 1
  /\ BookingStats.approved after
     = BookingStats.approved before + (if String.eqb action "approve" then 1 else 0)
  /\ BookingStats.rejected after
     = BookingStats.rejected before + (if String.eqb action "approve" then 0 else 1)
  /\ BookingStats.total after = BookingStats.total before.
Proof.
  intros Hm Hp Hid Hact Hauth Hrole Hparse Hint Hnotes Hcaller Hnd Hfind Hpending. cbv zeta.
  destruct (bound_notes_text _ Hnotes) as (adminNotes & Hbound & _).
  pose proof (handle_review_admin req now db id action caller b
                Hm Hp Hid Hact Hauth Hrole Hparse) as Hh.
  cbv zeta in Hh.
  rewrite (updateBookingStatus_accepted _ _ _ _ adminNotes) in Hh by done.
  rewrite Hfind in Hh. cbn [fmap option_fmap option_map] in Hh.
  set (bs := map _ (bookings db)) in Hh.
  assert (Hbs : bookings (step req now db) = bs).
  { unfold step. rewrite Hh.
    destruct (createNotification _ _ _) as [[n|] db2] eqn:Hc; cbn [snd].
    - by apply createNotification_Some in Hc as [-> _].
    - by apply createNotification_None in Hc as [-> | ->]. }
  unfold getBookingStats. rewrite Hbs. unfold bs.
  cbn [BookingStats.pending BookingStats.approved BookingStats.rejected BookingStats.total].
  rewrite !count_status_occurrences.
  unfold find_booking in Hfind.
  rewrite !(occurrences_update _ b _ _ old Hnd Hfind), length_map, Hpending.
  cbn [updateBookingStatus_row Booking.status].
  destruct Hact as [-> | ->]; cbn [String.eqb Ascii.eqb Bool.eqb action_status];
    repeat split; repeat (destruct (decide _) as [?|?]; try congruence); lia.
Qed.

(** ** The seed script *)

Lemma head_filter_email_map (upd : User.t -> User.t) e l existing :
  (forall u, User.email (upd u) = User.email u) ->
  head (filter (fun u => User.email u = e) l) = Some existing ->
  head (filter (fun u => User.email u = e) (map upd l)) = Some (upd existing).
Proof.
  intros Hupd. induction l as [|x l IH]; [done|]. cbn [map]. rewrite !filter_cons.
  destruct (decide (User.email x = e)) as [Hx|Hx].
  - intros [= ->]. by rewrite decide_True by by rewrite Hupd.
  - intros Hl. rewrite decide_False by by rewrite Hupd. by apply IH.
Qed.

Lemma seed_admin_found now db :
  exists u,
    getUserByEmail "admin@gmail.com" (seed_admin now db) = Some u
    /\ User.role u = admin
    /\ User.password u = bcrypt_hash "admin123".
Proof.
  unfold seed_admin, getUserByEmail.
  destruct (head (filter (fun u => User.email u = "admin@gmail.com") (users db)))
    as [existing|] eqn:Hex.
  - cbn [users with_users].
    rewrite (head_filter_email_map _ _ _ existing) by
      (try done; intros u; by destruct (decide _)).
    rewrite decide_True by done. eexists. by split.
  - cbn [users]. rewrite (filter_head_snoc _ _ _ Hex) by done. eexists. by split.
Qed.

(** X24. After the seed script there is an administrator to log in as: the
    first user of the e-mail admin@gmail.com has the role admin and the
    hash of admin123, whether the script found that user or inserted it;
    and a store in which the script finds the user gets no new row. *)
Theorem seed_admin_makes_an_administrator now db :
  (exists u,
     getUserByEmail "admin@gmail.com" (seed_admin now db) = Some u
     /\ User.role u = admin
     /\ User.password u = bcrypt_hash "admin123")
  /\ (is_Some (getUserByEmail "admin@gmail.com" db) ->
      length (users (seed_admin now db)) = length (users db)
      /\ map User.id (users (seed_admin now db)) = map User.id (users db)
      /\ map User.email (users (seed_admin now db)) = map User.email (users db))
  /\ (getUserByEmail "admin@gmail.com" db = None ->
      exists u, users (seed_admin now db) = (users db ++ [u])%list
                /\ User.id u = users_id_seq db).
Proof.
  split; [apply seed_admin_found|]. unfold seed_admin, getUserByEmail. split.
  - intros [existing Hex]. rewrite Hex. cbn [users with_users].
    rewrite length_map, !map_map. split; [done|].
    split; apply map_ext; intros u; by destruct (decide _).
  - intros ->. eexists. by split.
Qed.

(** X25. The credentials that the seed script prints do log in: when zod
    accepts the e-mail and bcrypt accepts a password against its own hash,
    a login as admin@gmail.com with admin123 on the seeded store is
    answered 200 with a user object and a token. *)
Theorem seeded_admin_can_log_in now now' db :
  zod_email "admin@gmail.com" = true ->
  bcrypt_compare "admin123" (bcrypt_hash "admin123") = true ->
  exists u token,
    handle (login_request "admin@gmail.com" "admin123") now' (seed_admin now db)
    = Some (res_json 200 (JObj {[ "user" := JObj (userWithoutPassword u);
                                  "token" := JStr token ]}), seed_admin now db)
    /\ User.role u = admin.
Proof.
  intros Hz Hb. destruct (seed_admin_found now db) as (u & Hu & Hrole & Hpw).
  exists u, (sign_user u now'). split; [|done].
  apply handle_auth_login; [done|done|].
  unfold auth_login. cbn [Request.body Request.with_params login_request].
  rewrite (loginSchema_intro _ "admin@gmail.com" "admin123")
    by (try done; cbn; lia).
  rewrite Hu, Hpw, Hb. reflexivity.
Qed.

(** ** The header *)

Lemma split_space_word s : spaceless s = true -> split_space s = [s].
Proof.
  induction s as [|c s IH]; [done|]. cbn [spaceless split_space].
  intros Hs. apply andb_true_iff in Hs as [Hc Hs]. apply negb_true_iff in Hc.
  rewrite Hc, (IH Hs). done.
Qed.

Lemma split_space_words a b :
  spaceless a = true -> split_space (a +:+ " " +:+ b) = a :: split_space b.
Proof.
  induction a as [|c a IH]; [done|]. cbn [spaceless].
  intros Hs. apply andb_true_iff in Hs as [Hc Hs]. apply negb_true_iff in Hc.
  change (String c a +:+ " " +:+ b) with (String c (a +:+ " " +:+ b)).
  cbn [split_space]. rewrite Hc, (IH Hs). done.
Qed.

(** X26. The token is the second word of the [Authorization] header,
    whatever the first word is: the scheme is not compared with Bearer;
    a header of one word carries no token. *)
Theorem bearer_token_is_the_second_word req scheme token :
  spaceless scheme = true -> spaceless token = true ->
  (Request.authorization req = Some (scheme +:+ " " +:+ token) ->
   bearer_token req = Some token)
  /\ (Request.authorization req = Some scheme -> bearer_token req = None).
Proof.
  intros Hs Ht. unfold bearer_token. split; intros ->; cbn [mbind option_bind].
  - by rewrite split_space_words, split_space_word.
  - by rewrite split_space_word.
Qed.
(** ** User objects *)

Lemma stripped_userWithoutPassword db u :
  u ∈ users db -> stripped_row db (userWithoutPassword u).
Proof.
  intros Hu. exists u. split; [done|]. apply userWithoutPassword_spec.
Qed.

(** X27. The handlers of registration, login, profile update, user list and
    role update answer with user objects that have no key [password] and
    agree on every other key with a row of the users table as the request
    left it. *)
Theorem user_answers_carry_no_password req now db res db' :
  (auth_register req now db = Respond res db' -> statusCode res = 201 ->
   exists o token, json res = Json (JObj {[ "user" := JObj o; "token" := JStr token ]})
                   /\ stripped_row db' o)
  /\ (auth_login req now db = Respond res db' -> statusCode res = 200 ->
      exists o token, json res = Json (JObj {[ "user" := JObj o; "token" := JStr token ]})
                      /\ stripped_row db' o)
  /\ (users_profile req now db = Respond res db' -> statusCode res = 200 ->
      exists o, json res = Json (JObj {[ "user" := JObj o ]}) /\ stripped_row db' o)
  /\ (admin_users req now db = Respond res db' ->
      exists os, json res = Json (JArr (map JObj os)) /\ Forall (stripped_row db') os)
  /\ (admin_users_role req now db = Respond res db' -> statusCode res = 200 ->
      exists o, json res = Json (JObj o) /\ stripped_row db' o).
Proof.
  destruct (user_routes_strip_password req now db res db')
    as (Hreg & Hlogin & Hprofile & Hlist & Hrole).
  repeat split.
  - intros Hrun Hcode. destruct (Hreg Hrun Hcode) as (u & token & Hu & ->).
    exists (userWithoutPassword u), token. split; [done|].
    by apply stripped_userWithoutPassword.
  - intros Hrun Hcode. destruct (Hlogin Hrun Hcode) as (u & token & Hu & ->).
    exists (userWithoutPassword u), token. split; [done|].
    by apply stripped_userWithoutPassword.
  - intros Hrun Hcode. destruct (Hprofile Hrun Hcode) as (u & Hu & ->).
    exists (userWithoutPassword u). split; [done|].
    by apply stripped_userWithoutPassword.
  - intros Hrun. destruct (Hlist Hrun) as (us & Hperm & ->).
    exists (map userWithoutPassword us). split; [by rewrite map_map|].
    apply Forall_fmap, Forall_forall. intros u Hu. cbn.
    apply stripped_userWithoutPassword. by rewrite <- Hperm.
  - intros Hrun Hcode. destruct (Hrole Hrun Hcode) as (u & Hu & ->).
    exists (userWithoutPassword u). split; [done|].
    by apply stripped_userWithoutPassword.
Qed.
End Workflow.

Section Integrity.
Context `{Runtime}.

(** Rows that are there stay there while the keys they refer to do. *)
Lemma linked_booking_keys db db' b :
  (forall k, k ∈ user_ids db -> k ∈ user_ids db') ->
  linked_booking db b -> linked_booking db' b.
Proof.
  intros Hu [[Ho Hn] Hr]. split; [split; [by apply Hu | done]|].
  destruct (Booking.reviewedBy b); [by apply Hu | done].
Qed.

Lemma linked_notification_keys db db' n :
  (forall k, k ∈ user_ids db -> k ∈ user_ids db') ->
  (forall k, k ∈ booking_ids db -> k ∈ booking_ids db') ->
  linked_notification db n -> linked_notification db' n.
Proof.
  intros Hu Hb [Ho Hr]. split; [by apply Hu|].
  destruct (Notification.relatedBookingId n); [by apply Hb | done].
Qed.

Lemma referential_keys db db' :
  (forall k, k ∈ user_ids db -> k ∈ user_ids db') ->
  (forall k, k ∈ booking_ids db -> k ∈ booking_ids db') ->
  bookings db' = bookings db ->
  notifications db' = notifications db ->
  referential db -> referential db'.
Proof.
  intros Hu Hb Hbs Hns [Hlb Hln]. split.
  - rewrite Hbs. eapply Forall_impl; [exact Hlb|]. intros b. by apply linked_booking_keys.
  - rewrite Hns. eapply Forall_impl; [exact Hln|]. intros n.
    by apply linked_notification_keys.
Qed.

Lemma user_ids_map (f : User.t -> User.t) us db :
  (forall u, User.id (f u) = User.id u) ->
  user_ids (with_users (map f us) db) = map User.id us.
Proof.
  intros Hf. unfold user_ids. cbn [users with_users]. rewrite map_map.
  by apply map_ext.
Qed.

Lemma write_referential db db' : write db db' -> referential db -> referential db'.
Proof.
  intros Hw Hinv. written.
  all: try (apply (referential_keys db); [..|exact Hinv]; done).
  - (* createUser *)
    apply (referential_keys db); [|done|done|done|done].
    intros k Hk. unfold user_ids in *. cbn [users with_users nextval_users].
    rewrite map_app. apply elem_of_app. by left.
  - (* updateUser *)
    destruct (updateUser_tables _ _ _ _ _ _ H0) as (_ & Hbs & Hns).
    apply (referential_keys db); [|by unfold booking_ids; rewrite Hbs|done|done|done].
    unfold updateUser in H0.
    destruct (update_where _ _ _) as [[us ret]|] eqn:Hupd; [|done].
    injection H0 as _ <-. unfold user_ids. cbn [users with_users].
    rewrite (update_where_map User.id _ _ _ _ _ (fun x y Hxy =>
               proj1 (proj1 (updateUser_row_keeps _ _ _ _ Hxy))) Hupd).
    done.
  - (* updateUserPassword *)
    apply (referential_keys db); [|done|done|done|done].
    cbn [updateUserPassword snd]. rewrite user_ids_map; [done|].
    intros u. by destruct (bool_decide _).
  - (* updateUserRole *)
    apply (referential_keys db); [|done|done|done|done].
    rewrite user_ids_map; [done|]. intros u. by destruct (decide _).
  - (* deleteUser *)
    destruct Hinv as [Hlb Hln].
    assert (Hkeep : forall k, k ∈ user_ids db -> k <> id ->
                              k ∈ user_ids (with_users
                                    (filter (fun u => User.id u <> id) (users db)) db)).
    { intros k Hk Hne. unfold user_ids in *. cbn [users with_users].
      apply list_elem_of_fmap in Hk as (u & -> & Hu).
      apply list_elem_of_fmap. exists u. split; [done|]. by apply list_elem_of_filter. }
    assert (Hfree : forall k, k ∈ user_ids db -> k = id -> ~ user_referenced id db)
      by (intros k Hk ->; by apply H0).
    split.
    + apply Forall_forall. intros b Hb. cbn [bookings with_users] in Hb.
      rewrite Forall_forall in Hlb. destruct (Hlb b Hb) as [[Ho Hn] Hr].
      split; [split; [|done]|].
      * apply Hkeep; [done|]. intros Heq. apply (Hfree _ Ho Heq). left.
        rewrite <- Heq. by apply list_elem_of_fmap_2.
      * destruct (Booking.reviewedBy b) as [r0|] eqn:Hrev; [|done]. cbn [refers] in *.
        apply Hkeep; [done|]. intros Heq. apply (Hfree _ Hr Heq). right. left.
        rewrite <- Heq, <- Hrev. by apply list_elem_of_fmap_2.
    + apply Forall_forall. intros n Hn. cbn [notifications with_users] in Hn.
      rewrite Forall_forall in Hln. destruct (Hln n Hn) as [Ho Hr].
      split; [|done].
      apply Hkeep; [done|]. intros Heq. apply (Hfree _ Ho Heq). right. right.
      rewrite <- Heq. by apply list_elem_of_fmap_2.
  - (* updateFacility *)
    destruct (updateFacility_tables _ _ _ _ _ _ H0) as (Hus & Hbs & Hns).
    apply (referential_keys db); [| |done|done|done].
    + by unfold user_ids; rewrite Hus.
    + by unfold booking_ids; rewrite Hbs.
  - (* createBooking *)
    destruct Hinv as [Hlb Hln].
    match goal with
    | Hbind : bookings_bind _ = Some _, Hrow : bookings_row _ _ _ _ _ _ _ = Some _ |- _ =>
        apply bookings_bind_inv in Hbind as (_ & _ & Hname & _);
        apply bookings_row_inv in Hrow as (eventName & Hvar & Hu & _ & ->)
    end.
    split.
    + cbn [bookings with_bookings nextval_bookings]. apply Forall_app. split.
      * eapply Forall_impl; [exact Hlb|]. intros b. by apply linked_booking_keys.
      * constructor; [|done]. split; [split|done]; cbn [Booking.userId Booking.eventName].
        -- exact Hu.
        -- by apply (varchar_no_nul _ _ _ Hvar).
    + cbn [notifications with_bookings nextval_bookings].
      eapply Forall_impl; [exact Hln|]. intros n.
      apply linked_notification_keys; [done|].
      intros k Hk. unfold booking_ids in *. cbn [bookings with_bookings nextval_bookings].
      rewrite map_app. apply elem_of_app. by left.
  - (* updateBookingStatus *)
    destruct Hinv as [Hlb Hln].
    match goal with
    | Hfk : id ∈ booking_ids db -> adminId ∈ user_ids db |- _ => rename Hfk into Hrev
    end.
    split.
    + cbn [bookings with_bookings]. apply Forall_forall. intros b Hb.
      apply list_elem_of_fmap in Hb as (old & -> & Hold).
      rewrite Forall_forall in Hlb. destruct (Hlb old Hold) as [[Ho Hn] Hr].
      destruct (decide (Booking.id old = id)) as [Hid|Hid]; [|by split].
      split; [by split|]. cbn [updateBookingStatus_row Booking.reviewedBy refers].
      apply Hrev. rewrite <- Hid. by apply list_elem_of_fmap_2.
    + cbn [notifications with_bookings].
      eapply Forall_impl; [exact Hln|]. intros n.
      apply linked_notification_keys; [done|].
      intros k Hk. unfold booking_ids in *. cbn [bookings with_bookings].
      by rewrite updated_ids.
  - (* createNotification *)
    destruct Hinv as [Hlb Hln].
    match goal with
    | Hrow : notifications_row _ _ _ _ = Some _ |- _ =>
        apply notifications_row_inv in Hrow as (title & type & _ & _ & Hu & Hb & ->)
    end.
    split; [done|].
    cbn [notifications with_notifications nextval_notifications]. apply Forall_app.
    split; [done|]. constructor; [|done]. by split.
  - (* markNotificationRead *)
    destruct Hinv as [Hlb Hln]. split; [done|].
    cbn [notifications with_notifications]. apply Forall_fmap.
    eapply Forall_impl; [exact Hln|]. intros n Hn. cbn.
    by destruct (bool_decide _).
  - (* markAllNotificationsRead *)
    destruct Hinv as [Hlb Hln]. split; [done|].
    cbn [markAllNotificationsRead snd notifications with_notifications]. apply Forall_fmap.
    eapply Forall_impl; [exact Hln|]. intros n Hn. cbn.
    by destruct (bool_decide _).
Qed.

(** X28. In every store that requests build from the empty one, the rows
    that a booking or a notification refers to are there: the owner of a
    booking has a row and its name is a text PostgreSQL holds, so the
    notice of a review can be written; its reviewer, if it has one, has
    a row; and a notification is addressed to a user who has a row and
    is linked, if at all, to a booking that has one. *)
Theorem reachable_referential db :
  reachable db ->
  (forall b, b ∈ bookings db ->
     notifiable b db /\ refers (user_ids db) (Booking.reviewedBy b))
  /\ (forall n, n ∈ notifications db ->
        Notification.userId n ∈ user_ids db
        /\ refers (booking_ids db) (Notification.relatedBookingId n)).
Proof.
  intros Hreach.
  assert (Hinv : referential db).
  { induction Hreach as [|req now db _ IH]; [by split; constructor|].
    induction (step_writes req now db) as [|x y z Hxy _ IHw]; [done|].
    apply IHw. by apply (write_referential x). }
  destruct Hinv as [Hlb Hln]. split.
  - by apply Forall_forall.
  - by apply Forall_forall.
Qed.
End Integrity.

Section Refusals.
Context `{Runtime}.

Lemma same_tables_nextval_users db : same_tables db (nextval_users db).
Proof. by repeat split. Qed.

(** X29. A registration that PostgreSQL refuses creates no user: when the
    body passes the schema and the e-mail is unused, but the first name
    does not go into its column of 100 characters, the answer is 500,
    "Registration failed", and the four tables are as they were. *)
Theorem long_name_registration_is_refused req now db parsed firstName :
  Request.method req = POST ->
  Request.path req = ["api"; "auth"; "register"] ->
  registerSchema (Request.body req) = Some parsed ->
  getUserByEmail (InsertUser.email (rd_user parsed)) db = None ->
  InsertUser.firstName (rd_user parsed) = Some firstName ->
  varchar 100 firstName = None ->
  exists db',
    handle req now db = Some (failed "Registration failed", db')
    /\ same_tables db db'.
Proof.
  intros Hm Hp Hparse Hfree Hfn Hlong.
  rewrite (handle_auth_register req now db Hm Hp). unfold auth_register.
  cbn [Request.body Request.with_params]. rewrite Hparse, Hfree.
  destruct (createUser (rd_user parsed) now db) as [[u|] db'] eqn:Hc.
  - apply createUser_Some in Hc as (_ & _ & Hrow).
    apply users_row_inv in Hrow as (_ & _ & _ & _ & Hfirst & _).
    rewrite Hfn in Hfirst. cbn [nullable] in Hfirst. by rewrite Hlong in Hfirst.
  - exists db'. split; [done|].
    apply createUser_None in Hc as [-> | ->];
      [apply same_tables_refl | apply same_tables_nextval_users].
Qed.

(** X30. A review that PostgreSQL refuses changes nothing: when the id of
    the path is no [integer], or when the booking is there and the
    reviewing administrator has no row in [users] any more, the answer is
    500, "Failed to approve booking" or "Failed to reject booking", and
    the store is as it was. *)
Theorem refused_review_changes_nothing req now db id action caller b :
  Request.method req = PATCH ->
  Request.path req = ["api"; "admin"; "bookings"; id; action] ->
  id <> "" ->
  action = "approve" \/ action = "reject" ->
  authenticated req now caller ->
  AuthUser.role caller = "admin" ->
  parseInt id = Some b ->
  ~ int4 b \/ (b ∈ booking_ids db /\ AuthUser.id caller ∉ user_ids db) ->
  handle req now db = Some (failed (action_failure action), db).
Proof.
  intros Hm Hp Hid Hact Hauth Hrole Hb Hrefused.
  rewrite (handle_review_admin req now db id action caller b
             Hm Hp Hid Hact Hauth Hrole Hb).
  cbv zeta.
  assert (Hnone : updateBookingStatus b (action_status action) (AuthUser.id caller)
                    (Request.body req !! "notes") now db = None).
  { destruct (updateBookingStatus _ _ _ _ _ _) as [[r db']|] eqn:Hu; [|done].
    apply updateBookingStatus_inv in Hu as (adminNotes & Hint & _ & Hfk & _).
    destruct Hrefused as [Hfar | [Hin Hgone]]; [done|]. by destruct Hgone; apply Hfk. }
  by rewrite Hnone.
Qed.
End Refusals.

(** * The further properties on concrete requests *)

Lemma reachable_well_keyed_witness :
  reachable (H := sample_runtime) db_approved /\ well_keyed db_approved.
Proof.
  split; [exact reachable_db_approved|].
  exact (reachable_well_keyed (H := sample_runtime) db_approved reachable_db_approved).
Defined.

Lemma token_required_witness :
  handle (H := sample_runtime) (request PATCH ["api"; "users"; "profile"] None []) 0 empty_db
  = None
  \/ handle (H := sample_runtime) (request PATCH ["api"; "users"; "profile"] None []) 0
       empty_db
     = Some (res_json 401 (message "Authentication required"), empty_db).
Proof.
  apply (token_required (H := sample_runtime)
           (request PATCH ["api"; "users"; "profile"] None []) 0 empty_db "users" ["profile"]);
    [reflexivity | by left | by left].
Defined.

Lemma admin_routes_require_admin_witness :
  handle (H := sample_runtime) (request GET ["api"; "admin"; "users"]
                                  (Some "alice@campus.edu") []) 104 db_approved
  = None
  \/ handle (H := sample_runtime) (request GET ["api"; "admin"; "users"]
                                     (Some "alice@campus.edu") []) 104 db_approved
     = Some (res_json 403 (message "Admin access required"), db_approved).
Proof.
  apply (admin_routes_require_admin (H := sample_runtime)
           (request GET ["api"; "admin"; "users"] (Some "alice@campus.edu") []) 104
           db_approved ["users"] alice);
    [reflexivity | apply authenticated_alice | discriminate].
Defined.

Lemma get_is_read_only_witness :
  step (H := sample_runtime) (my_bookings "alice@campus.edu") 104 db_approved = db_approved.
Proof. by apply (get_is_read_only (H := sample_runtime)). Defined.

(** The texts of Alice's registration fit the columns of [users]. *)
Lemma alice_registration_texts : user_texts (rd_user alice_registration).
Proof.
  split; [split; [reflexivity | cbn; lia]|].
  split; [intros s [= <-]; split; [reflexivity | cbn; lia]|].
  split; [intros s [= <-]; split; [reflexivity | cbn; lia]|].
  intros s Hs. discriminate Hs.
Defined.

Lemma registration_creates_the_user_witness :
  exists u db',
    handle (H := sample_runtime) register_alice 100 empty_db
    = Some (res_json 201 (JObj {[ "user" := JObj (userWithoutPassword u);
                                  "token" := JStr (sign_user (H := sample_runtime) u 100) ]}),
            db')
    /\ users db' = [u] /\ User.id u = 1 /\ User.role u = student.
Proof.
  destruct (registration_creates_the_user (H := sample_runtime) register_alice 100 empty_db
              alice_registration eq_refl eq_refl eq_refl eq_refl alice_registration_texts)
    as (u & db' & Hh & Hus & Hid & _ & _ & Hrole & _).
  exists u, db'. split; [exact Hh|]. split; [exact Hus|]. split; [exact Hid|].
  by apply Hrole.
Defined.

Lemma login_checks_the_password_witness :
  handle (H := sample_runtime) (login_request "alice@campus.edu" "secret1") 104 db_two_users
  = Some (res_json 200
            (JObj {[ "user" := JObj (userWithoutPassword alice_row);
                     "token" := JStr (sign_user (H := sample_runtime) alice_row 104) ]}),
          db_two_users)
  /\ handle (H := sample_runtime) (login_request "alice@campus.edu" "secret9") 104
       db_two_users
     = Some (res_json 401 (message "Invalid email or password"), db_two_users).
Proof.
  split.
  - exact (login_checks_the_password (H := sample_runtime)
             (login_request "alice@campus.edu" "secret1") 104 db_two_users
             "alice@campus.edu" "secret1" eq_refl eq_refl eq_refl).
  - exact (login_checks_the_password (H := sample_runtime)
             (login_request "alice@campus.edu" "secret9") 104 db_two_users
             "alice@campus.edu" "secret9" eq_refl eq_refl eq_refl).
Defined.

Lemma registered_user_can_log_in_witness :
  exists u token,
    u ∈ users (step (H := sample_runtime) register_alice 100 empty_db)
    /\ handle (H := sample_runtime) (login_request "alice@campus.edu" "secret1") 101
         (step (H := sample_runtime) register_alice 100 empty_db)
       = Some (res_json 200 (JObj {[ "user" := JObj (userWithoutPassword u);
                                     "token" := JStr token ]}),
               step (H := sample_runtime) register_alice 100 empty_db).
Proof.
  exact (registered_user_can_log_in (H := sample_runtime) register_alice
           (login_request "alice@campus.edu" "secret1") 100 101 empty_db alice_registration
           eq_refl eq_refl eq_refl eq_refl alice_registration_texts
           eq_refl eq_refl eq_refl eq_refl eq_refl).
Defined.

Lemma profile_update_keeps_identity_witness :
  Forall2 (fun old new =>
             same_account old new
             /\ User.password new = User.password old
             /\ User.role new = User.role old
             /\ (User.id old <> AuthUser.id alice -> new = old))
    (users db_two_users)
    (users (step (H := sample_runtime)
              rename_alice 104 db_two_users)).
Proof.
  apply (profile_update_keeps_identity (H := sample_runtime) rename_alice 104 db_two_users
           alice);
    [reflexivity | reflexivity | apply authenticated_alice].
Defined.

Lemma password_change_checks_current_witness :
  handle (H := sample_runtime)
    change_password_guess 104 db_two_users
  = Some (res_json 400 (message "Current password is incorrect"), db_two_users).
Proof.
  exact (password_change_checks_current (H := sample_runtime) change_password_guess 104
           db_two_users alice
           alice_row "guess" "secret3" eq_refl eq_refl (authenticated_alice _ _ _ _)
           eq_refl eq_refl eq_refl).
Defined.

Lemma admin_cannot_delete_own_account_witness :
  handle (H := sample_runtime)
    delete_user_2 104
    db_two_users
  = Some (res_json 400 (message "Cannot delete your own account"), db_two_users).
Proof.
  apply (admin_cannot_delete_own_account (H := sample_runtime) delete_user_2 104
           db_two_users "2" root);
    [reflexivity | reflexivity | discriminate | apply authenticated_root
    | reflexivity | reflexivity].
Defined.

(** The administrator makes Alice a member of the faculty. *)
Lemma role_update_sets_the_role_witness :
  exists res db',
    handle (H := sample_runtime) make_faculty_1 104 db_two_users = Some (res, db')
    /\ statusCode res = 200
    /\ Forall2 (fun old new =>
                  if decide (User.id old = 1)
                  then User.role new = faculty /\ same_account old new
                       /\ User.password new = User.password old
                  else new = old)
         (users db_two_users) (users db').
Proof.
  pose proof (role_update_sets_the_role (H := sample_runtime) make_faculty_1 104 db_two_users
                "1" root 1
                eq_refl eq_refl ltac:(discriminate) (authenticated_root _ _ _ _) eq_refl
                eq_refl ltac:(unfold int4; lia)) as W.
  change (z_userRole (Request.body make_faculty_1 !! "role")) with (Some faculty) in W.
  destruct W as (res & db' & Hh & Hfound & _ & Hrows & _).
  exists res, db'. split; [exact Hh|]. split; [|exact Hrows].
  apply Hfound. exists alice_row. split; [apply list_elem_of_here | reflexivity].
Defined.

(** The administrator marks Alice's first notification read. *)
Lemma any_caller_marks_a_notification_read_witness :
  exists db',
    handle (H := sample_runtime)
      (read_1 "root@campus.edu") 105
      db_approved
    = Some (res_json 200 (message "Notification marked as read"), db')
    /\ Forall2 (fun old new =>
                  if decide (Notification.id old = 1)
                  then Notification.status new = read /\ same_notice old new
                  else new = old)
         (notifications db_approved) (notifications db').
Proof.
  destruct (any_caller_marks_a_notification_read (H := sample_runtime)
              (read_1 "root@campus.edu") 105 db_approved "1" root 1
              eq_refl eq_refl ltac:(discriminate) (authenticated_root _ _ _ _) eq_refl
              ltac:(unfold int4; lia))
    as (db' & Hh & Hrows & _).
  exists db'. by split.
Defined.

Lemma marking_read_twice_is_marking_once_witness :
  step (H := sample_runtime)
    (read_1 "alice@campus.edu") 105
    (step (H := sample_runtime)
       (read_1 "alice@campus.edu")
       104 db_approved)
  = step (H := sample_runtime)
      (read_1 "alice@campus.edu")
      104 db_approved.
Proof.
  apply (marking_read_twice_is_marking_once (H := sample_runtime)
           (read_1 "alice@campus.edu") 104 105 db_approved "1" alice alice 1);
    [reflexivity | reflexivity | discriminate | apply authenticated_alice
    | apply authenticated_alice | reflexivity].
Defined.

Lemma read_all_is_the_callers_witness :
  exists db',
    handle (H := sample_runtime) (read_all "alice@campus.edu") 104 db_approved
    = Some (res_json 200 (message "All notifications marked as read"), db')
    /\ Forall2 (fun old new =>
                  if decide (Notification.userId old = 1)
                  then Notification.status new = read /\ same_notice old new
                  else new = old)
         (notifications db_approved) (notifications db').
Proof.
  destruct (read_all_is_the_callers (H := sample_runtime) (read_all "alice@campus.edu") 104
              db_approved alice eq_refl eq_refl (authenticated_alice _ _ _ _))
    as (db' & Hh & Hrows & _).
  exists db'. by split.
Defined.

Lemma my_bookings_are_the_callers_witness :
  exists rows,
    handle (H := sample_runtime) (my_bookings "root@campus.edu") 104 db_approved
    = Some (res_json 200 (json_rows json_of_booking_with_relations rows), db_approved)
    /\ rows ≡ₚ [].
Proof.
  exact (my_bookings_are_the_callers (H := sample_runtime) (my_bookings "root@campus.edu")
           104 db_approved root eq_refl eq_refl (authenticated_root _ _ _ _)).
Defined.

Lemma my_notifications_are_the_callers_witness :
  exists rows,
    handle (H := sample_runtime)
      (list_notifications "alice@campus.edu") 105 db_approved
    = Some (res_json 200 (json_rows json_of_notification rows), db_approved)
    /\ rows ≡ₚ filter (fun n => Notification.userId n = AuthUser.id alice)
                 (notifications db_approved).
Proof.
  exact (my_notifications_are_the_callers (H := sample_runtime)
           (list_notifications "alice@campus.edu") 105
           db_approved alice eq_refl eq_refl (authenticated_alice _ _ _ _)).
Defined.

Lemma facilities_are_public_witness :
  exists rows,
    handle (H := sample_runtime) list_facilities 104
      (with_facilities [hall closed] db_approved)
    = Some (res_json 200 (json_rows json_of_facility rows),
            with_facilities [hall closed] db_approved)
    /\ rows ≡ₚ [hall closed].
Proof.
  exact (facilities_are_public (H := sample_runtime)
           list_facilities 104
           (with_facilities [hall closed] db_approved) eq_refl eq_refl).
Defined.

(** The texts of Alice's booking hold no NUL. *)
Lemma hall_booking_texts : booking_texts hall_booking.
Proof.
  split; [reflexivity|]. repeat split; intros s Hs; discriminate Hs.
Defined.

Lemma booking_creation_notifies_the_caller_witness :
  exists b n db',
    handle (H := sample_runtime) book_hall 103 db_hall
    = Some (res_json 201 (JObj (json_of_booking b)), db')
    /\ Booking.id b = 1
    /\ Booking.startTime b = "10:00:00"
    /\ notifications db' = [n]
    /\ Notification.userId n = 1
    /\ Notification.relatedBookingId n = Some 1.
Proof.
  destruct (booking_creation_notifies_the_caller (H := sample_runtime) book_hall 103
              db_hall alice hall_booking "2025-01-15" "10:00:00" "12:00:00" eq_refl eq_refl
              (authenticated_alice _ _ _ _) eq_refl hall_booking_texts eq_refl eq_refl
              eq_refl (list_elem_of_here _ _) (list_elem_of_here _ _))
    as (b & n & db' & Hh & Hid & _ & _ & _ & Hs & _ & _ & Hn & _ & Hu & _ & _ & _ & Hrel & _).
  exists b, n, db'. split; [exact Hh|]. split; [exact Hid|]. split; [exact Hs|].
  split; [exact Hn|]. split; [exact Hu|]. by rewrite Hrel, Hid.
Defined.

(** The hall closed instead of available: the booking is taken all the
    same. *)
Lemma booking_creation_ignores_facilities_witness :
  handle (H := sample_runtime) book_hall 103 (with_facilities [hall closed] db_hall)
  = (fun out => (out.1, with_facilities [hall closed] out.2))
      <$> handle (H := sample_runtime) book_hall 103 db_hall.
Proof.
  apply (booking_creation_ignores_facilities (H := sample_runtime) book_hall 103
           db_hall alice [hall closed]);
    [reflexivity | reflexivity | apply authenticated_alice | reflexivity].
Defined.

Lemma created_booking_counts_as_pending_witness :
  (fun out => statusCode out.1) <$> handle (H := sample_runtime) book_hall 103 db_hall
  = Some 201
  /\ BookingStats.pending (getBookingStats (step (H := sample_runtime) book_hall 103 db_hall))
     = 1
  /\ BookingStats.total (getBookingStats (step (H := sample_runtime) book_hall 103 db_hall))
     = 1.
Proof.
  destruct (handle (H := sample_runtime) book_hall 103 db_hall) as [[res db']|] eqn:Hh;
    [|vm_compute in Hh; discriminate Hh].
  assert (Hcode : statusCode res = 201).
  { apply (f_equal (fun out => (fun o : Response * Db => statusCode o.1) <$> out)) in Hh.
    vm_compute in Hh. injection Hh as Hh. symmetry. exact Hh. }
  destruct (created_booking_counts_as_pending (H := sample_runtime) book_hall 103
              db_hall alice res db' eq_refl eq_refl
              (authenticated_alice _ _ _ _) Hh Hcode) as (Hp & _ & _ & Ht).
  split; [cbn [fmap option_fmap option_map fst]; by rewrite Hcode|].
  split; [exact Hp | exact Ht].
Defined.

Lemma review_moves_one_pending_booking_witness :
  BookingStats.pending
    (getBookingStats (step (H := sample_runtime) (approve_1 "root@campus.edu") 104 db_booked))
  = 0
  /\ BookingStats.approved
       (getBookingStats (step (H := sample_runtime) (approve_1 "root@campus.edu") 104
                           db_booked))
     = 1.
Proof.
  destruct (find_booking 1 db_booked) as [old|] eqn:Hold;
    [|vm_compute in Hold; discriminate Hold].
  assert (Hst : Booking.status old = pending)
    by (vm_compute in Hold; by injection Hold as <-).
  assert (Hnd : NoDup (map Booking.id (bookings db_booked)))
    by (vm_compute; apply NoDup_singleton).
  destruct (review_moves_one_pending_booking (H := sample_runtime)
              (approve_1 "root@campus.edu") 104 db_booked "1" "approve" root 1 old
              eq_refl eq_refl ltac:(discriminate) (or_introl eq_refl)
              (authenticated_root _ _ _ _) eq_refl eq_refl ltac:(unfold int4; lia) eq_refl
              root_has_a_row Hnd Hold Hst)
    as (Hp & Ha & _).
  split; [exact Hp | exact Ha].
Defined.

Lemma seeded_admin_can_log_in_witness :
  exists u token,
    handle (H := sample_runtime) (login_request "admin@gmail.com" "admin123") 101
      (seed_admin (H := sample_runtime) 100 db_approved)
    = Some (res_json 200 (JObj {[ "user" := JObj (userWithoutPassword u);
                                  "token" := JStr token ]}),
            seed_admin (H := sample_runtime) 100 db_approved)
    /\ User.role u = admin.
Proof.
  exact (seeded_admin_can_log_in (H := sample_runtime) 100 101 db_approved eq_refl eq_refl).
Defined.

Lemma bearer_token_is_the_second_word_witness :
  bearer_token (Request.mk GET ["api"; "bookings"; "my"] (Some "Basic alice@campus.edu")
                  ∅ ∅ None)
  = Some "alice@campus.edu".
Proof.
  apply (bearer_token_is_the_second_word
           (Request.mk GET ["api"; "bookings"; "my"] (Some "Basic alice@campus.edu")
              ∅ ∅ None) "Basic" "alice@campus.edu");
    reflexivity.
Defined.

Lemma reachable_referential_witness :
  reachable (H := sample_runtime) db_approved
  /\ Forall (fun b => notifiable b db_approved
                      /\ refers (user_ids db_approved) (Booking.reviewedBy b))
       (bookings db_approved).
Proof.
  split; [exact reachable_db_approved|]. apply Forall_forall.
  exact (proj1 (reachable_referential (H := sample_runtime) db_approved
                  reachable_db_approved)).
Defined.

Lemma long_name_registration_is_refused_witness :
  exists db',
    handle (H := sample_runtime) register_long_name 105 db_approved
    = Some (failed "Registration failed", db')
    /\ users db' = users db_approved.
Proof.
  destruct (long_name_registration_is_refused (H := sample_runtime) register_long_name 105
              db_approved long_name_registration (repeat_char "b" 101)
              eq_refl eq_refl eq_refl eq_refl eq_refl eq_refl)
    as (db' & Hh & Hus & _).
  exists db'. by split.
Defined.

Lemma refused_review_changes_nothing_witness :
  handle (H := sample_runtime) (approve_far "root@campus.edu") 104 db_booked
  = Some (failed "Failed to approve booking", db_booked).
Proof.
  apply (refused_review_changes_nothing (H := sample_runtime)
           (approve_far "root@campus.edu") 104 db_booked "2147483648" "approve" root
           2147483648);
    [reflexivity | reflexivity | discriminate | by left | apply authenticated_root
    | reflexivity | reflexivity | left; unfold int4; lia].
Defined.
